(** * Workflow synchroniser: a shallow embedding of [tools/workflow_sync]

    The development follows the Python package file by file:

    - [Py]: the few Python built-ins the code relies on ([str.strip],
      [str.startswith], [str.join], [int] to [str], truthiness) and the
      exceptions that travel through it;
    - the dataclasses of [models.py];
    - a state-and-exception monad: a Python call either returns or raises,
      and whatever it did to the world before raising stays done;
    - [IGitHubClient], the gateway interface of [clients/github_client.py],
      and the methods of its implementation [GitHubClient] that the
      properties below speak of, written over the PyGithub calls they make;
    - [services/sync_service.py]: [PRBodyGenerator], [WorkflowSyncService]
      and the two strategies;
    - [spy], a recording gateway (what [unittest.mock] would give): every
      call made through it is appended, with its arguments and its result,
      to a list kept beside the world.

    Strings are UTF-8 byte sequences ([String.string]); [time.time()] is a
    rational number of seconds (binary floating point is idealised); calls
    to [logger] in [sync_service.py] return nothing, cannot raise and are
    left out, while the records written by the methods of [GitHubClient] are
    kept in the client's state. *)

From Stdlib Require Import String Ascii List ZArith Lia Bool Arith.
From Stdlib Require Import Permutation DecimalString QArith.
Import ListNotations.
Open Scope nat_scope.
Open Scope list_scope.
Open Scope string_scope.

(* ================================================================== *)
(** * Python built-ins *)
(* ================================================================== *)

Module Py.

(** [str(n)] for an [int]. *)
Definition str_of_int (z : Z) : string := NilZero.string_of_int (Z.to_int z).

(** [len(l)] rendered by an f-string. *)
Definition str_of_len {A : Type} (l : list A) : string :=
  str_of_int (Z.of_nat (List.length l)).

(** [int(x)] for a float [x]: truncation towards zero. *)
Definition int_of_float (x : Q) : Z := Z.quot (Qnum x) (Zpos (Qden x)).

(** ["%.0f" % x]: the nearest integer, a tie going to the even one, and
    the sign kept when a negative [x] rounds to zero. *)
Definition round_half_even (x : Q) : Z :=
  let n := Qnum x in
  let d := Zpos (Qden x) in
  let q := (n / d)%Z in
  let r := (n mod d)%Z in
  match (2 * r ?= d)%Z with
  | Lt => q
  | Gt => (q + 1)%Z
  | Eq => if Z.even q then q else (q + 1)%Z
  end.

Definition format_0f (x : Q) : string :=
  let z := round_half_even x in
  if (Qnum x <? 0)%Z && (z =? 0)%Z then "-0" else str_of_int z.

(** [s.startswith(p)] and [s.endswith(p)]. *)
Definition startswith (s p : string) : bool := String.prefix p s.

Definition rev_string (s : string) : string :=
  string_of_list_ascii (List.rev (list_ascii_of_string s)).

Definition endswith (s p : string) : bool :=
  String.prefix (rev_string p) (rev_string s).

(** [sep.join(l)]. *)
Definition join (sep : string) (l : list string) : string := String.concat sep l.

(** [x in l] for a list of strings. *)
Definition str_in (x : string) (l : list string) : bool :=
  List.existsb (String.eqb x) l.

(** Truthiness of a [str], of a [str | None] and of a list. *)
Definition truthy_str (s : string) : bool := negb (String.eqb s "").

Definition truthy_opt (o : option string) : bool :=
  match o with
  | Some s => truthy_str s
  | None => false
  end.

Definition truthy_list {A : Type} (l : list A) : bool :=
  match l with
  | [] => false
  | _ :: _ => true
  end.

(** ** [str.strip()]

    Python strips the code points for which [str.isspace()] holds:
    U+0009..U+000D, U+001C..U+0020, U+0085, U+00A0, U+1680,
    U+2000..U+200A, U+2028, U+2029, U+202F, U+205F and U+3000.  On UTF-8
    text each is the byte sequence listed here, and no sequence is the
    tail of another character's encoding. *)

Definition byte_in (lo hi : nat) (a : ascii) : bool :=
  let n := nat_of_ascii a in ((lo <=? n) && (n <=? hi))%nat.

Definition byte_is (k : nat) (a : ascii) : bool := (nat_of_ascii a =? k)%nat.

(** The text after one leading whitespace character, if there is one. *)
Definition drop_space (s : string) : option string :=
  match s with
  | String a r1 =>
    if byte_in 9 13 a || byte_in 28 32 a then Some r1
    else
      match r1 with
      | String b r2 =>
        if byte_is 194 a && (byte_is 133 b || byte_is 160 b) then Some r2
        else
          match r2 with
          | String c r3 =>
            if byte_is 225 a && byte_is 154 b && byte_is 128 c then Some r3
            else if byte_is 226 a && byte_is 128 b
                    && (byte_in 128 138 c || byte_in 168 169 c || byte_is 175 c)
            then Some r3
            else if byte_is 226 a && byte_is 129 b && byte_is 159 c then Some r3
            else if byte_is 227 a && byte_is 128 b && byte_is 128 c then Some r3
            else None
          | EmptyString => None
          end
      | EmptyString => None
      end
  | EmptyString => None
  end.

(** The same from the right, on the reversed text. *)
Definition drop_space_rev (s : string) : option string :=
  match s with
  | String a r1 =>
    if byte_in 9 13 a || byte_in 28 32 a then Some r1
    else
      match r1 with
      | String b r2 =>
        if byte_is 194 b && (byte_is 133 a || byte_is 160 a) then Some r2
        else
          match r2 with
          | String c r3 =>
            if byte_is 225 c && byte_is 154 b && byte_is 128 a then Some r3
            else if byte_is 226 c && byte_is 128 b
                    && (byte_in 128 138 a || byte_in 168 169 a || byte_is 175 a)
            then Some r3
            else if byte_is 226 c && byte_is 129 b && byte_is 159 a then Some r3
            else if byte_is 227 c && byte_is 128 b && byte_is 128 a then Some r3
            else None
          | EmptyString => None
          end
      | EmptyString => None
      end
  | EmptyString => None
  end.

Fixpoint drop_while (step : string -> option string) (fuel : nat) (s : string)
  : string :=
  match fuel with
  | O => s
  | S fuel' =>
    match step s with
    | Some r => drop_while step fuel' r
    | None => s
    end
  end.

Definition lstrip (s : string) : string :=
  drop_while drop_space (String.length s) s.

Definition rstrip (s : string) : string :=
  rev_string (drop_while drop_space_rev (String.length s) (rev_string s)).

Definition strip (s : string) : string := rstrip (lstrip s).

(** ** Exceptions

    [GithubException] is PyGithub's; [RateLimitExceededException] is its
    subclass, told apart by [gh_rate_limit_exceeded].  [gh_secondary]
    stands for the test
    [hasattr(e, "data") and e.data and "secondary rate limit" in str(e.data).lower()],
    and the last field of every exception is what [str(e)] gives.
    [OtherException] is any other subclass of [Exception] (a network
    error, a decoding error, ...). *)

Record GithubError : Type := mkGithubError {
  gh_status : Z;
  gh_secondary : bool;
  gh_rate_limit_exceeded : bool;
  gh_text : string
}.

Inductive Exc : Type :=
| GithubException (g : GithubError)
| WorkflowSyncError (msg : string)
| SourceRepoError (msg : string)
| ValidationError (msg : string)
| RateLimitError (msg : string)
| AuthenticationError (msg : string)
| RepositoryAccessError (msg : string)
| RuntimeError (msg : string)
| OtherException (msg : string).

Definition str_of_exc (e : Exc) : string :=
  match e with
  | GithubException g => gh_text g
  | WorkflowSyncError m | SourceRepoError m | ValidationError m
  | RateLimitError m | AuthenticationError m | RepositoryAccessError m
  | RuntimeError m | OtherException m => m
  end.

(** [isinstance(e, GithubException)]. *)
Definition is_GithubException (e : Exc) : bool :=
  match e with
  | GithubException _ => true
  | _ => false
  end.

(** The result of a Python call. *)
Inductive outcome (A : Type) : Type :=
| Returned (a : A)
| Raised (e : Exc).

Arguments Returned {A} a.
Arguments Raised {A} e.

Definition returned {A : Type} (r : outcome A) : bool :=
  match r with
  | Returned _ => true
  | Raised _ => false
  end.

(** ** [dict[str, str]]: insertion-ordered, keys unique *)
Definition dict : Type := list (string * string).

(** [d[k] = v]: an existing key keeps its place. *)
Fixpoint dict_set (d : dict) (k v : string) : dict :=
  match d with
  | [] => [(k, v)]
  | (k', v') :: rest =>
    if String.eqb k' k then (k, v) :: rest else (k', v') :: dict_set rest k v
  end.

End Py.

Import Py.

(* ================================================================== *)
(** * [models.py] *)
(* ================================================================== *)

Inductive SyncStatus : Type := SUCCESS | SKIPPED | ERROR | NO_CHANGES.

(** [pr_url] is declared [str | None]; [_create_sync_pr] stores in it what
    [create_pull_request] returned, the pair of the URL and the number. *)
Record SyncResult : Type := mkSyncResult {
  repo_name : string;
  status : SyncStatus;
  pr_url : option (string * Z);
  message : string;
  files_updated : list string;
  files_failed : list string;
  branch_created : option string;
  duration_seconds : Q
}.

Definition set_duration_seconds (r : SyncResult) (d : Q) : SyncResult :=
  {| repo_name := repo_name r;
     status := status r;
     pr_url := pr_url r;
     message := message r;
     files_updated := files_updated r;
     files_failed := files_failed r;
     branch_created := branch_created r;
     duration_seconds := d |}.

Record SyncConfig : Type := mkSyncConfig {
  token : string;
  org : string;
  topic : string;
  source_repo : string;
  dry_run : bool;
  files_filter : list string;
  max_workers : Z;
  timeout : Z
}.

Record FileChange : Type := mkFileChange {
  filename : string;
  content : string;
  existing_sha : option string
}.

Definition is_new (c : FileChange) : bool :=
  match existing_sha c with
  | None => true
  | Some _ => false
  end.

Module RepositoryInfo.
Record t : Type := mk {
  name : string;
  full_name : string;
  default_branch : string;
  archived : bool;
  has_push_permission : bool
}.
End RepositoryInfo.

(** PyGithub's [Repository], as far as the code reads it.  Its attributes
    are loaded on demand, and the code expects [default_branch] to be able
    to raise ([_check_skip_conditions] wraps it in [try]). *)
Module Repository.
Record t : Type := mk {
  name : string;
  full_name : string;
  archived : bool;
  default_branch : outcome string
}.
End Repository.

(* ================================================================== *)
(** * Calls that return or raise, over a state *)
(* ================================================================== *)

Definition M (S A : Type) : Type := S -> outcome A * S.

Definition ret {S A : Type} (a : A) : M S A := fun s => (Returned a, s).

Definition raise {S A : Type} (e : Exc) : M S A := fun s => (Raised e, s).

Definition bind {S A B : Type} (c : M S A) (k : A -> M S B) : M S B :=
  fun s =>
    match c s with
    | (Returned a, s') => k a s'
    | (Raised e, s') => (Raised e, s')
    end.

(** [try: body / except <class> as e: handler]: the handler runs in the
    state the body left behind. *)
Definition try_except_on {S A : Type} (caught : Exc -> bool)
  (body : M S A) (handler : Exc -> M S A) : M S A :=
  fun s =>
    match body s with
    | (Returned a, s') => (Returned a, s')
    | (Raised e, s') => if caught e then handler e s' else (Raised e, s')
    end.

(** [except Exception]: every exception of [Exc]. *)
Definition try_except {S A : Type} (body : M S A) (handler : Exc -> M S A)
  : M S A :=
  try_except_on (fun _ => true) body handler.

(** Reading an attribute whose loading may raise. *)
Definition attr {S A : Type} (r : outcome A) : M S A := fun s => (r, s).

Declare Scope py_scope.
Delimit Scope py_scope with py.
Notation "x <- c1 ;; c2" := (bind c1 (fun x => c2))
  (at level 61, c1 at next level, right associativity) : py_scope.
Notation "c1 ;; c2" := (bind c1 (fun _ => c2))
  (at level 61, right associativity) : py_scope.
Open Scope py_scope.

(* ================================================================== *)
(** * [clients/github_client.py] *)
(* ================================================================== *)

(** ** The gateway the service is written against

    The methods [WorkflowSyncService] and the strategies call.
    [get_base_sha], [branch_exists] and [handle_post_operation_rate_limit]
    are called by the service although the abstract class does not declare
    them; the declared methods the service never calls are not listed. *)
Module IGitHubClient.
Record t (W : Type) : Type := mk {
  get_repository : string -> M W Repository.t;
  search_repositories_by_topic : string -> string -> M W (list RepositoryInfo.t);
  get_file_content : Repository.t -> string -> M W (option (string * string));
  get_workflow_files : Repository.t -> string -> M W dict;
  create_branch : Repository.t -> string -> string -> M W unit;
  delete_branch : Repository.t -> string -> M W unit;
  create_or_update_file :
    Repository.t -> string -> string -> string -> string -> option string
    -> M W unit;
  create_pull_request :
    Repository.t -> string -> string -> string -> string -> M W (string * Z);
  get_open_prs_with_prefix : Repository.t -> string -> M W (list string);
  check_rate_limit : bool -> M W unit;
  get_base_sha : Repository.t -> string -> M W string;
  branch_exists : Repository.t -> string -> M W bool;
  handle_post_operation_rate_limit : M W unit
}.
Arguments get_repository {W}.
Arguments search_repositories_by_topic {W}.
Arguments get_file_content {W}.
Arguments get_workflow_files {W}.
Arguments create_branch {W}.
Arguments delete_branch {W}.
Arguments create_or_update_file {W}.
Arguments create_pull_request {W}.
Arguments get_open_prs_with_prefix {W}.
Arguments check_rate_limit {W}.
Arguments get_base_sha {W}.
Arguments branch_exists {W}.
Arguments handle_post_operation_rate_limit {W}.
End IGitHubClient.

(** ** [GitHubClient]: the methods the properties speak of *)
Module GitHubClient.

Inductive Level : Type := LDEBUG | LINFO | LWARNING | LERROR.

Record LogRecord : Type := mkLog { level : Level; text : string }.

(** PyGithub's [ContentFile]: [decoded] is what
    [base64.b64decode(content.content).decode("utf-8")] evaluates to,
    which may raise. *)
Record ContentFile : Type := mkContentFile {
  cf_type : string;
  cf_name : string;
  cf_decoded : outcome string;
  cf_sha : string
}.

(** [repo.get_contents(path)] gives one file or a directory listing. *)
Inductive Contents : Type :=
| OneFile (c : ContentFile)
| Listing (l : list ContentFile).

Record GitRef : Type := mkGitRef {
  gr_ref : string;
  gr_url : string;
  gr_sha : string
}.

Record PullRequest : Type := mkPull { head_ref : string; html_url : string }.

(** A [datetime], by its POSIX timestamp and what [str()] gives for it. *)
Record Datetime : Type := mkDatetime {
  dt_timestamp : Q;
  dt_str : string
}.

Record Rate : Type := mkRate { remaining : Z; reset : Datetime }.

(** What [get_rate_limit()] answers: [core] is the object the chain of
    [getattr] arrives at, [search] the attribute of that name, if any. *)
Record RateLimit : Type := mkRateLimit {
  core : Rate;
  search : option Rate
}.

(** The PyGithub calls made by the methods below, over the remote state
    [G].  [repo.get_pulls(state="open")] is a paginated list: the pulls it
    yields, and the exception that ends the iteration early, if any. *)
Record PyGithub (G : Type) : Type := mkPyGithub {
  repo_get_contents : Repository.t -> string -> M G Contents;
  repo_get_git_ref : Repository.t -> string -> M G GitRef;
  ref_delete : GitRef -> M G unit;
  repo_get_pulls_open : Repository.t -> G -> (list PullRequest * option Exc) * G;
  get_rate_limit : M G RateLimit;
  datetime_now : G -> Q;
  time_sleep : Q -> G -> G
}.
Arguments repo_get_contents {G}.
Arguments repo_get_git_ref {G}.
Arguments ref_delete {G}.
Arguments repo_get_pulls_open {G}.
Arguments get_rate_limit {G}.
Arguments datetime_now {G}.
Arguments time_sleep {G}.

(** The client: the remote state and what its module's logger received. *)
Record State (G : Type) : Type := mkState {
  github : G;
  records : list LogRecord
}.
Arguments mkState {G}.
Arguments github {G}.
Arguments records {G}.

Section Methods.

Variable G : Type.
Variable api : PyGithub G.

Definition MAX_RETRIES : Z := 3.
Definition RETRY_DELAY_BASE : Z := 2.
Definition MAX_RATE_LIMIT_WAIT : Z := 300.
Definition RATE_LIMIT_THRESHOLD : Z := 50.
Definition SEARCH_RATE_LIMIT_THRESHOLD : Z := 5.

(** A PyGithub call, run on the client's remote state. *)
Definition gh {A : Type} (op : M G A) : M (State G) A :=
  fun s =>
    let (r, g') := op (github s) in
    (r, {| github := g'; records := records s |}).

Definition sleep (seconds : Q) : M (State G) unit :=
  fun s =>
    (Returned tt,
     {| github := time_sleep api seconds (github s); records := records s |}).

Definition log (l : Level) (msg : string) : M (State G) unit :=
  fun s =>
    (Returned tt,
     {| github := github s; records := (records s ++ [mkLog l msg])%list |}).

Definition attempt_of (attempt : Z) : string :=
  " (attempt " ++ str_of_int (attempt + 1) ++ "/" ++ str_of_int MAX_RETRIES ++ ")".

(** The body of [for attempt in range(MAX_RETRIES)] in
    [_api_call_with_retry], and what follows the loop. *)
Fixpoint _api_call_with_retry_from {A : Type} (operation : M G A)
  (operation_name : string) (attempts : list Z) (last_exception : option Exc)
  : M (State G) A :=
  match attempts with
  | [] =>
    log LERROR (operation_name ++ ": All " ++ str_of_int MAX_RETRIES
                ++ " retries exhausted") ;;
    match last_exception with
    | Some e => raise e
    | None =>
      raise (RuntimeError (operation_name ++ " failed after "
                           ++ str_of_int MAX_RETRIES ++ " retries"))
    end
  | attempt :: rest =>
    let again (wait_time : Z) (what : string) (e : Exc) : M (State G) A :=
      log LWARNING (operation_name ++ ": " ++ what
                    ++ str_of_int wait_time ++ "s"
                    ++ attempt_of attempt) ;;
      sleep (inject_Z wait_time) ;;
      _api_call_with_retry_from operation operation_name rest (Some e) in
    fun s =>
      match gh operation s with
      | (Returned a, s') => (Returned a, s')
      | (Raised e, s') =>
        match e with
        | GithubException g =>
          if gh_rate_limit_exceeded g then
            again (RETRY_DELAY_BASE ^ (attempt + 1))%Z
                  "Rate limited. Retrying in " e s'
          else if existsb (Z.eqb (gh_status g)) [500; 502; 503; 504]%Z then
            again (RETRY_DELAY_BASE ^ (attempt + 1))%Z
                  ("Server error " ++ str_of_int (gh_status g)
                   ++ ". Retrying in ") e s'
          else if (gh_status g =? 403)%Z && gh_secondary g then
            again (Z.min (60 * 2 ^ attempt) MAX_RATE_LIMIT_WAIT)%Z
                  "Secondary rate limit. Waiting " e s'
          else (Raised e, s')
        | _ =>
          again (RETRY_DELAY_BASE ^ (attempt + 1))%Z
                ("Network error '" ++ str_of_exc e ++ "'. Retrying in ") e s'
        end
      end
  end.

Definition range (n : Z) : list Z :=
  List.map Z.of_nat (List.seq 0 (Z.to_nat n)).

Definition _api_call_with_retry {A : Type} (operation : M G A)
  (operation_name : string) : M (State G) A :=
  _api_call_with_retry_from operation operation_name (range MAX_RETRIES) None.

(** The loop of [get_workflow_files] over the listing. *)
Fixpoint collect_workflows (contents : list ContentFile) (workflows : dict)
  : M (State G) dict :=
  match contents with
  | [] => ret workflows
  | c :: rest =>
    if String.eqb (cf_type c) "file"
       && (endswith (cf_name c) ".yml" || endswith (cf_name c) ".yaml")
    then
      file_content <- attr (cf_decoded c) ;;
      collect_workflows rest (dict_set workflows (cf_name c) file_content)
    else collect_workflows rest workflows
  end.

Definition get_workflow_files (repo : Repository.t) (path : string)
  : M (State G) dict :=
  let workflows : dict := [] in
  try_except_on is_GithubException
    (contents <- _api_call_with_retry (repo_get_contents api repo path)
                   ("get_contents(" ++ path ++ ")") ;;
     let contents :=
       match contents with
       | Listing l => l
       | OneFile c => [c]
       end in
     collect_workflows contents workflows)
    (fun e =>
       match e with
       | GithubException g =>
         if (gh_status g =? 404)%Z
         then raise (SourceRepoError ("Workflows path not found: " ++ path))
         else raise e
       | _ => raise e
       end).

Definition delete_branch (repo : Repository.t) (branch_name : string)
  : M (State G) unit :=
  try_except_on is_GithubException
    (ref <- gh (repo_get_git_ref api repo ("heads/" ++ branch_name)) ;;
     gh (ref_delete api ref) ;;
     log LINFO ("Branch eliminado: " ++ branch_name ++ " en "
                ++ Repository.name repo))
    (fun e =>
       log LWARNING ("No se pudo eliminar branch " ++ branch_name ++ " en "
                     ++ Repository.name repo ++ ": " ++ str_of_exc e)).

(** The loop of [get_open_prs_with_prefix] over the pulls yielded. *)
Fixpoint collect_urls (pulls : list PullRequest) (branch_prefix : string)
  (urls : list string) : list string :=
  match pulls with
  | [] => urls
  | pr :: rest =>
    if startswith (head_ref pr) branch_prefix
    then collect_urls rest branch_prefix (urls ++ [html_url pr])%list
    else collect_urls rest branch_prefix urls
  end.

Definition get_open_prs_with_prefix (repo : Repository.t)
  (branch_prefix : string) : M (State G) (list string) :=
  fun s =>
    let '(pulls, stopped, g') := repo_get_pulls_open api repo (github s) in
    let s' := {| github := g'; records := records s |} in
    let urls := collect_urls pulls branch_prefix [] in
    match stopped with
    | None => (Returned urls, s')
    | Some e =>
      if is_GithubException e then
        (log LDEBUG ("No se pudieron verificar PRs existentes para "
                     ++ Repository.name repo ++ ": " ++ str_of_exc e) ;;
         ret urls) s'
      else (Raised e, s')
    end.

(** [_wait_for_rate_limit_reset]; a naive [reset_time] is read as UTC, so
    the difference is that of the timestamps. *)
Definition _wait_for_rate_limit_reset (reset_time : Datetime) (remaining : Z)
  (limit_type : string) : M (State G) unit :=
  fun s =>
    let now := datetime_now api (github s) in
    let wait_seconds := Qplus (Qminus (dt_timestamp reset_time) now) 5 in
    if negb (Qle_bool wait_seconds 0) then
      let wait_seconds :=
        if Qle_bool wait_seconds (inject_Z MAX_RATE_LIMIT_WAIT)
        then wait_seconds
        else inject_Z MAX_RATE_LIMIT_WAIT in
      (log LWARNING ("Rate limit bajo (" ++ str_of_int remaining
                     ++ " restantes para " ++ limit_type ++ "). Esperando "
                     ++ format_0f wait_seconds ++ " segundos.") ;;
       sleep wait_seconds) s
    else (Returned tt, s).

Definition check_rate_limit (is_search : bool) : M (State G) unit :=
  try_except_on is_GithubException
    (rate_limit <- gh (get_rate_limit api) ;;
     let core_limit := core rate_limit in
     let search_limit :=
       match search rate_limit with
       | Some limit => limit
       | None => core_limit
       end in
     let '(remaining, reset_time, threshold, limit_type) :=
       if is_search
       then (remaining search_limit, reset search_limit,
             SEARCH_RATE_LIMIT_THRESHOLD, "Search API")
       else (remaining core_limit, reset core_limit,
             RATE_LIMIT_THRESHOLD, "Core API") in
     log LDEBUG ("Rate limit check - " ++ limit_type ++ ": "
                 ++ str_of_int remaining ++ " remaining, resets at "
                 ++ dt_str reset_time) ;;
     if (remaining <? threshold)%Z
     then _wait_for_rate_limit_reset reset_time remaining limit_type
     else ret tt)
    (fun e =>
       log LWARNING ("No se pudo verificar rate limit: " ++ str_of_exc e)).

Definition handle_post_operation_rate_limit : M (State G) unit :=
  try_except
    (rate_limit <- gh (get_rate_limit api) ;;
     let core_limit := core rate_limit in
     let remaining := remaining core_limit in
     let reset_time := reset core_limit in
     if (remaining <? 10)%Z
     then _wait_for_rate_limit_reset reset_time remaining "Core API"
     else if (remaining <? RATE_LIMIT_THRESHOLD)%Z then sleep 2
     else sleep 1)
    (fun e =>
       log LDEBUG ("Rate limit check failed: " ++ str_of_exc e
                   ++ ", using conservative delay") ;;
       sleep 2).

End Methods.

End GitHubClient.

(* ================================================================== *)
(** * [services/sync_service.py] *)
(* ================================================================== *)

(** What the service takes from the interpreter besides the gateway:
    the clock and the random generator.  [random.randint(a, b)] is
    [a + draw mod (b - a + 1)] for a draw of the generator. *)
Record Runtime (W : Type) : Type := mkRuntime {
  time_time : W -> Q * W;
  random_draw : W -> N * W
}.
Arguments time_time {W}.
Arguments random_draw {W}.

(** The attributes of a [WorkflowSyncService] that change, and the world
    its client and runtime act on. *)
Record Service (W : Type) : Type := mkService {
  world : W;
  _source_workflows : dict;
  _start_time : option Q
}.
Arguments mkService {W}.
Arguments world {W}.
Arguments _source_workflows {W}.
Arguments _start_time {W}.

(** The local variables of [_create_sync_pr] that its handler reads. *)
Record Locals : Type := mkLocals {
  l_branch_name : option string;
  l_files_updated : list string;
  l_files_failed : list string
}.

Definition nl : string := String (ascii_of_nat 10) "".

Module PRBodyGenerator.

Definition generate (org source_repo : string)
  (files_updated files_failed : list string) : string :=
  let files_list := join nl (List.map (fun f => "- `" ++ f ++ "`") files_updated) in
  let partial_warning :=
    if truthy_list files_failed then
      let failed_list :=
        join ", " (List.map (fun f => "`" ++ f ++ "`") files_failed) in
      nl ++ nl ++ "> **Warning**: Algunos archivos no se pudieron "
         ++ "sincronizar: " ++ failed_list ++ nl
    else "" in
  "## Sincronización de Workflows" ++ nl
  ++ nl
  ++ "Este PR sincroniza los GitHub Actions workflows desde el repositorio fuente."
  ++ nl
  ++ nl
  ++ "### Archivos actualizados" ++ nl
  ++ files_list ++ nl
  ++ partial_warning ++ nl
  ++ "### Repositorio fuente" ++ nl
  ++ "`" ++ org ++ "/" ++ source_repo ++ "`" ++ nl
  ++ nl
  ++ "---" ++ nl
  ++ "*PR generado automáticamente por workflow-sync*" ++ nl.

End PRBodyGenerator.

Definition WORKFLOWS_PATH : string := ".github/workflows".
Definition BRANCH_PREFIX : string := "sync/workflows-update".

Section WorkflowSyncService.

Variable W : Type.
Variable client : IGitHubClient.t W.
Variable runtime : Runtime W.
Variable config : SyncConfig.

(** A gateway call: it acts on the world and leaves the service's own
    attributes alone. *)
Definition call {A : Type} (op : M W A) : M (Service W) A :=
  fun s =>
    let (r, w') := op (world s) in
    (r, {| world := w';
           _source_workflows := _source_workflows s;
           _start_time := _start_time s |}).

Definition time : M (Service W) Q :=
  fun s =>
    let (t, w') := time_time runtime (world s) in
    (Returned t, {| world := w';
                    _source_workflows := _source_workflows s;
                    _start_time := _start_time s |}).

Definition randint (a b : Z) : M (Service W) Z :=
  fun s =>
    let (d, w') := random_draw runtime (world s) in
    (Returned (a + Z.of_N d mod (b - a + 1))%Z,
     {| world := w';
        _source_workflows := _source_workflows s;
        _start_time := _start_time s |}).

Definition set_source_workflows (d : dict) : M (Service W) unit :=
  fun s =>
    (Returned tt, {| world := world s;
                     _source_workflows := d;
                     _start_time := _start_time s |}).

Definition set_start_time (t : Q) : M (Service W) unit :=
  fun s =>
    (Returned tt, {| world := world s;
                     _source_workflows := _source_workflows s;
                     _start_time := Some t |}).

Definition get_source_workflows : M (Service W) dict :=
  fun s => (Returned (_source_workflows s), s).

(** ** [_load_source_workflows] *)
Definition _load_source_workflows : M (Service W) unit :=
  source_repo <- call (IGitHubClient.get_repository client
                         (org config ++ "/" ++ source_repo config)) ;;
  workflows <- call (IGitHubClient.get_workflow_files client source_repo
                       WORKFLOWS_PATH) ;;
  let workflows :=
    if truthy_list (files_filter config)
    then List.filter (fun kv => str_in (fst kv) (files_filter config)) workflows
    else workflows in
  if negb (truthy_list workflows)
  then raise (SourceRepoError ("No se encontraron workflows en " ++ WORKFLOWS_PATH))
  else set_source_workflows workflows.

(** ** [_check_skip_conditions] *)
Definition _check_skip_conditions (repo : Repository.t)
  : M (Service W) (option SyncResult) :=
  if Repository.archived repo then
    ret (Some {| repo_name := Repository.name repo;
                 status := SKIPPED;
                 pr_url := None;
                 message := "Repositorio archivado";
                 files_updated := [];
                 files_failed := [];
                 branch_created := None;
                 duration_seconds := 0%Q |})
  else
    no_branch <-
      try_except
        (default_branch <- attr (Repository.default_branch repo) ;;
         if negb (truthy_str default_branch) then
           ret (Some {| repo_name := Repository.name repo;
                        status := SKIPPED;
                        pr_url := None;
                        message := "Repositorio sin branch por defecto";
                        files_updated := [];
                        files_failed := [];
                        branch_created := None;
                        duration_seconds := 0%Q |})
         else ret None)
        (fun _ =>
           ret (Some {| repo_name := Repository.name repo;
                        status := SKIPPED;
                        pr_url := None;
                        message := "Repositorio vacío (sin commits)";
                        files_updated := [];
                        files_failed := [];
                        branch_created := None;
                        duration_seconds := 0%Q |})) ;;
    match no_branch with
    | Some skipped => ret (Some skipped)
    | None =>
      existing_prs <- call (IGitHubClient.get_open_prs_with_prefix client repo
                              BRANCH_PREFIX) ;;
      match existing_prs with
      | first :: _ =>
        ret (Some {| repo_name := Repository.name repo;
                     status := SKIPPED;
                     pr_url := None;
                     message := "PR de sync existente: " ++ first;
                     files_updated := [];
                     files_failed := [];
                     branch_created := None;
                     duration_seconds := 0%Q |})
      | [] => ret None
      end
    end.

(** ** [_get_required_changes]: the loop over [_source_workflows.items()] *)
Fixpoint _get_required_changes_from (repo : Repository.t) (items : dict)
  (changes : list FileChange) : M (Service W) (list FileChange) :=
  match items with
  | [] => ret changes
  | (filename, new_content) :: rest =>
    let file_path := WORKFLOWS_PATH ++ "/" ++ filename in
    result <- call (IGitHubClient.get_file_content client repo file_path) ;;
    match result with
    | None =>
      _get_required_changes_from repo rest
        (changes ++ [{| filename := filename;
                        content := new_content;
                        existing_sha := None |}])%list
    | Some (existing_content, sha) =>
      if negb (String.eqb (strip existing_content) (strip new_content)) then
        _get_required_changes_from repo rest
          (changes ++ [{| filename := filename;
                          content := new_content;
                          existing_sha := Some sha |}])%list
      else _get_required_changes_from repo rest changes
    end
  end.

Definition _get_required_changes (repo : Repository.t)
  : M (Service W) (list FileChange) :=
  items <- get_source_workflows ;;
  _get_required_changes_from repo items [].

(** ** [_generate_unique_branch_name] *)
Definition _generate_unique_branch_name (repo : Repository.t)
  : M (Service W) string :=
  now <- time ;;
  let timestamp := int_of_float (Qmult now (inject_Z 1000)) in
  let branch_name := BRANCH_PREFIX ++ "-" ++ str_of_int timestamp in
  taken <- call (IGitHubClient.branch_exists client repo branch_name) ;;
  if (taken : bool) then
    suffix <- randint 1000 9999 ;;
    ret (branch_name ++ "-" ++ str_of_int suffix)
  else ret branch_name.

(** ** [_create_sync_pr]

    [branch_name], [files_updated] and [files_failed] are assigned inside
    the [try] and read by its handler, so the body runs over them too. *)
Definition lift {A : Type} (c : M (Service W) A) : M (Locals * Service W) A :=
  fun ls =>
    let (r, s') := c (snd ls) in (r, (fst ls, s')).

Definition locals : M (Locals * Service W) Locals :=
  fun ls => (Returned (fst ls), ls).

Definition set_branch_name (b : string) : M (Locals * Service W) unit :=
  fun ls =>
    (Returned tt,
     ({| l_branch_name := Some b;
         l_files_updated := l_files_updated (fst ls);
         l_files_failed := l_files_failed (fst ls) |}, snd ls)).

Definition files_updated_append (f : string) : M (Locals * Service W) unit :=
  fun ls =>
    (Returned tt,
     ({| l_branch_name := l_branch_name (fst ls);
         l_files_updated := (l_files_updated (fst ls) ++ [f])%list;
         l_files_failed := l_files_failed (fst ls) |}, snd ls)).

Definition files_failed_append (f : string) : M (Locals * Service W) unit :=
  fun ls =>
    (Returned tt,
     ({| l_branch_name := l_branch_name (fst ls);
         l_files_updated := l_files_updated (fst ls);
         l_files_failed := (l_files_failed (fst ls) ++ [f])%list |}, snd ls)).

Definition with_locals {A : Type} (init : Locals) (c : M (Locals * Service W) A)
  : M (Service W) A :=
  fun s =>
    let (r, ls') := c (init, s) in (r, snd ls').

(** One turn of [for change in changes], with its own [try]. *)
Definition apply_change (repo : Repository.t) (branch_name : string)
  (change : FileChange) : M (Locals * Service W) unit :=
  try_except
    (let file_path := WORKFLOWS_PATH ++ "/" ++ filename change in
     let message :=
       "chore: " ++ (if truthy_opt (existing_sha change) then "sync" else "add")
       ++ " workflow " ++ filename change in
     lift (call (IGitHubClient.create_or_update_file client repo file_path
                   (content change) message branch_name (existing_sha change))) ;;
     files_updated_append (filename change))
    (fun _ => files_failed_append (filename change)).

Fixpoint apply_changes (repo : Repository.t) (branch_name : string)
  (changes : list FileChange) : M (Locals * Service W) unit :=
  match changes with
  | [] => ret tt
  | change :: rest =>
    apply_change repo branch_name change ;;
    apply_changes repo branch_name rest
  end.

Definition _create_sync_pr (repo : Repository.t) (changes : list FileChange)
  : M (Service W) SyncResult :=
  with_locals {| l_branch_name := None;
                 l_files_updated := [];
                 l_files_failed := [] |}
    (try_except
       (default_branch <- attr (Repository.default_branch repo) ;;
        base_sha <- lift (call (IGitHubClient.get_base_sha client repo
                                  default_branch)) ;;
        branch_name <- lift (_generate_unique_branch_name repo) ;;
        set_branch_name branch_name ;;
        lift (call (IGitHubClient.create_branch client repo branch_name
                      base_sha)) ;;
        apply_changes repo branch_name changes ;;
        l <- locals ;;
        if negb (truthy_list (l_files_updated l)) then
          lift (call (IGitHubClient.delete_branch client repo branch_name)) ;;
          ret {| repo_name := Repository.name repo;
                 status := ERROR;
                 pr_url := None;
                 message := "Todas las actualizaciones fallaron";
                 files_updated := [];
                 files_failed := l_files_failed l;
                 branch_created := Some branch_name;
                 duration_seconds := 0%Q |}
        else
          let pr_body :=
            PRBodyGenerator.generate (org config) (source_repo config)
              (l_files_updated l) (l_files_failed l) in
          base <- attr (Repository.default_branch repo) ;;
          pr_url <- lift (call (IGitHubClient.create_pull_request client repo
                                  "chore: sync GitHub Actions workflows"
                                  pr_body branch_name base)) ;;
          ret {| repo_name := Repository.name repo;
                 status := SUCCESS;
                 pr_url := Some pr_url;
                 message := str_of_len (l_files_updated l)
                            ++ " archivo(s) actualizados";
                 files_updated := l_files_updated l;
                 files_failed := l_files_failed l;
                 branch_created := Some branch_name;
                 duration_seconds := 0%Q |})
       (fun e =>
          l <- locals ;;
          (if truthy_opt (l_branch_name l) then
             match l_branch_name l with
             | Some branch_name =>
               lift (call (IGitHubClient.delete_branch client repo branch_name))
             | None => ret tt
             end
           else ret tt) ;;
          ret {| repo_name := Repository.name repo;
                 status := ERROR;
                 pr_url := None;
                 message := "Error: " ++ str_of_exc e;
                 files_updated := l_files_updated l;
                 files_failed := l_files_failed l;
                 branch_created := l_branch_name l;
                 duration_seconds := 0%Q |})).

(** ** [sync_single_repo] *)
Definition sync_single_repo (repo : Repository.t) : M (Service W) SyncResult :=
  let branch_created : option string := None in
  try_except
    (skip_result <- _check_skip_conditions repo ;;
     match skip_result with
     | Some skipped => ret skipped
     | None =>
       changes <- _get_required_changes repo ;;
       if negb (truthy_list changes) then
         ret {| repo_name := Repository.name repo;
                status := NO_CHANGES;
                pr_url := None;
                message := "Todos los workflows están actualizados";
                files_updated := [];
                files_failed := [];
                branch_created := None;
                duration_seconds := 0%Q |}
       else if dry_run config then
         ret {| repo_name := Repository.name repo;
                status := SKIPPED;
                pr_url := None;
                message := "Dry run - " ++ str_of_len changes
                           ++ " archivo(s) cambiarían";
                files_updated := List.map filename changes;
                files_failed := [];
                branch_created := None;
                duration_seconds := 0%Q |}
       else _create_sync_pr repo changes
     end)
    (fun e =>
       (if truthy_opt branch_created then
          match branch_created with
          | Some b => call (IGitHubClient.delete_branch client repo b)
          | None => ret tt
          end
        else ret tt) ;;
       ret {| repo_name := Repository.name repo;
              status := ERROR;
              pr_url := None;
              message := "Error: " ++ str_of_exc e;
              files_updated := [];
              files_failed := [];
              branch_created := branch_created;
              duration_seconds := 0%Q |}).

(** ** [SequentialSyncStrategy.sync]: the loop over [enumerate(repos)] *)
Fixpoint SequentialSyncStrategy_sync_from (idx : nat) (repos : list Repository.t)
  (results : list SyncResult) : M (Service W) (list SyncResult) :=
  match repos with
  | [] => ret results
  | repo :: rest =>
    (if (0 <? idx)%nat && (idx mod 5 =? 0)%nat
     then call (IGitHubClient.check_rate_limit client false)
     else ret tt) ;;
    repo_start <- time ;;
    result <- sync_single_repo repo ;;
    now <- time ;;
    let result := set_duration_seconds result (Qminus now repo_start) in
    call (IGitHubClient.handle_post_operation_rate_limit client) ;;
    SequentialSyncStrategy_sync_from (S idx) rest (results ++ [result])%list
  end.

Definition SequentialSyncStrategy_sync (repos : list Repository.t)
  : M (Service W) (list SyncResult) :=
  SequentialSyncStrategy_sync_from 0 repos [].

(** ** [ParallelSyncStrategy.sync]

    One future per repository is submitted; [as_completed] hands them back
    in the order they finish, given here as [completion], the positions in
    [repos] in that order.  Each worker's [sync_single_repo] is run as one
    step, in completion order.  [ThreadPoolExecutor(max_workers=...)] raises
    [ValueError] for a number of workers that is not positive, before any
    future is submitted. *)
Fixpoint ParallelSyncStrategy_sync_from (repos : list Repository.t)
  (completion : list nat) (results : list SyncResult)
  : M (Service W) (list SyncResult) :=
  match completion with
  | [] => ret results
  | i :: rest =>
    match List.nth_error repos i with
    | None => ParallelSyncStrategy_sync_from repos rest results
    | Some repo =>
      result <-
        try_except (sync_single_repo repo)
          (fun exc =>
             ret {| repo_name := Repository.name repo;
                    status := ERROR;
                    pr_url := None;
                    message := str_of_exc exc;
                    files_updated := [];
                    files_failed := [];
                    branch_created := None;
                    duration_seconds := 0%Q |}) ;;
      ParallelSyncStrategy_sync_from repos rest (results ++ [result])%list
    end
  end.

Definition ParallelSyncStrategy_sync (max_workers : Z) (completion : list nat)
  (repos : list Repository.t) : M (Service W) (list SyncResult) :=
  if (max_workers <=? 0)%Z
  then raise (OtherException "max_workers must be greater than 0")
  else ParallelSyncStrategy_sync_from repos completion [].

(** ** [run] *)

(** The loop that drops the source repository and fetches the others. *)
Fixpoint repos_to_sync_from (source_full_name : string)
  (target_repos : list RepositoryInfo.t) (repos_to_sync : list Repository.t)
  : M (Service W) (list Repository.t) :=
  match target_repos with
  | [] => ret repos_to_sync
  | repo_info :: rest =>
    if String.eqb (RepositoryInfo.full_name repo_info) source_full_name then
      repos_to_sync_from source_full_name rest repos_to_sync
    else
      repo <- call (IGitHubClient.get_repository client
                      (RepositoryInfo.full_name repo_info)) ;;
      repos_to_sync_from source_full_name rest (repos_to_sync ++ [repo])%list
  end.

Definition run (parallel : bool) (completion : list nat)
  : M (Service W) (list SyncResult) :=
  started <- time ;;
  set_start_time started ;;
  call (IGitHubClient.check_rate_limit client false) ;;
  _load_source_workflows ;;
  call (IGitHubClient.check_rate_limit client true) ;;
  target_repos <- call (IGitHubClient.search_repositories_by_topic client
                          (org config) (topic config)) ;;
  if negb (truthy_list target_repos) then ret []
  else
    let source_full_name := org config ++ "/" ++ source_repo config in
    repos_to_sync <- repos_to_sync_from source_full_name target_repos [] ;;
    results <-
      (if parallel
       then ParallelSyncStrategy_sync (max_workers config) completion repos_to_sync
       else SequentialSyncStrategy_sync repos_to_sync) ;;
    finished <- time ;;
    ret results.

End WorkflowSyncService.

Arguments call {W A} op.
Arguments time {W} runtime.
Arguments randint {W} runtime a b.
Arguments set_source_workflows {W} d.
Arguments set_start_time {W} t.
Arguments get_source_workflows {W}.
Arguments _load_source_workflows {W} client config.
Arguments _check_skip_conditions {W} client repo.
Arguments _get_required_changes_from {W} client repo items changes.
Arguments _get_required_changes {W} client repo.
Arguments _generate_unique_branch_name {W} client runtime repo.
Arguments lift {W A} c.
Arguments locals {W}.
Arguments set_branch_name {W} b.
Arguments files_updated_append {W} f.
Arguments files_failed_append {W} f.
Arguments with_locals {W A} init c.
Arguments apply_change {W} client repo branch_name change.
Arguments apply_changes {W} client repo branch_name changes.
Arguments _create_sync_pr {W} client runtime config repo changes.
Arguments sync_single_repo {W} client runtime config repo.
Arguments SequentialSyncStrategy_sync_from {W} client runtime config idx repos results.
Arguments SequentialSyncStrategy_sync {W} client runtime config repos.
Arguments ParallelSyncStrategy_sync_from {W} client runtime config repos completion results.
Arguments ParallelSyncStrategy_sync {W} client runtime config max_workers completion repos.
Arguments repos_to_sync_from {W} client source_full_name target_repos repos_to_sync.
Arguments run {W} client runtime config parallel completion.

(* ================================================================== *)
(** * A recording gateway *)
(* ================================================================== *)

(** One call through the gateway: the method, its arguments and what came
    back. *)
Inductive Event : Type :=
| Called_get_repository (full_name : string) (r : outcome Repository.t)
| Called_search_repositories_by_topic (org topic : string)
    (r : outcome (list RepositoryInfo.t))
| Called_get_file_content (repo : Repository.t) (path : string)
    (r : outcome (option (string * string)))
| Called_get_workflow_files (repo : Repository.t) (path : string)
    (r : outcome dict)
| Called_create_branch (repo : Repository.t) (branch_name base_sha : string)
    (r : outcome unit)
| Called_delete_branch (repo : Repository.t) (branch_name : string)
    (r : outcome unit)
| Called_create_or_update_file (repo : Repository.t)
    (path content message branch : string) (sha : option string)
    (r : outcome unit)
| Called_create_pull_request (repo : Repository.t)
    (title body head base : string) (r : outcome (string * Z))
| Called_get_open_prs_with_prefix (repo : Repository.t) (branch_prefix : string)
    (r : outcome (list string))
| Called_check_rate_limit (is_search : bool) (r : outcome unit)
| Called_get_base_sha (repo : Repository.t) (branch : string)
    (r : outcome string)
| Called_branch_exists (repo : Repository.t) (branch_name : string)
    (r : outcome bool)
| Called_handle_post_operation_rate_limit (r : outcome unit).

(** Run [op] on the world and append the event to the list beside it. *)
Definition recorded {W A : Type} (ev : outcome A -> Event) (op : M W A)
  : M (W * list Event) A :=
  fun wt =>
    let (r, w') := op (fst wt) in
    (r, (w', (snd wt ++ [ev r])%list)).

Definition spy {W : Type} (c : IGitHubClient.t W)
  : IGitHubClient.t (W * list Event) :=
  {| IGitHubClient.get_repository := fun full_name =>
       recorded (Called_get_repository full_name)
         (IGitHubClient.get_repository c full_name);
     IGitHubClient.search_repositories_by_topic := fun org topic =>
       recorded (Called_search_repositories_by_topic org topic)
         (IGitHubClient.search_repositories_by_topic c org topic);
     IGitHubClient.get_file_content := fun repo path =>
       recorded (Called_get_file_content repo path)
         (IGitHubClient.get_file_content c repo path);
     IGitHubClient.get_workflow_files := fun repo path =>
       recorded (Called_get_workflow_files repo path)
         (IGitHubClient.get_workflow_files c repo path);
     IGitHubClient.create_branch := fun repo branch_name base_sha =>
       recorded (Called_create_branch repo branch_name base_sha)
         (IGitHubClient.create_branch c repo branch_name base_sha);
     IGitHubClient.delete_branch := fun repo branch_name =>
       recorded (Called_delete_branch repo branch_name)
         (IGitHubClient.delete_branch c repo branch_name);
     IGitHubClient.create_or_update_file :=
       fun repo path content message branch sha =>
         recorded (Called_create_or_update_file repo path content message
                     branch sha)
           (IGitHubClient.create_or_update_file c repo path content message
              branch sha);
     IGitHubClient.create_pull_request := fun repo title body head base =>
       recorded (Called_create_pull_request repo title body head base)
         (IGitHubClient.create_pull_request c repo title body head base);
     IGitHubClient.get_open_prs_with_prefix := fun repo branch_prefix =>
       recorded (Called_get_open_prs_with_prefix repo branch_prefix)
         (IGitHubClient.get_open_prs_with_prefix c repo branch_prefix);
     IGitHubClient.check_rate_limit := fun is_search =>
       recorded (Called_check_rate_limit is_search)
         (IGitHubClient.check_rate_limit c is_search);
     IGitHubClient.get_base_sha := fun repo branch =>
       recorded (Called_get_base_sha repo branch)
         (IGitHubClient.get_base_sha c repo branch);
     IGitHubClient.branch_exists := fun repo branch_name =>
       recorded (Called_branch_exists repo branch_name)
         (IGitHubClient.branch_exists c repo branch_name);
     IGitHubClient.handle_post_operation_rate_limit :=
       recorded Called_handle_post_operation_rate_limit
         (IGitHubClient.handle_post_operation_rate_limit c) |}.

(** The clock and the generator are no gateway calls: nothing is recorded. *)
Definition spy_runtime {W : Type} (rt : Runtime W) : Runtime (W * list Event) :=
  {| time_time := fun wt =>
       let (t, w') := time_time rt (fst wt) in (t, (w', snd wt));
     random_draw := fun wt =>
       let (d, w') := random_draw rt (fst wt) in (d, (w', snd wt)) |}.

(** The calls recorded so far. *)
Definition calls {W : Type} (s : Service (W * list Event)) : list Event :=
  snd (world s).

(** A service that has made no call yet. *)
Definition fresh {W : Type} (w : W) (source_workflows : dict)
  : Service (W * list Event) :=
  {| world := (w, []);
     _source_workflows := source_workflows;
     _start_time := None |}.

Definition is_create_branch (ev : Event) : bool :=
  match ev with
  | Called_create_branch _ _ _ _ => true
  | _ => false
  end.

Definition is_file_write (ev : Event) : bool :=
  match ev with
  | Called_create_or_update_file _ _ _ _ _ _ _ => true
  | _ => false
  end.

Definition is_create_pull_request (ev : Event) : bool :=
  match ev with
  | Called_create_pull_request _ _ _ _ _ _ => true
  | _ => false
  end.

Definition is_delete_branch (ev : Event) : bool :=
  match ev with
  | Called_delete_branch _ _ _ => true
  | _ => false
  end.

(** A call that changes the target: a branch, a file or a pull request. *)
Definition mutates (ev : Event) : bool :=
  is_create_branch ev || is_file_write ev || is_create_pull_request ev
  || is_delete_branch ev.


(* ================================================================== *)
(** * A small remote to run the code on *)
(* ================================================================== *)

(** An in-memory stand-in for GitHub, enough to execute the service: the
    repositories, the workflow files on their default branch, their
    branches and open pull requests, and a few switches that make calls
    fail.  The [GitHubClient] methods modelled above are used as they are;
    the other gateway methods act on the remote directly. *)
Module Demo.

Record Remote : Type := mkRemote {
  now : Q;
  seed : N;
  repositories : list Repository.t;
  tagged : list RepositoryInfo.t;
  workflows : list (string * list GitHubClient.ContentFile);
  heads : list (string * (string * string));
  pulls : list (string * GitHubClient.PullRequest);
  refused : list string;
  pulls_locked : bool;
  unreachable : option Exc;
  quota_unreadable : bool
}.

Definition with_now (g : Remote) (t : Q) : Remote :=
  {| now := t; seed := seed g; repositories := repositories g;
     tagged := tagged g; workflows := workflows g; heads := heads g;
     pulls := pulls g; refused := refused g; pulls_locked := pulls_locked g;
     unreachable := unreachable g; quota_unreadable := quota_unreadable g |}.

Definition with_seed (g : Remote) (n : N) : Remote :=
  {| now := now g; seed := n; repositories := repositories g;
     tagged := tagged g; workflows := workflows g; heads := heads g;
     pulls := pulls g; refused := refused g; pulls_locked := pulls_locked g;
     unreachable := unreachable g; quota_unreadable := quota_unreadable g |}.

Definition with_heads (g : Remote) (h : list (string * (string * string)))
  : Remote :=
  {| now := now g; seed := seed g; repositories := repositories g;
     tagged := tagged g; workflows := workflows g; heads := h;
     pulls := pulls g; refused := refused g; pulls_locked := pulls_locked g;
     unreachable := unreachable g; quota_unreadable := quota_unreadable g |}.

Definition with_pulls (g : Remote)
  (p : list (string * GitHubClient.PullRequest)) : Remote :=
  {| now := now g; seed := seed g; repositories := repositories g;
     tagged := tagged g; workflows := workflows g; heads := heads g;
     pulls := p; refused := refused g; pulls_locked := pulls_locked g;
     unreachable := unreachable g; quota_unreadable := quota_unreadable g |}.

Definition http (code : Z) (what : string) : Exc :=
  GithubException {| gh_status := code;
                     gh_secondary := false;
                     gh_rate_limit_exceeded := false;
                     gh_text := what |}.

Definition same_head (repo : Repository.t) (ref : string)
  (h : string * (string * string)) : bool :=
  String.eqb (fst h) (Repository.full_name repo)
  && String.eqb ("heads/" ++ fst (snd h)) ref.

Definition ref_url (full_name branch : string) : string :=
  full_name ++ "/git/refs/heads/" ++ branch.

Definition api : GitHubClient.PyGithub Remote :=
  {| GitHubClient.repo_get_contents := fun repo path g =>
       if String.eqb path WORKFLOWS_PATH then
         match List.find (fun e => String.eqb (fst e) (Repository.full_name repo))
                 (workflows g) with
         | Some e => (Returned (GitHubClient.Listing (snd e)), g)
         | None => (Raised (http 404 "Not Found"), g)
         end
       else (Raised (http 404 "Not Found"), g);
     GitHubClient.repo_get_git_ref := fun repo ref g =>
       match unreachable g with
       | Some e => (Raised e, g)
       | None =>
         match List.find (same_head repo ref) (heads g) with
         | Some h =>
           (Returned {| GitHubClient.gr_ref := "refs/" ++ ref;
                        GitHubClient.gr_url :=
                          ref_url (Repository.full_name repo) (fst (snd h));
                        GitHubClient.gr_sha := snd (snd h) |}, g)
         | None => (Raised (http 404 "Not Found"), g)
         end
       end;
     GitHubClient.ref_delete := fun ref g =>
       (Returned tt,
        with_heads g
          (List.filter
             (fun h => negb (String.eqb (ref_url (fst h) (fst (snd h)))
                               (GitHubClient.gr_url ref)))
             (heads g)));
     GitHubClient.repo_get_pulls_open := fun repo g =>
       ((List.map snd
           (List.filter
              (fun p => String.eqb (fst p) (Repository.full_name repo))
              (pulls g)),
         None), g);
     GitHubClient.get_rate_limit := fun g =>
       if quota_unreadable g
       then (Raised (OtherException "Connection reset by peer"), g)
       else
         let reset := {| GitHubClient.dt_timestamp := Qplus (now g) 3600;
                         GitHubClient.dt_str := "2023-11-14 23:13:20+00:00" |} in
         (Returned {| GitHubClient.core :=
                        {| GitHubClient.remaining := 4990;
                           GitHubClient.reset := reset |};
                      GitHubClient.search :=
                        Some {| GitHubClient.remaining := 29;
                                GitHubClient.reset := reset |} |}, g);
     GitHubClient.datetime_now := now;
     GitHubClient.time_sleep := fun seconds g =>
       with_now g (Qplus (now g) seconds) |}.

Definition World : Type := GitHubClient.State Remote.

Definition on_remote {A : Type} (op : M Remote A) : M World A :=
  GitHubClient.gh Remote op.

Definition find_file (repo : Repository.t) (path : string) (g : Remote)
  : option GitHubClient.ContentFile :=
  match List.find (fun e => String.eqb (fst e) (Repository.full_name repo))
          (workflows g) with
  | Some e =>
    List.find
      (fun c => String.eqb (WORKFLOWS_PATH ++ "/" ++ GitHubClient.cf_name c) path)
      (snd e)
  | None => None
  end.

Definition pull_url (full_name : string) (number : Z) : string :=
  "https://github.com/" ++ full_name ++ "/pull/" ++ str_of_int number.

Definition client : IGitHubClient.t World :=
  {| IGitHubClient.get_repository := fun full_name =>
       on_remote (fun g =>
         match List.find
                 (fun r => String.eqb (Repository.full_name r) full_name)
                 (repositories g) with
         | Some r => (Returned r, g)
         | None =>
           (Raised (SourceRepoError ("Repository not found: " ++ full_name)), g)
         end);
     IGitHubClient.search_repositories_by_topic := fun _ _ =>
       on_remote (fun g => (Returned (tagged g), g));
     IGitHubClient.get_file_content := fun repo path =>
       on_remote (fun g =>
         match find_file repo path g with
         | Some c =>
           match GitHubClient.cf_decoded c with
           | Returned text => (Returned (Some (text, GitHubClient.cf_sha c)), g)
           | Raised e => (Raised e, g)
           end
         | None => (Returned None, g)
         end);
     IGitHubClient.get_workflow_files := GitHubClient.get_workflow_files Remote api;
     IGitHubClient.create_branch := fun repo branch_name base_sha =>
       on_remote (fun g =>
         if List.existsb (same_head repo ("heads/" ++ branch_name)) (heads g)
         then (Raised (http 422 "Reference already exists"), g)
         else
           (Returned tt,
            with_heads g
              (heads g ++ [(Repository.full_name repo, (branch_name, base_sha))])));
     IGitHubClient.delete_branch := GitHubClient.delete_branch Remote api;
     IGitHubClient.create_or_update_file :=
       fun repo path content message branch sha =>
         on_remote (fun g =>
           if str_in path (refused g)
           then (Raised (http 409 ("Conflict: " ++ path)), g)
           else (Returned tt, g));
     IGitHubClient.create_pull_request := fun repo title body head base =>
       on_remote (fun g =>
         if pulls_locked g
         then (Raised (http 422 "Validation Failed"), g)
         else
           let number := Z.of_nat (S (List.length (pulls g))) in
           let url := pull_url (Repository.full_name repo) number in
           (Returned (url, number),
            with_pulls g
              (pulls g ++ [(Repository.full_name repo,
                            {| GitHubClient.head_ref := head;
                               GitHubClient.html_url := url |})])));
     IGitHubClient.get_open_prs_with_prefix :=
       GitHubClient.get_open_prs_with_prefix Remote api;
     IGitHubClient.check_rate_limit := GitHubClient.check_rate_limit Remote api;
     IGitHubClient.get_base_sha := fun repo branch =>
       on_remote (fun g =>
         match List.find (same_head repo ("heads/" ++ branch)) (heads g) with
         | Some h => (Returned (snd (snd h)), g)
         | None => (Raised (http 404 "Not Found"), g)
         end);
     IGitHubClient.branch_exists := fun repo branch_name =>
       on_remote (fun g =>
         (Returned
            (List.existsb (same_head repo ("heads/" ++ branch_name)) (heads g)),
          g));
     IGitHubClient.handle_post_operation_rate_limit :=
       GitHubClient.handle_post_operation_rate_limit Remote api |}.

(** The clock moves by one second at each reading; the generator counts. *)
Definition runtime : Runtime World :=
  {| time_time := fun s =>
       let g := GitHubClient.github s in
       (now g, {| GitHubClient.github := with_now g (Qplus (now g) 1);
                  GitHubClient.records := GitHubClient.records s |});
     random_draw := fun s =>
       let g := GitHubClient.github s in
       (seed g, {| GitHubClient.github := with_seed g (seed g + 1)%N;
                   GitHubClient.records := GitHubClient.records s |}) |}.

(** ** The scenario: a source with two workflows and three targets *)

Definition build_yml : string := "name: build" ++ nl ++ "on: push" ++ nl.
Definition deploy_yml : string := "name: deploy" ++ nl ++ "on: release" ++ nl.

Definition file (name text sha : string) : GitHubClient.ContentFile :=
  {| GitHubClient.cf_type := "file";
     GitHubClient.cf_name := name;
     GitHubClient.cf_decoded := Returned text;
     GitHubClient.cf_sha := sha |}.

Definition repository (name : string) (archived : bool) : Repository.t :=
  {| Repository.name := name;
     Repository.full_name := "Automya/" ++ name;
     Repository.archived := archived;
     Repository.default_branch := Returned "main" |}.

Definition info (name : string) (archived : bool) : RepositoryInfo.t :=
  {| RepositoryInfo.name := name;
     RepositoryInfo.full_name := "Automya/" ++ name;
     RepositoryInfo.default_branch := "main";
     RepositoryInfo.archived := archived;
     RepositoryInfo.has_push_permission := true |}.

Definition source : Repository.t := repository "ci-templates" false.
Definition repo_a : Repository.t := repository "service-a" false.
Definition repo_b : Repository.t := repository "service-b" true.
Definition repo_c : Repository.t := repository "service-c" false.
Definition repo_d : Repository.t := repository "service-d" false.

Definition open_pull : GitHubClient.PullRequest :=
  {| GitHubClient.head_ref := "sync/workflows-update-1700000000000";
     GitHubClient.html_url := "https://github.com/Automya/service-c/pull/7" |}.

Definition remote : Remote :=
  {| now := 1700000000 # 1;
     seed := 0;
     repositories := [source; repo_a; repo_b; repo_c; repo_d];
     tagged := [info "ci-templates" false; info "service-a" false;
                info "service-b" true; info "service-c" false;
                info "service-d" false];
     workflows :=
       [("Automya/ci-templates",
         [file "build.yml" build_yml "s1"; file "deploy.yml" deploy_yml "s2";
          file "README.md" "notes" "s3"]);
        ("Automya/service-a",
         [file "build.yml" (build_yml ++ nl ++ " ") "a1"]);
        ("Automya/service-d",
         [file "build.yml" build_yml "d1";
          file "deploy.yml" ("  " ++ deploy_yml) "d2"])];
     heads := [("Automya/ci-templates", ("main", "c0"));
               ("Automya/service-a", ("main", "a0"));
               ("Automya/service-b", ("main", "b0"));
               ("Automya/service-c", ("main", "c0"));
               ("Automya/service-d", ("main", "d0"))];
     pulls := [("Automya/service-c", open_pull)];
     refused := [];
     pulls_locked := false;
     unreachable := None;
     quota_unreadable := false |}.

Definition config : SyncConfig :=
  {| token := "ghp_0123456789abcdefghij";
     org := "Automya";
     topic := "microservice";
     source_repo := "ci-templates";
     dry_run := false;
     files_filter := [];
     max_workers := 4;
     timeout := 30 |}.

Definition dry (c : SyncConfig) : SyncConfig :=
  {| token := token c; org := org c; topic := topic c;
     source_repo := source_repo c; dry_run := true;
     files_filter := files_filter c; max_workers := max_workers c;
     timeout := timeout c |}.

Definition only (c : SyncConfig) (files : list string) : SyncConfig :=
  {| token := token c; org := org c; topic := topic c;
     source_repo := source_repo c; dry_run := dry_run c;
     files_filter := files; max_workers := max_workers c;
     timeout := timeout c |}.

Definition desired : dict := [("build.yml", build_yml); ("deploy.yml", deploy_yml)].

(** A remote that refuses writes to [build.yml], and one that refuses
    every write. *)
Definition with_refused (g : Remote) (paths : list string) : Remote :=
  {| now := now g; seed := seed g; repositories := repositories g;
     tagged := tagged g; workflows := workflows g; heads := heads g;
     pulls := pulls g; refused := paths; pulls_locked := pulls_locked g;
     unreachable := unreachable g; quota_unreadable := quota_unreadable g |}.


Definition read_only : Remote :=
  with_refused remote
    [WORKFLOWS_PATH ++ "/build.yml"; WORKFLOWS_PATH ++ "/deploy.yml"].


(** The same with [repo.get_git_ref] failing when a branch is to be
    deleted: with a network error, and with GitHub's refusal. *)
Definition with_unreachable (g : Remote) (e : Exc) : Remote :=
  {| now := now g; seed := seed g; repositories := repositories g;
     tagged := tagged g; workflows := workflows g; heads := heads g;
     pulls := pulls g; refused := refused g; pulls_locked := pulls_locked g;
     unreachable := Some e; quota_unreadable := quota_unreadable g |}.

Definition connection_reset : Exc := OtherException "Connection reset by peer".

Definition offline : Remote := with_unreachable read_only connection_reset.

Definition forbidden : Remote :=
  with_unreachable read_only (http 403 "Resource not accessible by integration").

(** The remote whose rate-limit endpoint cannot be read. *)
Definition throttled : Remote :=
  {| now := now remote; seed := seed remote;
     repositories := repositories remote; tagged := tagged remote;
     workflows := workflows remote; heads := heads remote;
     pulls := pulls remote; refused := refused remote;
     pulls_locked := pulls_locked remote; unreachable := unreachable remote;
     quota_unreadable := true |}.

(** Two more targets, unknown to the remote, and the list of six. *)
Definition repo_e : Repository.t := repository "service-e" false.
Definition repo_f : Repository.t := repository "service-f" true.

Definition six : list Repository.t :=
  [repo_a; repo_b; repo_c; repo_d; repo_e; repo_f].

Definition two_changes : list FileChange :=
  [{| filename := "build.yml";
      content := build_yml;
      existing_sha := Some "a1" |};
   {| filename := "deploy.yml";
      content := deploy_yml;
      existing_sha := None |}].

Definition start (g : Remote) : World :=
  {| GitHubClient.github := g; GitHubClient.records := [] |}.

End Demo.

(* ================================================================== *)
(** * Vocabulary of the properties *)
(* ================================================================== *)

(** [keeps R c]: whatever [c] does, the state it leaves is [R]-related to
    the one it started from. *)
Definition keeps {S A : Type} (R : S -> S -> Prop) (c : M S A) : Prop :=
  forall s, R s (snd (c s)).

(** [agrees I c]: from two [I]-related states [c] gives the same result
    and leaves [I]-related states. *)
Definition agrees {S A : Type} (I : S -> S -> Prop) (c : M S A) : Prop :=
  forall s1 s2, I s1 s2 ->
    fst (c s1) = fst (c s2) /\ I (snd (c s1)) (snd (c s2)).

(** The service only appended calls satisfying [P], and did not touch the
    desired workflow set. *)
Definition grows {W : Type} (P : Event -> Prop)
  (s s' : Service (W * list Event)) : Prop :=
  (exists d, calls s' = (calls s ++ d)%list /\ Forall P d)
  /\ _source_workflows s' = _source_workflows s.

(** The same for the body of [_create_sync_pr], which runs over its local
    variables too. *)
Definition grows_l {W : Type} (P : Event -> Prop)
  (ls ls' : Locals * Service (W * list Event)) : Prop :=
  grows P (snd ls) (snd ls').

(** The calls recorded between two states. *)
Definition new_calls {W : Type} (s s' : Service (W * list Event)) : list Event :=
  List.skipn (List.length (calls s)) (calls s').

(** The Diff Computer as the specification words it: per desired file, a
    creation when the target has none, an update carrying the version
    token when the trimmed contents differ, and nothing otherwise. *)
Definition computeChanges (desired : dict)
  (target : string -> option (string * string)) : list FileChange :=
  List.flat_map
    (fun item =>
       match target (WORKFLOWS_PATH ++ "/" ++ fst item) with
       | None =>
         [{| filename := fst item; content := snd item; existing_sha := None |}]
       | Some (existing_content, sha) =>
         if String.eqb (strip existing_content) (strip (snd item)) then []
         else [{| filename := fst item;
                  content := snd item;
                  existing_sha := Some sha |}]
       end)
    desired.

(** The commit message of a change, and the write it asks of the gateway. *)
Definition commit_message (change : FileChange) : string :=
  "chore: " ++ (if truthy_opt (existing_sha change) then "sync" else "add")
  ++ " workflow " ++ filename change.

Definition write_of (repo : Repository.t) (branch_name : string)
  (change : FileChange) (r : outcome unit) : Event :=
  Called_create_or_update_file repo (WORKFLOWS_PATH ++ "/" ++ filename change)
    (content change) (commit_message change) branch_name (existing_sha change) r.

(** The file names of [changes] whose write returned ([true]) or raised
    ([false]), the results being given in the order of the changes. *)
Fixpoint written (ok : bool) (changes : list FileChange)
  (results : list (outcome unit)) : list string :=
  match changes, results with
  | change :: changes', r :: results' =>
    if Bool.eqb (returned r) ok
    then filename change :: written ok changes' results'
    else written ok changes' results'
  | _, _ => []
  end.


(** A gateway whose answers depend on the arguments only, and a runtime
    whose clock and generator answer the same at every reading. *)
Definition oracle {W A : Type} (op : M W A) : Prop :=
  forall w w', fst (op w) = fst (op w').

Record fixed_remote {W : Type} (c : IGitHubClient.t W) (rt : Runtime W)
  : Prop := mkFixed {
  fixed_get_repository : forall a, oracle (IGitHubClient.get_repository c a);
  fixed_search : forall a b,
      oracle (IGitHubClient.search_repositories_by_topic c a b);
  fixed_get_file_content : forall a b,
      oracle (IGitHubClient.get_file_content c a b);
  fixed_get_workflow_files : forall a b,
      oracle (IGitHubClient.get_workflow_files c a b);
  fixed_create_branch : forall a b d,
      oracle (IGitHubClient.create_branch c a b d);
  fixed_delete_branch : forall a b, oracle (IGitHubClient.delete_branch c a b);
  fixed_create_or_update_file : forall a b d e f g,
      oracle (IGitHubClient.create_or_update_file c a b d e f g);
  fixed_create_pull_request : forall a b d e f,
      oracle (IGitHubClient.create_pull_request c a b d e f);
  fixed_get_open_prs : forall a b,
      oracle (IGitHubClient.get_open_prs_with_prefix c a b);
  fixed_check_rate_limit : forall a, oracle (IGitHubClient.check_rate_limit c a);
  fixed_get_base_sha : forall a b, oracle (IGitHubClient.get_base_sha c a b);
  fixed_branch_exists : forall a b, oracle (IGitHubClient.branch_exists c a b);
  fixed_handle_post :
      oracle (IGitHubClient.handle_post_operation_rate_limit c);
  fixed_clock : forall w w', fst (time_time rt w) = fst (time_time rt w');
  fixed_random : forall w w', fst (random_draw rt w) = fst (random_draw rt w')
}.

(** The [SKIPPED] outcome [_check_skip_conditions] builds, by its message. *)
Definition skipped_because (repo : Repository.t) (why : string) : SyncResult :=
  {| repo_name := Repository.name repo;
     status := SKIPPED;
     pr_url := None;
     message := why;
     files_updated := [];
     files_failed := [];
     branch_created := None;
     duration_seconds := 0%Q |}.

(** The default branch resolves: reading it returns a non-empty name. *)
Definition has_default_branch (repo : Repository.t) : Prop :=
  exists b, Repository.default_branch repo = Returned b /\ b <> "".

(** ** The runs of the Branch/PR Transaction

    What [_create_sync_pr] can do, as the calls it makes and the result it
    gives: one case per way through the method. *)

Definition error_outcome (repo : Repository.t) (e : Exc)
  (branch : option string) (updated failed : list string) : SyncResult :=
  {| repo_name := Repository.name repo;
     status := ERROR;
     pr_url := None;
     message := "Error: " ++ str_of_exc e;
     files_updated := updated;
     files_failed := failed;
     branch_created := branch;
     duration_seconds := 0%Q |}.

(** The handler's outcome once it has tried to delete [branch]. *)
Definition cleanup (repo : Repository.t) (branch : string)
  (deleted : outcome unit) (e : Exc) (updated failed : list string)
  : outcome SyncResult :=
  match deleted with
  | Returned _ => Returned (error_outcome repo e (Some branch) updated failed)
  | Raised e' => Raised e'
  end.

(** The name tried first, and the name [_generate_unique_branch_name]
    settles on. *)
Definition candidate (timestamp : Z) : string :=
  BRANCH_PREFIX ++ "-" ++ str_of_int timestamp.

Definition named (timestamp : Z) (taken : bool) (branch : string) : Prop :=
  if taken
  then exists suffix : Z,
      (1000 <= suffix <= 9999)%Z
      /\ branch = candidate timestamp ++ "-" ++ str_of_int suffix
  else branch = candidate timestamp.

Definition opening (repo : Repository.t) (default_branch base_sha : string)
  (timestamp : Z) (taken : bool) (branch : string) (created : outcome unit)
  : list Event :=
  [Called_get_base_sha repo default_branch (Returned base_sha);
   Called_branch_exists repo (candidate timestamp) (Returned taken);
   Called_create_branch repo branch base_sha created].

Definition writes (repo : Repository.t) (branch : string)
  (changes : list FileChange) (results : list (outcome unit)) : list Event :=
  List.map (fun cr => write_of repo branch (fst cr) (snd cr))
    (List.combine changes results).

Definition pull_request_title : string := "chore: sync GitHub Actions workflows".

Inductive Transaction (config : SyncConfig) (repo : Repository.t)
  (changes : list FileChange) : list Event -> outcome SyncResult -> Prop :=
| T_default_branch_unreadable e :
    Repository.default_branch repo = Raised e ->
    Transaction config repo changes []
      (Returned (error_outcome repo e None [] []))
| T_base_sha_failed db e :
    Repository.default_branch repo = Returned db ->
    Transaction config repo changes
      [Called_get_base_sha repo db (Raised e)]
      (Returned (error_outcome repo e None [] []))
| T_branch_exists_failed db sha ts e :
    Repository.default_branch repo = Returned db ->
    Transaction config repo changes
      [Called_get_base_sha repo db (Returned sha);
       Called_branch_exists repo (candidate ts) (Raised e)]
      (Returned (error_outcome repo e None [] []))
| T_create_branch_failed db sha ts taken b e deleted :
    Repository.default_branch repo = Returned db ->
    named ts taken b ->
    Transaction config repo changes
      (opening repo db sha ts taken b (Raised e)
       ++ [Called_delete_branch repo b deleted])
      (cleanup repo b deleted e [] [])
| T_all_writes_failed db sha ts taken b results :
    Repository.default_branch repo = Returned db ->
    named ts taken b ->
    List.length results = List.length changes ->
    written true changes results = [] ->
    Transaction config repo changes
      (opening repo db sha ts taken b (Returned tt)
       ++ writes repo b changes results
       ++ [Called_delete_branch repo b (Returned tt)])
      (Returned {| repo_name := Repository.name repo;
                   status := ERROR;
                   pr_url := None;
                   message := "Todas las actualizaciones fallaron";
                   files_updated := [];
                   files_failed := written false changes results;
                   branch_created := Some b;
                   duration_seconds := 0%Q |})
| T_all_writes_failed_delete_raised db sha ts taken b results e deleted :
    Repository.default_branch repo = Returned db ->
    named ts taken b ->
    List.length results = List.length changes ->
    written true changes results = [] ->
    Transaction config repo changes
      (opening repo db sha ts taken b (Returned tt)
       ++ writes repo b changes results
       ++ [Called_delete_branch repo b (Raised e);
           Called_delete_branch repo b deleted])
      (cleanup repo b deleted e [] (written false changes results))
| T_pull_request_opened db sha ts taken b results pr :
    Repository.default_branch repo = Returned db ->
    named ts taken b ->
    List.length results = List.length changes ->
    written true changes results <> [] ->
    Transaction config repo changes
      (opening repo db sha ts taken b (Returned tt)
       ++ writes repo b changes results
       ++ [Called_create_pull_request repo pull_request_title
             (PRBodyGenerator.generate (org config) (source_repo config)
                (written true changes results) (written false changes results))
             b db (Returned pr)])
      (Returned {| repo_name := Repository.name repo;
                   status := SUCCESS;
                   pr_url := Some pr;
                   message := str_of_len (written true changes results)
                              ++ " archivo(s) actualizados";
                   files_updated := written true changes results;
                   files_failed := written false changes results;
                   branch_created := Some b;
                   duration_seconds := 0%Q |})
| T_pull_request_failed db sha ts taken b results e deleted :
    Repository.default_branch repo = Returned db ->
    named ts taken b ->
    List.length results = List.length changes ->
    written true changes results <> [] ->
    Transaction config repo changes
      (opening repo db sha ts taken b (Returned tt)
       ++ writes repo b changes results
       ++ [Called_create_pull_request repo pull_request_title
             (PRBodyGenerator.generate (org config) (source_repo config)
                (written true changes results) (written false changes results))
             b db (Raised e);
           Called_delete_branch repo b deleted])
      (cleanup repo b deleted e (written true changes results)
         (written false changes results)).

(** The state [s] after further calls [d] that left the world as [w]. *)
Definition at_world {W : Type} (s : Service (W * list Event)) (w : W)
  (d : list Event) : Service (W * list Event) :=
  {| world := (w, (calls s ++ d)%list);
     _source_workflows := _source_workflows s;
     _start_time := _start_time s |}.

(** The branch a mutating call works on starts with [BRANCH_PREFIX]. *)
Definition on_sync_branch (ev : Event) : bool :=
  match ev with
  | Called_create_branch _ branch _ _
  | Called_delete_branch _ branch _
  | Called_create_or_update_file _ _ _ _ branch _ _
  | Called_create_pull_request _ _ _ branch _ _ =>
    startswith branch BRANCH_PREFIX
  | _ => true
  end.

(** The warning [GitHubClient.delete_branch] logs when it swallows [e]. *)
Definition delete_warning (repo : Repository.t) (branch_name : string)
  (e : Exc) : GitHubClient.LogRecord :=
  GitHubClient.mkLog GitHubClient.LWARNING
    ("No se pudo eliminar branch " ++ branch_name ++ " en "
     ++ Repository.name repo ++ ": " ++ str_of_exc e).

(** A gateway call of [ev] that is a branch deletion returned. *)
Definition deletion_returned (ev : Event) : bool :=
  match ev with
  | Called_delete_branch _ _ r => returned r
  | _ => true
  end.

(** The lookup [_get_required_changes] makes for a desired file, answered
    as the [target] holds it. *)
Definition lookup_of (repo : Repository.t)
  (target : string -> option (string * string)) (item : string * string)
  : Event :=
  Called_get_file_content repo (WORKFLOWS_PATH ++ "/" ++ fst item)
    (Returned (target (WORKFLOWS_PATH ++ "/" ++ fst item))).

(** The calls made on behalf of one target repository: every gateway
    method but [get_repository], [search_repositories_by_topic] and
    [get_workflow_files]. *)
Definition target_call (ev : Event) : bool :=
  match ev with
  | Called_get_repository _ _
  | Called_search_repositories_by_topic _ _ _
  | Called_get_workflow_files _ _ _ => false
  | _ => true
  end.

(** The calls [run] makes up to the end of the load stage. *)
Definition load_stage_call (ev : Event) : bool :=
  match ev with
  | Called_check_rate_limit false _
  | Called_get_repository _ _
  | Called_get_workflow_files _ _ _ => true
  | _ => false
  end.

(** The first statements of [run], up to the load stage. *)
Definition run_prelude {W : Type} (client : IGitHubClient.t W)
  (rt : Runtime W) : M (Service W) unit :=
  started <- time rt ;;
  set_start_time started ;;
  call (IGitHubClient.check_rate_limit client false).

(** [get_repository] was not asked for [full_name]. *)
Definition not_fetching (full_name : string) (ev : Event) : bool :=
  match ev with
  | Called_get_repository asked _ => negb (String.eqb asked full_name)
  | _ => true
  end.

(** The statements of [run] that follow the load stage. *)
Definition run_after_load {W : Type} (client : IGitHubClient.t W)
  (rt : Runtime W) (config : SyncConfig) (parallel : bool)
  (completion : list nat) : M (Service W) (list SyncResult) :=
  call (IGitHubClient.check_rate_limit client true) ;;
  target_repos <- call (IGitHubClient.search_repositories_by_topic client
                          (org config) (topic config)) ;;
  if negb (truthy_list target_repos) then ret []
  else
    let source_full_name := org config ++ "/" ++ source_repo config in
    repos_to_sync <- repos_to_sync_from client source_full_name target_repos [] ;;
    results <-
      (if parallel
       then ParallelSyncStrategy_sync client rt config (max_workers config)
              completion repos_to_sync
       else SequentialSyncStrategy_sync client rt config repos_to_sync) ;;
    finished <- time rt ;;
    ret results.

(** [yields Q c]: when [c] returns, what it returns satisfies [Q]. *)
Definition yields {S A : Type} (Q : A -> Prop) (c : M S A) : Prop :=
  forall s a s', c s = (Returned a, s') -> Q a.

(** The outcome [r] is reported under the name of [repo]. *)
Definition named_after (repo : Repository.t) (r : SyncResult) : Prop :=
  repo_name r = Repository.name repo.

(** The outcomes [results] are for repositories of [repos]. *)
Definition outcomes_of (repos : list Repository.t) (results : list SyncResult)
  : Prop :=
  forall r, In r results -> exists t, In t repos /\ named_after t r.

(** Two services hold the same desired workflow set [d]. *)
Definition both_hold {W : Type} (d : dict) (s1 s2 : Service W) : Prop :=
  _source_workflows s1 = d /\ _source_workflows s2 = d.

Definition both_hold_l {W : Type} (d : dict) (ls1 ls2 : Locals * Service W)
  : Prop :=
  fst ls1 = fst ls2 /\ both_hold d (snd ls1) (snd ls2).

(** An outcome without its duration. *)
Definition undated (r : SyncResult) : SyncResult := set_duration_seconds r 0%Q.

(** The repositories whose futures complete, in completion order. *)
Definition completed (repos : list Repository.t) (completion : list nat)
  : list Repository.t :=
  List.flat_map
    (fun i => match List.nth_error repos i with
              | Some repo => [repo]
              | None => []
              end)
    completion.

(** ** A remote in a fixed state

    [snapshot c w0] answers every call as [c] does on [w0] and leaves the
    world as it is; [snapshot_runtime] does the same for the clock and the
    generator. *)
Definition answered {W A : Type} (w0 : W) (op : M W A) : M W A :=
  fun w => (fst (op w0), w).

Definition snapshot {W : Type} (c : IGitHubClient.t W) (w0 : W)
  : IGitHubClient.t W :=
  {| IGitHubClient.get_repository := fun a =>
       answered w0 (IGitHubClient.get_repository c a);
     IGitHubClient.search_repositories_by_topic := fun a b =>
       answered w0 (IGitHubClient.search_repositories_by_topic c a b);
     IGitHubClient.get_file_content := fun a b =>
       answered w0 (IGitHubClient.get_file_content c a b);
     IGitHubClient.get_workflow_files := fun a b =>
       answered w0 (IGitHubClient.get_workflow_files c a b);
     IGitHubClient.create_branch := fun a b e =>
       answered w0 (IGitHubClient.create_branch c a b e);
     IGitHubClient.delete_branch := fun a b =>
       answered w0 (IGitHubClient.delete_branch c a b);
     IGitHubClient.create_or_update_file := fun a b e f g h =>
       answered w0 (IGitHubClient.create_or_update_file c a b e f g h);
     IGitHubClient.create_pull_request := fun a b e f g =>
       answered w0 (IGitHubClient.create_pull_request c a b e f g);
     IGitHubClient.get_open_prs_with_prefix := fun a b =>
       answered w0 (IGitHubClient.get_open_prs_with_prefix c a b);
     IGitHubClient.check_rate_limit := fun a =>
       answered w0 (IGitHubClient.check_rate_limit c a);
     IGitHubClient.get_base_sha := fun a b =>
       answered w0 (IGitHubClient.get_base_sha c a b);
     IGitHubClient.branch_exists := fun a b =>
       answered w0 (IGitHubClient.branch_exists c a b);
     IGitHubClient.handle_post_operation_rate_limit :=
       answered w0 (IGitHubClient.handle_post_operation_rate_limit c) |}.

Definition snapshot_runtime {W : Type} (rt : Runtime W) (w0 : W) : Runtime W :=
  {| time_time := fun w => (fst (time_time rt w0), w);
     random_draw := fun w => (fst (random_draw rt w0), w) |}.

(** The call returns, whatever the world. *)
Definition always_returns {W A : Type} (op : M W A) : Prop :=
  forall w, exists a, fst (op w) = Returned a.

(** What the future of [repo] contributes to the parallel strategy's
    results when [sync_single_repo] runs from [s]. *)
Definition worker_outcome {W : Type} (client : IGitHubClient.t W)
  (rt : Runtime W) (config : SyncConfig) (s : Service W) (repo : Repository.t)
  : SyncResult :=
  match fst (sync_single_repo client rt config repo s) with
  | Returned result => result
  | Raised exc =>
    {| repo_name := Repository.name repo;
       status := ERROR;
       pr_url := None;
       message := str_of_exc exc;
       files_updated := [];
       files_failed := [];
       branch_created := None;
       duration_seconds := 0%Q |}
  end.

(** A service over a world with no recorder. *)
Definition service_at {W : Type} (w : W) (source_workflows : dict)
  : Service W :=
  {| world := w;
     _source_workflows := source_workflows;
     _start_time := None |}.

(* ================================================================== *)
(** * [validators/input_validator.py] *)
(* ================================================================== *)

(** ** The regular expressions of the patterns

    The four patterns are built from character classes of ASCII
    characters, concatenation, alternation and repetition.  A character
    outside ASCII is encoded by bytes from 128 up, which no class holds, so
    matching byte by byte accepts the same texts as matching character by
    character. *)
Module Re.

Inductive t : Type :=
| Nothing
| Empty
| Class (holds : ascii -> bool)
| Cat (r1 r2 : t)
| Alt (r1 r2 : t)
| Star (r : t).

(** [r{0,n}]. *)
Fixpoint upto (n : nat) (r : t) : t :=
  match n with
  | O => Empty
  | S n' => Alt Empty (Cat r (upto n' r))
  end.

(** A text taken literally. *)
Fixpoint lit (s : string) : t :=
  match s with
  | EmptyString => Empty
  | String a rest => Cat (Class (Ascii.eqb a)) (lit rest)
  end.

Fixpoint nullable (r : t) : bool :=
  match r with
  | Nothing => false
  | Empty => true
  | Class _ => false
  | Cat r1 r2 => nullable r1 && nullable r2
  | Alt r1 r2 => nullable r1 || nullable r2
  | Star _ => true
  end.

(** What is left of [r] once the character [a] has been read. *)
Fixpoint deriv (a : ascii) (r : t) : t :=
  match r with
  | Nothing => Nothing
  | Empty => Nothing
  | Class holds => if holds a then Empty else Nothing
  | Cat r1 r2 =>
    if nullable r1
    then Alt (Cat (deriv a r1) r2) (deriv a r2)
    else Cat (deriv a r1) r2
  | Alt r1 r2 => Alt (deriv a r1) (deriv a r2)
  | Star r1 => Cat (deriv a r1) (Star r1)
  end.

Fixpoint accepts (r : t) (s : string) : bool :=
  match s with
  | EmptyString => nullable r
  | String a rest => accepts (deriv a r) rest
  end.

(** The texts of [r]. *)
Inductive matches : t -> string -> Prop :=
| M_empty : matches Empty ""
| M_class holds a : holds a = true -> matches (Class holds) (String a "")
| M_cat r1 r2 s1 s2 :
    matches r1 s1 -> matches r2 s2 -> matches (Cat r1 r2) (s1 ++ s2)
| M_alt_l r1 r2 s : matches r1 s -> matches (Alt r1 r2) s
| M_alt_r r1 r2 s : matches r2 s -> matches (Alt r1 r2) s
| M_star_nil r : matches (Star r) ""
| M_star_cons r s1 s2 :
    matches r s1 -> matches (Star r) s2 -> matches (Star r) (s1 ++ s2).

(** The text without the newline that ends it. *)
Fixpoint chomp (s : string) : option string :=
  match s with
  | EmptyString => None
  | String a rest =>
    match rest with
    | EmptyString => if Ascii.eqb a (ascii_of_nat 10) then Some "" else None
    | String _ _ =>
      match chomp rest with
      | Some s' => Some (String a s')
      | None => None
      end
    end
  end.

(** A compiled pattern [^r$]: its text, [p.pattern], and [r]. *)
Record Pattern : Type := compile {
  pattern : string;
  body : t
}.

(** [p.match(value) is not None] for [p = ^r$] compiled without flags:
    [^] holds at the start only, [$] at the end of the text and just
    before a newline that ends the text. *)
Definition match_ (p : Pattern) (value : string) : bool :=
  accepts (body p) value
  || match chomp value with
     | Some line => accepts (body p) line
     | None => false
     end.

(** The classes of the patterns. *)
Definition lower_case (a : ascii) : bool := byte_in 97 122 a.
Definition upper_case (a : ascii) : bool := byte_in 65 90 a.
Definition digit (a : ascii) : bool := byte_in 48 57 a.

(** [[a-zA-Z0-9]], [[a-zA-Z0-9._-]], [[a-z0-9]] and [[a-z0-9-]]. *)
Definition alnum (a : ascii) : bool := lower_case a || upper_case a || digit a.

Definition name_char (a : ascii) : bool :=
  alnum a || byte_is 46 a || byte_is 95 a || byte_is 45 a.

Definition lower_alnum (a : ascii) : bool := lower_case a || digit a.

Definition topic_char (a : ascii) : bool := lower_alnum a || byte_is 45 a.

End Re.

(** [x in s] for two texts. *)
Fixpoint str_contains (x s : string) : bool :=
  String.prefix x s
  || match s with
     | EmptyString => false
     | String _ rest => str_contains x rest
     end.

(** [len(s)]: the characters of a UTF-8 text are its bytes outside
    128..191, the continuation bytes. *)
Fixpoint str_len (s : string) : nat :=
  match s with
  | EmptyString => 0
  | String a rest => (if byte_in 128 191 a then 0 else 1) + str_len rest
  end.

(** ** [ValidationPattern] and its four subclasses *)
Record ValidationPattern : Type := mkValidationPattern {
  pattern : Re.Pattern;
  field_name : string;
  error_message : string
}.

(** The [error_message] of the base class. *)
Definition default_error_message (p : Re.Pattern) : string :=
  "Must match pattern: " ++ Re.pattern p.

Definition validate (self : ValidationPattern) (value : string)
  : outcome string :=
  if negb (Re.match_ (pattern self) value) then
    Raised (ValidationError
              ("Invalid " ++ field_name self ++ ": '" ++ value ++ "'. "
               ++ error_message self))
  else Returned value.

Definition name_pattern : Re.Pattern :=
  Re.compile "^[a-zA-Z0-9][a-zA-Z0-9._-]{0,99}$"
    (Re.Cat (Re.Class Re.alnum) (Re.upto 99 (Re.Class Re.name_char))).

Definition OrganizationNamePattern : ValidationPattern :=
  {| pattern := name_pattern;
     field_name := "organization name";
     error_message := default_error_message name_pattern |}.

Definition RepositoryNamePattern : ValidationPattern :=
  {| pattern := name_pattern;
     field_name := "repository name";
     error_message := default_error_message name_pattern |}.

Definition topic_pattern : Re.Pattern :=
  Re.compile "^[a-z0-9][a-z0-9-]{0,49}$"
    (Re.Cat (Re.Class Re.lower_alnum) (Re.upto 49 (Re.Class Re.topic_char))).

Definition TopicPattern : ValidationPattern :=
  {| pattern := topic_pattern;
     field_name := "topic";
     error_message := default_error_message topic_pattern |}.

Definition workflow_pattern : Re.Pattern :=
  Re.compile "^[a-zA-Z0-9][a-zA-Z0-9._-]*\.(yml|yaml)$"
    (Re.Cat (Re.Class Re.alnum)
       (Re.Cat (Re.Star (Re.Class Re.name_char))
          (Re.Cat (Re.lit ".") (Re.Alt (Re.lit "yml") (Re.lit "yaml"))))).

Definition WorkflowFilePattern : ValidationPattern :=
  {| pattern := workflow_pattern;
     field_name := "workflow file name";
     error_message := "Must be alphanumeric with .yml or .yaml extension" |}.

(** ** [InputValidator] *)
Module InputValidator.

Definition validate_organization (value : string) : outcome string :=
  validate OrganizationNamePattern value.

Definition validate_repository (value : string) : outcome string :=
  validate RepositoryNamePattern value.

(** [str.lower] follows the Unicode case mapping; it is an argument. *)
Definition validate_topic (lower : string -> string) (value : string)
  : outcome string :=
  validate TopicPattern (lower value).

Definition validate_workflow_file (filename : string) : outcome string :=
  if str_contains ".." filename || str_contains "/" filename
     || str_contains "\" filename
  then
    Raised (ValidationError
              ("Invalid file name (path traversal attempt): '" ++ filename
               ++ "'"))
  else validate WorkflowFilePattern filename.

(** The list comprehension of [validate_workflow_files]. *)
Fixpoint validate_each (files : list string) : outcome (list string) :=
  match files with
  | [] => Returned []
  | f :: rest =>
    match validate_workflow_file f with
    | Raised e => Raised e
    | Returned v =>
      match validate_each rest with
      | Raised e => Raised e
      | Returned vs => Returned (v :: vs)
      end
    end
  end.

Definition validate_workflow_files (files : option (list string))
  : outcome (list string) :=
  match files with
  | None => Returned []
  | Some l => if negb (truthy_list l) then Returned [] else validate_each l
  end.

Definition validate_token (token : option string) : outcome string :=
  match token with
  | None => Raised (ValidationError "GitHub token is required")
  | Some t =>
    if negb (truthy_str t) then
      Raised (ValidationError "GitHub token is required")
    else if (str_len t <? 20)%nat then
      Raised (ValidationError "GitHub token appears to be invalid (too short)")
    else Returned t
  end.

End InputValidator.

(* ================================================================== *)
(** * [cli.py]: [create_config] *)
(* ================================================================== *)
Module Cli.

(** The [argparse.Namespace] that [parse_args] builds. *)
Record Namespace : Type := mkNamespace {
  args_org : string;
  args_topic : string;
  args_source_repo : string;
  args_files : list string;
  args_dry_run : bool;
  args_verbose : bool;
  args_parallel : bool;
  args_max_workers : Z;
  args_timeout : Z;
  args_auto_merge : bool
}.

(** [SyncConfig(...)]: the [__init__] of the dataclass takes its eight
    fields and raises [TypeError] for any other keyword. *)
Definition SyncConfig_init (fields : SyncConfig) (other_keywords : list string)
  : outcome SyncConfig :=
  match other_keywords with
  | [] => Returned fields
  | keyword :: _ =>
    Raised (OtherException
              ("SyncConfig.__init__() got an unexpected keyword argument '"
               ++ keyword ++ "'"))
  end.

Definition create_config (lower : string -> string) (args : Namespace)
  (token : string) : outcome SyncConfig :=
  match InputValidator.validate_token (Some token) with
  | Raised e => Raised e
  | Returned _ =>
  match InputValidator.validate_organization (args_org args) with
  | Raised e => Raised e
  | Returned _ =>
  match InputValidator.validate_repository (args_source_repo args) with
  | Raised e => Raised e
  | Returned _ =>
  match InputValidator.validate_topic lower (args_topic args) with
  | Raised e => Raised e
  | Returned _ =>
  match InputValidator.validate_workflow_files (Some (args_files args)) with
  | Raised e => Raised e
  | Returned validated_files =>
    SyncConfig_init
      {| token := token;
         org := args_org args;
         topic := args_topic args;
         source_repo := args_source_repo args;
         dry_run := args_dry_run args;
         files_filter := validated_files;
         max_workers := args_max_workers args;
         timeout := args_timeout args |}
      ["auto_merge"]
  end end end end end.

End Cli.

(** ** What the validators accept, said directly *)

(** A first character in [first] followed by characters in [others]. *)
Definition headed (first others : ascii -> bool) (s : string) : Prop :=
  exists a rest,
    s = String a rest
    /\ first a = true
    /\ forallb others (list_ascii_of_string rest) = true.

(** A GitHub name: an alphanumeric, then at most 99 of [[a-zA-Z0-9._-]]. *)
Definition is_name (s : string) : Prop :=
  headed Re.alnum Re.name_char s /\ String.length s <= 100.

(** A topic: a lower-case alphanumeric, then at most 49 of [[a-z0-9-]]. *)
Definition is_topic (s : string) : Prop :=
  headed Re.lower_alnum Re.topic_char s /\ String.length s <= 50.

(** A workflow file name: a name that ends in [.yml] or [.yaml]. *)
Definition is_workflow_name (s : string) : Prop :=
  headed Re.alnum Re.name_char s
  /\ exists stem, s = stem ++ ".yml" \/ s = stem ++ ".yaml".

(** The text, or the text followed by one newline. *)
Definition maybe_newline (shape : string -> Prop) (s : string) : Prop :=
  shape s \/ exists line, s = line ++ nl /\ shape line.

Definition invalid (self : ValidationPattern) (value : string) : Exc :=
  ValidationError ("Invalid " ++ field_name self ++ ": '" ++ value ++ "'. "
                   ++ error_message self).

(** [str.lower] on ASCII text, to run [validate_topic] on. *)
Definition ascii_lower (s : string) : string :=
  string_of_list_ascii
    (List.map
       (fun a => if Re.upper_case a then ascii_of_nat (nat_of_ascii a + 32) else a)
       (list_ascii_of_string s)).

(* ================================================================== *)
(** * [clients/github_client.py]: the other methods of [GitHubClient] *)
(* ================================================================== *)
Module GitHubClientMore.

(** A repository yielded by the search, with its [permissions] attribute:
    [None], or an object whose [push] is the flag given here; reading it
    may raise. *)
Record SearchedRepository : Type := mkSearched {
  found : Repository.t;
  permissions : outcome (option bool)
}.

(** A pull request as [repo.create_pull] and [repo.get_pull] give it;
    [mergeable] is [True], [False] or [None]. *)
Record PullDetails : Type := mkPullDetails {
  pr_html_url : string;
  pr_number : Z;
  pr_mergeable : option bool
}.

(** The PyGithub calls of these methods that [GitHubClient.PyGithub] does
    not list.  [search_repositories] gives a paginated list: the
    repositories it yields and the exception that ends the iteration, if
    any.  [data_message e] is [e.data.get("message")] when [e.data] is a
    dict that has the key. *)
Record Calls (G : Type) : Type := mkCalls {
  github_get_repo : string -> M G Repository.t;
  github_search_repositories :
    string -> M G (list SearchedRepository * option Exc);
  repo_create_git_ref : Repository.t -> string -> string -> M G unit;
  repo_update_file :
    Repository.t -> string -> string -> string -> string -> string -> M G unit;
  repo_create_file :
    Repository.t -> string -> string -> string -> string -> M G unit;
  repo_delete_file :
    Repository.t -> string -> string -> string -> string -> M G unit;
  repo_create_pull :
    Repository.t -> string -> string -> string -> string -> M G PullDetails;
  repo_get_pull : Repository.t -> Z -> M G PullDetails;
  pr_merge : Repository.t -> Z -> string -> M G bool;
  pr_update_branch : Repository.t -> Z -> M G bool;
  data_message : GithubError -> option string
}.
Arguments github_get_repo {G}.
Arguments github_search_repositories {G}.
Arguments repo_create_git_ref {G}.
Arguments repo_update_file {G}.
Arguments repo_create_file {G}.
Arguments repo_delete_file {G}.
Arguments repo_create_pull {G}.
Arguments repo_get_pull {G}.
Arguments pr_merge {G}.
Arguments pr_update_branch {G}.
Arguments data_message {G}.

Section Methods.

Variable G : Type.
Variable api : GitHubClient.PyGithub G.
Variable calls : Calls G.

(** [_extract_error]. *)
Definition _extract_error (exception : Exc) : string :=
  match exception with
  | GithubException g =>
    match data_message calls g with
    | Some message => message
    | None => str_of_exc exception
    end
  | _ => str_of_exc exception
  end.

Definition get_repository (full_name : string)
  : M (GitHubClient.State G) Repository.t :=
  try_except_on is_GithubException
    (GitHubClient._api_call_with_retry G api
       (github_get_repo calls full_name) ("get_repo(" ++ full_name ++ ")"))
    (fun e =>
       match e with
       | GithubException g =>
         if (gh_status g =? 404)%Z then
           raise (SourceRepoError ("Repository not found: " ++ full_name))
         else if (gh_status g =? 401)%Z then
           raise (AuthenticationError "Invalid GitHub token")
         else
           raise (RepositoryAccessError
                    ("Error accessing repository " ++ full_name ++ ": "
                     ++ _extract_error e))
       | _ => raise e
       end).

(** The loop of [search_repositories_by_topic] over what the search
    yields. *)
Fixpoint collect_repositories (search_results : list SearchedRepository)
  (repos : list RepositoryInfo.t)
  : M (GitHubClient.State G) (list RepositoryInfo.t) :=
  match search_results with
  | [] => ret repos
  | result :: rest =>
    let repo := found result in
    if Repository.archived repo then
      GitHubClient.log G GitHubClient.LDEBUG
        ("Saltando repo archivado: " ++ Repository.name repo) ;;
      collect_repositories rest repos
    else
      let has_push := true in
      skip <-
        try_except
          (perms <- attr (permissions result) ;;
           match perms with
           | Some false =>
             GitHubClient.log G GitHubClient.LDEBUG
               ("Saltando repo sin permisos push: " ++ Repository.name repo) ;;
             ret true
           | _ => ret false
           end)
          (fun _ =>
             GitHubClient.log G GitHubClient.LDEBUG
               ("No se pudieron verificar permisos para "
                ++ Repository.name repo) ;;
             ret false) ;;
      if (skip : bool) then collect_repositories rest repos
      else
        default_branch <- attr (Repository.default_branch repo) ;;
        collect_repositories rest
          (repos
           ++ [{| RepositoryInfo.name := Repository.name repo;
                  RepositoryInfo.full_name := Repository.full_name repo;
                  RepositoryInfo.default_branch :=
                    if truthy_str default_branch then default_branch
                    else "main";
                  RepositoryInfo.archived := Repository.archived repo;
                  RepositoryInfo.has_push_permission := has_push |}])%list
  end.

Definition search_repositories_by_topic (org topic : string)
  : M (GitHubClient.State G) (list RepositoryInfo.t) :=
  try_except_on is_GithubException
    (let query := "org:" ++ org ++ " topic:" ++ topic in
     search_results <-
       GitHubClient._api_call_with_retry G api
         (github_search_repositories calls query) "search_repositories" ;;
     repos <- collect_repositories (fst search_results) [] ;;
     match snd search_results with
     | Some e => raise e
     | None => ret repos
     end)
    (fun e =>
       GitHubClient.log G GitHubClient.LERROR
         ("Error buscando repos: " ++ _extract_error e) ;;
       ret []).

Definition get_file_content (repo : Repository.t) (path : string)
  : M (GitHubClient.State G) (option (string * string)) :=
  try_except_on is_GithubException
    (content <-
       GitHubClient._api_call_with_retry G api
         (GitHubClient.repo_get_contents api repo path)
         ("get_contents(" ++ path ++ ")") ;;
     match content with
     | GitHubClient.Listing _ => ret None
     | GitHubClient.OneFile c =>
       decoded <- attr (GitHubClient.cf_decoded c) ;;
       ret (Some (decoded, GitHubClient.cf_sha c))
     end)
    (fun e =>
       match e with
       | GithubException g =>
         if (gh_status g =? 404)%Z then ret None else raise e
       | _ => raise e
       end).

Definition create_branch (repo : Repository.t) (branch_name base_sha : string)
  : M (GitHubClient.State G) unit :=
  GitHubClient._api_call_with_retry G api
    (repo_create_git_ref calls repo ("refs/heads/" ++ branch_name) base_sha)
    ("create_branch(" ++ branch_name ++ ")") ;;
  GitHubClient.log G GitHubClient.LDEBUG
    ("Branch " ++ branch_name ++ " creado en " ++ Repository.name repo).

Definition create_or_update_file (repo : Repository.t)
  (path content message branch : string) (sha : option string)
  : M (GitHubClient.State G) unit :=
  if truthy_opt sha then
    GitHubClient._api_call_with_retry G api
      (repo_update_file calls repo path message content
         (match sha with Some s => s | None => "" end) branch)
      ("update_file(" ++ path ++ ")")
  else
    GitHubClient._api_call_with_retry G api
      (repo_create_file calls repo path message content branch)
      ("create_file(" ++ path ++ ")").

Definition create_pull_request (repo : Repository.t)
  (title body head base : string) : M (GitHubClient.State G) (string * Z) :=
  pr <- GitHubClient._api_call_with_retry G api
          (repo_create_pull calls repo title body head base) "create_pull" ;;
  ret (pr_html_url pr, pr_number pr).

Definition get_base_sha (repo : Repository.t) (branch : string)
  : M (GitHubClient.State G) string :=
  ref <- GitHubClient._api_call_with_retry G api
           (GitHubClient.repo_get_git_ref api repo ("heads/" ++ branch))
           ("get_ref(" ++ branch ++ ")") ;;
  ret (GitHubClient.gr_sha ref).

Definition branch_exists (repo : Repository.t) (branch_name : string)
  : M (GitHubClient.State G) bool :=
  try_except_on is_GithubException
    (GitHubClient.gh G
       (GitHubClient.repo_get_git_ref api repo ("heads/" ++ branch_name)) ;;
     ret true)
    (fun e =>
       match e with
       | GithubException g =>
         if (gh_status g =? 404)%Z then ret false else raise e
       | _ => raise e
       end).

Definition has_workflows_folder (repo : Repository.t) (path : string)
  : M (GitHubClient.State G) bool :=
  try_except_on is_GithubException
    (GitHubClient._api_call_with_retry G api
       (GitHubClient.repo_get_contents api repo path)
       ("check_folder(" ++ path ++ ")") ;;
     ret true)
    (fun e =>
       match e with
       | GithubException g =>
         if (gh_status g =? 404)%Z then ret false else raise e
       | _ => raise e
       end).

(** The loop of [get_workflow_filenames] over the listing. *)
Fixpoint collect_filenames (contents : list GitHubClient.ContentFile)
  (filenames : list string) : list string :=
  match contents with
  | [] => filenames
  | c :: rest =>
    if String.eqb (GitHubClient.cf_type c) "file"
       && (endswith (GitHubClient.cf_name c) ".yml"
           || endswith (GitHubClient.cf_name c) ".yaml")
    then collect_filenames rest (filenames ++ [GitHubClient.cf_name c])%list
    else collect_filenames rest filenames
  end.

Definition get_workflow_filenames (repo : Repository.t) (path : string)
  : M (GitHubClient.State G) (list string) :=
  let filenames : list string := [] in
  try_except_on is_GithubException
    (contents <-
       GitHubClient._api_call_with_retry G api
         (GitHubClient.repo_get_contents api repo path)
         ("list_workflows(" ++ path ++ ")") ;;
     let contents :=
       match contents with
       | GitHubClient.Listing l => l
       | GitHubClient.OneFile c => [c]
       end in
     ret (collect_filenames contents filenames))
    (fun e =>
       match e with
       | GithubException g =>
         if (gh_status g =? 404)%Z then ret [] else raise e
       | _ => raise e
       end).

Definition delete_file (repo : Repository.t) (path message branch sha : string)
  : M (GitHubClient.State G) unit :=
  GitHubClient._api_call_with_retry G api
    (repo_delete_file calls repo path message sha branch)
    ("delete_file(" ++ path ++ ")").

Definition update_branch (repo : Repository.t) (pr_number : Z)
  : M (GitHubClient.State G) bool :=
  try_except_on is_GithubException
    (pr <- GitHubClient.gh G (repo_get_pull calls repo pr_number) ;;
     result <- GitHubClient.gh G (pr_update_branch calls repo pr_number) ;;
     if (result : bool) then
       GitHubClient.log G GitHubClient.LDEBUG
         ("Branch del PR #" ++ str_of_int pr_number
          ++ " actualizado exitosamente") ;;
       ret true
     else ret false)
    (fun e =>
       GitHubClient.log G GitHubClient.LWARNING
         ("No se pudo actualizar branch del PR #" ++ str_of_int pr_number
          ++ ": " ++ _extract_error e) ;;
       ret false).

(** The words by which [merge_pull_request] tells that the head branch is
    behind its base. *)
Definition behind_words : list string :=
  ["head branch was modified"; "not up to date"; "behind"; "out-of-date"].

(** The loop [for attempt in range(max_retries)] of [merge_pull_request];
    [str.lower] is an argument, as in [validate_topic]. *)
Fixpoint merge_attempts (lower : string -> string) (repo : Repository.t)
  (pr_number : Z) (merge_method : string) (max_retries : Z)
  (attempts : list Z) (pr : PullDetails) : M (GitHubClient.State G) bool :=
  match attempts with
  | [] => ret false
  | attempt :: rest =>
    fun s =>
      match
        (match pr_mergeable pr with
         | Some false =>
           GitHubClient.log G GitHubClient.LWARNING
             ("PR #" ++ str_of_int pr_number
              ++ " no es mergeable (posible conflicto)") ;;
           ret false
         | _ =>
           GitHubClient.gh G (pr_merge calls repo pr_number merge_method)
         end) s
      with
      | (Returned merged, s') => (Returned merged, s')
      | (Raised e, s') =>
        if is_GithubException e then
          let error_msg := lower (_extract_error e) in
          let is_behind :=
            List.existsb (fun word => str_contains word error_msg)
              behind_words in
          if is_behind && (attempt <? max_retries - 1)%Z then
            (GitHubClient.log G GitHubClient.LINFO
               ("PR #" ++ str_of_int pr_number
                ++ " está desactualizado, actualizando branch (intento "
                ++ str_of_int (attempt + 1) ++ "/" ++ str_of_int max_retries
                ++ ")") ;;
             updated <- update_branch repo pr_number ;;
             if (updated : bool) then
               GitHubClient.sleep G api 2 ;;
               pr' <- GitHubClient.gh G (repo_get_pull calls repo pr_number) ;;
               merge_attempts lower repo pr_number merge_method max_retries
                 rest pr'
             else
               GitHubClient.log G GitHubClient.LWARNING
                 "No se pudo actualizar el branch" ;;
               ret false) s'
          else
            (GitHubClient.log G GitHubClient.LWARNING
               ("No se pudo mergear PR #" ++ str_of_int pr_number ++ ": "
                ++ _extract_error e) ;;
             ret false) s'
        else (Raised e, s')
      end
  end.

Definition merge_pull_request (lower : string -> string) (repo : Repository.t)
  (pr_number : Z) (merge_method : string) (max_retries : Z)
  : M (GitHubClient.State G) bool :=
  pr <- GitHubClient.gh G (repo_get_pull calls repo pr_number) ;;
  merge_attempts lower repo pr_number merge_method max_retries
    (GitHubClient.range max_retries) pr.

(** The gateway the command line builds: [GitHubClient] behind the
    interface the service is written against. *)
Definition client : IGitHubClient.t (GitHubClient.State G) :=
  {| IGitHubClient.get_repository := get_repository;
     IGitHubClient.search_repositories_by_topic := search_repositories_by_topic;
     IGitHubClient.get_file_content := get_file_content;
     IGitHubClient.get_workflow_files := GitHubClient.get_workflow_files G api;
     IGitHubClient.create_branch := create_branch;
     IGitHubClient.delete_branch := GitHubClient.delete_branch G api;
     IGitHubClient.create_or_update_file := create_or_update_file;
     IGitHubClient.create_pull_request := create_pull_request;
     IGitHubClient.get_open_prs_with_prefix :=
       GitHubClient.get_open_prs_with_prefix G api;
     IGitHubClient.check_rate_limit := GitHubClient.check_rate_limit G api;
     IGitHubClient.get_base_sha := get_base_sha;
     IGitHubClient.branch_exists := branch_exists;
     IGitHubClient.handle_post_operation_rate_limit :=
       GitHubClient.handle_post_operation_rate_limit G api |}.

End Methods.

End GitHubClientMore.

(** ** The retry policy of [_api_call_with_retry], said directly *)

(** The exceptions after which the call is made again. *)
Definition retryable (e : Exc) : bool :=
  match e with
  | GithubException g =>
    gh_rate_limit_exceeded g
    || existsb (Z.eqb (gh_status g)) [500; 502; 503; 504]%Z
    || (gh_status g =? 403)%Z && gh_secondary g
  | _ => true
  end.

(** A secondary rate limit that is not a [RateLimitExceededException] nor
    a server error. *)
Definition secondary_limit (e : Exc) : bool :=
  match e with
  | GithubException g =>
    negb (gh_rate_limit_exceeded g)
    && negb (existsb (Z.eqb (gh_status g)) [500; 502; 503; 504]%Z)
    && (gh_status g =? 403)%Z && gh_secondary g
  | _ => false
  end.

(** The seconds slept after the failed attempt number [attempt]. *)
Definition backoff (attempt : Z) (e : Exc) : Z :=
  if secondary_limit e
  then Z.min (60 * 2 ^ attempt) GitHubClient.MAX_RATE_LIMIT_WAIT
  else (GitHubClient.RETRY_DELAY_BASE ^ (attempt + 1))%Z.

(** The outcome of the call, or the exception kept from an earlier one. *)
Definition exhausted {A : Type} (operation_name : string)
  (last_exception : option Exc) : outcome A :=
  match last_exception with
  | Some e => Raised e
  | None =>
    Raised (RuntimeError
              (operation_name ++ " failed after "
               ++ str_of_int GitHubClient.MAX_RETRIES ++ " retries"))
  end.

Definition retries_exhausted (operation_name : string) : GitHubClient.LogRecord :=
  GitHubClient.mkLog GitHubClient.LERROR
    (operation_name ++ ": All 3 retries exhausted").

(** A remote that only counts the calls made to it, and an operation that
    fails on it with [e] every time. *)
Definition ticking : GitHubClient.PyGithub nat :=
  {| GitHubClient.repo_get_contents := fun _ _ n =>
       (Raised (OtherException "unused"), n);
     GitHubClient.repo_get_git_ref := fun _ _ n =>
       (Raised (OtherException "unused"), n);
     GitHubClient.ref_delete := fun _ n => (Returned tt, n);
     GitHubClient.repo_get_pulls_open := fun _ n => (([], None), n);
     GitHubClient.get_rate_limit := fun n =>
       (Raised (OtherException "unused"), n);
     GitHubClient.datetime_now := fun _ => 0%Q;
     GitHubClient.time_sleep := fun _ n => n |}.

Definition failing (e : Exc) : M nat unit := fun n => (Raised e, S n).

(** ** What [search_repositories_by_topic] keeps of the search *)

(** A repository that is not archived and whose permissions, when they
    can be read, do not deny pushing. *)
Definition kept (r : GitHubClientMore.SearchedRepository) : bool :=
  negb (Repository.archived (GitHubClientMore.found r))
  && match GitHubClientMore.permissions r with
     | Returned (Some false) => false
     | _ => true
     end.

Definition info_of (r : GitHubClientMore.SearchedRepository)
  : RepositoryInfo.t :=
  let repo := GitHubClientMore.found r in
  {| RepositoryInfo.name := Repository.name repo;
     RepositoryInfo.full_name := Repository.full_name repo;
     RepositoryInfo.default_branch :=
       match Repository.default_branch repo with
       | Returned "" => "main"
       | Returned branch => branch
       | Raised _ => "main"
       end;
     RepositoryInfo.archived := false;
     RepositoryInfo.has_push_permission := true |}.

(** The state of the client with other log records. *)
Definition logged {G : Type} (s : GitHubClient.State G)
  (records : list GitHubClient.LogRecord) : GitHubClient.State G :=
  {| GitHubClient.github := GitHubClient.github s;
     GitHubClient.records := records |}.

(** ** The remote of [Demo], seen through the other PyGithub calls *)

(** The search yields every repository of the remote that is tagged, the
    archived ones included, as GitHub does; [service-d] cannot be pushed
    to. *)
Definition searched (g : Demo.Remote)
  : list GitHubClientMore.SearchedRepository :=
  List.map
    (fun repo =>
       {| GitHubClientMore.found := repo;
          GitHubClientMore.permissions :=
            Returned (Some (negb (String.eqb (Repository.name repo)
                                    "service-d"))) |})
    (List.filter
       (fun repo =>
          List.existsb
            (fun i => String.eqb (RepositoryInfo.full_name i)
                        (Repository.full_name repo))
            (Demo.tagged g))
       (Demo.repositories g)).

Definition demo_calls : GitHubClientMore.Calls Demo.Remote :=
  {| GitHubClientMore.github_get_repo := fun full_name g =>
       match List.find
               (fun r => String.eqb (Repository.full_name r) full_name)
               (Demo.repositories g) with
       | Some r => (Returned r, g)
       | None => (Raised (Demo.http 404 "Not Found"), g)
       end;
     GitHubClientMore.github_search_repositories := fun _ g =>
       (Returned (searched g, None), g);
     GitHubClientMore.repo_create_git_ref := fun repo ref sha g =>
       if List.existsb
            (fun h => String.eqb (fst h) (Repository.full_name repo)
                      && String.eqb ("refs/heads/" ++ fst (snd h)) ref)
            (Demo.heads g)
       then (Raised (Demo.http 422 "Reference already exists"), g)
       else
         (Returned tt,
          Demo.with_heads g
            (Demo.heads g
             ++ [(Repository.full_name repo,
                  (String.substring 11 (String.length ref - 11) ref, sha))])%list);
     GitHubClientMore.repo_update_file := fun repo path message content sha branch g =>
       if str_in path (Demo.refused g)
       then (Raised (Demo.http 409 ("Conflict: " ++ path)), g)
       else (Returned tt, g);
     GitHubClientMore.repo_create_file := fun repo path message content branch g =>
       if str_in path (Demo.refused g)
       then (Raised (Demo.http 409 ("Conflict: " ++ path)), g)
       else (Returned tt, g);
     GitHubClientMore.repo_delete_file := fun repo path message sha branch g =>
       (Returned tt, g);
     GitHubClientMore.repo_create_pull := fun repo title body head base g =>
       if Demo.pulls_locked g
       then (Raised (Demo.http 422 "Validation Failed"), g)
       else
         let number := Z.of_nat (S (List.length (Demo.pulls g))) in
         let url := Demo.pull_url (Repository.full_name repo) number in
         (Returned {| GitHubClientMore.pr_html_url := url;
                      GitHubClientMore.pr_number := number;
                      GitHubClientMore.pr_mergeable := None |},
          Demo.with_pulls g
            (Demo.pulls g
             ++ [(Repository.full_name repo,
                  {| GitHubClient.head_ref := head;
                     GitHubClient.html_url := url |})])%list);
     GitHubClientMore.repo_get_pull := fun repo number g =>
       (Returned {| GitHubClientMore.pr_html_url :=
                      Demo.pull_url (Repository.full_name repo) number;
                    GitHubClientMore.pr_number := number;
                    GitHubClientMore.pr_mergeable := Some false |}, g);
     GitHubClientMore.pr_merge := fun repo number method g => (Returned true, g);
     GitHubClientMore.pr_update_branch := fun repo number g => (Returned true, g);
     GitHubClientMore.data_message := fun e => Some (gh_text e) |}.

(** [Demo.api], with [repo.get_contents] answering for single files
    too. *)
Definition demo_api : GitHubClient.PyGithub Demo.Remote :=
  {| GitHubClient.repo_get_contents := fun repo path g =>
       if String.eqb path WORKFLOWS_PATH
       then GitHubClient.repo_get_contents Demo.api repo path g
       else
         match Demo.find_file repo path g with
         | Some c => (Returned (GitHubClient.OneFile c), g)
         | None => (Raised (Demo.http 404 "Not Found"), g)
         end;
     GitHubClient.repo_get_git_ref := GitHubClient.repo_get_git_ref Demo.api;
     GitHubClient.ref_delete := GitHubClient.ref_delete Demo.api;
     GitHubClient.repo_get_pulls_open :=
       GitHubClient.repo_get_pulls_open Demo.api;
     GitHubClient.get_rate_limit := GitHubClient.get_rate_limit Demo.api;
     GitHubClient.datetime_now := GitHubClient.datetime_now Demo.api;
     GitHubClient.time_sleep := GitHubClient.time_sleep Demo.api |}.

(** The client the command line would build on that remote. *)
Definition demo_client : IGitHubClient.t Demo.World :=
  GitHubClientMore.client Demo.Remote demo_api demo_calls.

(** ** Workflow files in a listing *)

(** An entry [get_workflow_files] and [get_workflow_filenames] take. *)
Definition is_workflow_entry (c : GitHubClient.ContentFile) : bool :=
  String.eqb (GitHubClient.cf_type c) "file"
  && (endswith (GitHubClient.cf_name c) ".yml"
      || endswith (GitHubClient.cf_name c) ".yaml").

Definition entries_of (contents : GitHubClient.Contents)
  : list GitHubClient.ContentFile :=
  match contents with
  | GitHubClient.Listing l => l
  | GitHubClient.OneFile c => [c]
  end.

(** The name and the text of an entry that decodes. *)
Definition decoded_entry (c : GitHubClient.ContentFile) : string * string :=
  (GitHubClient.cf_name c,
   match GitHubClient.cf_decoded c with
   | Returned text => text
   | Raised _ => ""
   end).

(** The remote on which [service-a] already has the two branches the
    next Transaction would name. *)
Definition crowded : Demo.Remote :=
  Demo.with_heads Demo.remote
    (Demo.heads Demo.remote
     ++ [("Automya/service-a", ("sync/workflows-update-1700000000000", "x1"));
         ("Automya/service-a",
          ("sync/workflows-update-1700000000000-1000", "x2"))])%list.

(** The remote that refuses every new pull request. *)
Definition locked : Demo.Remote :=
  {| Demo.now := Demo.now Demo.remote;
     Demo.seed := Demo.seed Demo.remote;
     Demo.repositories := Demo.repositories Demo.remote;
     Demo.tagged := Demo.tagged Demo.remote;
     Demo.workflows := Demo.workflows Demo.remote;
     Demo.heads := Demo.heads Demo.remote;
     Demo.pulls := Demo.pulls Demo.remote;
     Demo.refused := Demo.refused Demo.remote;
     Demo.pulls_locked := true;
     Demo.unreachable := Demo.unreachable Demo.remote;
     Demo.quota_unreadable := Demo.quota_unreadable Demo.remote |}.

(** ** Calls of a [run], by kind *)

(** The calls by which [run] finds what to synchronise: rate-limit checks,
    [get_repository], [get_workflow_files] and the search. *)
Definition discovery_call (ev : Event) : bool :=
  match ev with
  | Called_check_rate_limit _ _
  | Called_get_repository _ _
  | Called_get_workflow_files _ _ _
  | Called_search_repositories_by_topic _ _ _ => true
  | _ => false
  end.

(** The call is no [get_repository] that raised. *)
Definition fetched (ev : Event) : bool :=
  match ev with
  | Called_get_repository _ r => returned r
  | _ => true
  end.

(** The calls [d] of a computation that ended in [out]: every fetch
    returned, or the last call is a fetch that raised what the computation
    raises, after discovery calls only. *)
Definition fetch_decides {A : Type} (out : outcome A) (d : list Event) : Prop :=
  Forall (fun ev => fetched ev = true) d
  \/ exists before name e,
       out = Raised e
       /\ d = (before ++ [Called_get_repository name (Raised e)])%list
       /\ Forall (fun ev => fetched ev = true /\ discovery_call ev = true)
            before.

(** The demo remote after service-c has been removed while the search
    still lists it. *)
Definition vanished : Demo.Remote :=
  {| Demo.now := Demo.now Demo.remote;
     Demo.seed := Demo.seed Demo.remote;
     Demo.repositories := [Demo.source; Demo.repo_a; Demo.repo_b; Demo.repo_d];
     Demo.tagged := Demo.tagged Demo.remote;
     Demo.workflows := Demo.workflows Demo.remote;
     Demo.heads := Demo.heads Demo.remote;
     Demo.pulls := Demo.pulls Demo.remote;
     Demo.refused := Demo.refused Demo.remote;
     Demo.pulls_locked := Demo.pulls_locked Demo.remote;
     Demo.unreachable := Demo.unreachable Demo.remote;
     Demo.quota_unreadable := Demo.quota_unreadable Demo.remote |}.

(** The calls that only read a target: the listing of its open pull
    requests and the lookups of its files. *)
Definition reading (ev : Event) : bool :=
  match ev with
  | Called_get_open_prs_with_prefix _ _ _
  | Called_get_file_content _ _ _ => true
  | _ => false
  end.

(** The call is no [get_file_content] that raised. *)
Definition looked_up (ev : Event) : bool :=
  match ev with
  | Called_get_file_content _ _ r => returned r
  | _ => true
  end.

(** The demo remote with a [build.yml] in service-a that is not UTF-8. *)
Definition undecodable : Exc :=
  OtherException "'utf-8' codec can't decode byte 0xff in position 0".

Definition garbled : Demo.Remote :=
  {| Demo.now := Demo.now Demo.remote;
     Demo.seed := Demo.seed Demo.remote;
     Demo.repositories := Demo.repositories Demo.remote;
     Demo.tagged := Demo.tagged Demo.remote;
     Demo.workflows :=
       [("Automya/service-a",
         [{| GitHubClient.cf_type := "file";
             GitHubClient.cf_name := "build.yml";
             GitHubClient.cf_decoded := Raised undecodable;
             GitHubClient.cf_sha := "a1" |}])];
     Demo.heads := Demo.heads Demo.remote;
     Demo.pulls := Demo.pulls Demo.remote;
     Demo.refused := Demo.refused Demo.remote;
     Demo.pulls_locked := Demo.pulls_locked Demo.remote;
     Demo.unreachable := Demo.unreachable Demo.remote;
     Demo.quota_unreadable := Demo.quota_unreadable Demo.remote |}.

(* ================================================================== *)
(** * Reasoning about calls *)
(* ================================================================== *)

Section MonadFacts.

Context {S : Type}.

Lemma bind_returned {A B : Type} (c : M S A) (k : A -> M S B) s a s' :
  c s = (Returned a, s') -> bind c k s = k a s'.
Proof. intros H. unfold bind. now rewrite H. Qed.

Lemma bind_raised {A B : Type} (c : M S A) (k : A -> M S B) s e s' :
  c s = (Raised e, s') -> bind c k s = (Raised e, s').
Proof. intros H. unfold bind. now rewrite H. Qed.

Lemma try_returned {A : Type} f (c : M S A) h s a s' :
  c s = (Returned a, s') -> try_except_on f c h s = (Returned a, s').
Proof. intros H. unfold try_except_on. now rewrite H. Qed.

Lemma try_raised {A : Type} f (c : M S A) h s e s' :
  c s = (Raised e, s') -> f e = true -> try_except_on f c h s = h e s'.
Proof. intros H F. unfold try_except_on. now rewrite H, F. Qed.

Variable R : S -> S -> Prop.
Hypothesis R_refl : forall s, R s s.
Hypothesis R_trans : forall s1 s2 s3, R s1 s2 -> R s2 s3 -> R s1 s3.

Lemma keeps_ret {A : Type} (a : A) : keeps R (ret a).
Proof. intros s. apply R_refl. Qed.

Lemma keeps_raise {A : Type} (e : Exc) : keeps R (@raise S A e).
Proof. intros s. apply R_refl. Qed.

Lemma keeps_attr {A : Type} (r : outcome A) : keeps R (attr r).
Proof. intros s. apply R_refl. Qed.

Lemma keeps_bind {A B : Type} (c : M S A) (k : A -> M S B) :
  keeps R c -> (forall a, keeps R (k a)) -> keeps R (bind c k).
Proof.
  intros Hc Hk s. unfold bind. specialize (Hc s).
  destruct (c s) as [[a | e] s1]; simpl in *.
  - eapply R_trans; [exact Hc | apply Hk].
  - exact Hc.
Qed.

Lemma keeps_try {A : Type} f (c : M S A) h :
  keeps R c -> (forall e, keeps R (h e)) -> keeps R (try_except_on f c h).
Proof.
  intros Hc Hh s. unfold try_except_on. specialize (Hc s).
  destruct (c s) as [[a | e] s1]; simpl in *.
  - exact Hc.
  - destruct (f e); [eapply R_trans; [exact Hc | apply Hh] | exact Hc].
Qed.

Lemma keeps_if {A : Type} (b : bool) (c1 c2 : M S A) :
  keeps R c1 -> keeps R c2 -> keeps R (if b then c1 else c2).
Proof. destruct b; auto. Qed.

End MonadFacts.

Section AgreeFacts.

Context {S : Type}.
Variable I : S -> S -> Prop.

Lemma agrees_ret {A : Type} (a : A) : agrees I (ret a).
Proof. intros s1 s2 H. split; [reflexivity | exact H]. Qed.

Lemma agrees_raise {A : Type} (e : Exc) : agrees I (@raise S A e).
Proof. intros s1 s2 H. split; [reflexivity | exact H]. Qed.

Lemma agrees_attr {A : Type} (r : outcome A) : agrees I (attr r).
Proof. intros s1 s2 H. split; [reflexivity | exact H]. Qed.

Lemma agrees_bind {A B : Type} (c : M S A) (k : A -> M S B) :
  agrees I c -> (forall a, agrees I (k a)) -> agrees I (bind c k).
Proof.
  intros Hc Hk s1 s2 H. unfold bind. destruct (Hc s1 s2 H) as [E1 E2].
  destruct (c s1) as [[a1 | e1] t1], (c s2) as [[a2 | e2] t2];
    simpl in *; try discriminate.
  - injection E1 as ->. apply Hk, E2.
  - injection E1 as ->. split; [reflexivity | exact E2].
Qed.

Lemma agrees_try {A : Type} f (c : M S A) h :
  agrees I c -> (forall e, agrees I (h e)) -> agrees I (try_except_on f c h).
Proof.
  intros Hc Hh s1 s2 H. unfold try_except_on. destruct (Hc s1 s2 H) as [E1 E2].
  destruct (c s1) as [[a1 | e1] t1], (c s2) as [[a2 | e2] t2];
    simpl in *; try discriminate.
  - split; [exact E1 | exact E2].
  - injection E1 as ->. destruct (f e2).
    + apply Hh, E2.
    + split; [reflexivity | exact E2].
Qed.

Lemma agrees_if {A : Type} (b : bool) (c1 c2 : M S A) :
  agrees I c1 -> agrees I c2 -> agrees I (if b then c1 else c2).
Proof. destruct b; auto. Qed.

End AgreeFacts.

(** ** The service's steps, seen through the recording gateway *)
Section ServiceFacts.

Context {W : Type}.
Variable P : Event -> Prop.

Local Abbreviation St := (Service (W * list Event)).

Lemma grows_refl (s : St) : grows P s s.
Proof.
  split; [exists []; split; [now rewrite app_nil_r | constructor] | reflexivity].
Qed.

Lemma grows_trans (s1 s2 s3 : St) :
  grows P s1 s2 -> grows P s2 s3 -> grows P s1 s3.
Proof.
  intros [[d1 [E1 F1]] W1] [[d2 [E2 F2]] W2]. split.
  - exists (d1 ++ d2)%list. split.
    + now rewrite E2, E1, app_assoc.
    + apply Forall_app. now split.
  - congruence.
Qed.

Lemma grows_l_refl (ls : Locals * St) : grows_l P ls ls.
Proof. apply grows_refl. Qed.

Lemma grows_l_trans (l1 l2 l3 : Locals * St) :
  grows_l P l1 l2 -> grows_l P l2 l3 -> grows_l P l1 l3.
Proof. apply grows_trans. Qed.

Lemma keeps_call {A : Type} (ev : outcome A -> Event) (op : M W A) :
  (forall w, P (ev (fst (op w)))) -> keeps (grows P) (call (recorded ev op)).
Proof.
  intros H s. unfold call, recorded. specialize (H (fst (world s))).
  destruct (op (fst (world s))) as [r w'].
  simpl in *. split; [| reflexivity]. exists [ev r]. unfold calls. simpl.
  split; [reflexivity | constructor; [exact H | constructor]].
Qed.

Lemma keeps_time (rt : Runtime W) : keeps (grows P) (time (spy_runtime rt)).
Proof.
  intros s. unfold time, spy_runtime. simpl.
  destruct (time_time rt (fst (world s))) as [t w']. simpl.
  split; [| reflexivity]. exists []. unfold calls. simpl.
  split; [now rewrite app_nil_r | constructor].
Qed.

Lemma keeps_randint (rt : Runtime W) a b :
  keeps (grows P) (randint (spy_runtime rt) a b).
Proof.
  intros s. unfold randint, spy_runtime. simpl.
  destruct (random_draw rt (fst (world s))) as [t w']. simpl.
  split; [| reflexivity]. exists []. unfold calls. simpl.
  split; [now rewrite app_nil_r | constructor].
Qed.

Lemma keeps_set_start_time t : keeps (grows P) (@set_start_time (W * list Event) t).
Proof.
  intros s. split; [| reflexivity]. exists []. unfold calls. simpl.
  split; [now rewrite app_nil_r | constructor].
Qed.

Lemma keeps_get_source_workflows :
  keeps (grows P) (@get_source_workflows (W * list Event)).
Proof. intros s. apply grows_refl. Qed.

Lemma keeps_lift {A : Type} (c : M St A) :
  keeps (grows P) c -> keeps (grows_l P) (lift c).
Proof.
  intros H ls. unfold lift, grows_l. specialize (H (snd ls)).
  destruct (c (snd ls)) as [r s']. exact H.
Qed.

Lemma keeps_locals : keeps (grows_l P) (@locals (W * list Event)).
Proof. intros ls. apply grows_l_refl. Qed.

Lemma keeps_set_branch_name b : keeps (grows_l P) (@set_branch_name (W * list Event) b).
Proof. intros ls. apply grows_refl. Qed.

Lemma keeps_files_updated_append f :
  keeps (grows_l P) (@files_updated_append (W * list Event) f).
Proof. intros ls. apply grows_refl. Qed.

Lemma keeps_files_failed_append f :
  keeps (grows_l P) (@files_failed_append (W * list Event) f).
Proof. intros ls. apply grows_refl. Qed.

Lemma keeps_with_locals {A : Type} init (c : M (Locals * St) A) :
  keeps (grows_l P) c -> keeps (grows P) (with_locals init c).
Proof.
  intros H s. unfold with_locals. specialize (H (init, s)).
  destruct (c (init, s)) as [r ls']. exact H.
Qed.

End ServiceFacts.

(** Breaks a service function into its calls and settles each of them. *)
Ltac keeps_step :=
  first
    [ apply keeps_ret; [apply grows_refl]
    | apply keeps_ret; [apply grows_l_refl]
    | apply keeps_raise; [apply grows_refl]
    | apply keeps_raise; [apply grows_l_refl]
    | apply keeps_attr; [apply grows_refl]
    | apply keeps_attr; [apply grows_l_refl]
    | apply keeps_time
    | apply keeps_randint
    | apply keeps_set_start_time
    | apply keeps_get_source_workflows
    | apply keeps_locals
    | apply keeps_set_branch_name
    | apply keeps_files_updated_append
    | apply keeps_files_failed_append
    | apply keeps_with_locals
    | apply keeps_lift
    | apply keeps_call; intros; simpl; auto
    | apply keeps_bind; [apply grows_trans | | intros]
    | apply keeps_bind; [apply grows_l_trans | | intros]
    | apply keeps_try; [apply grows_trans | | intros]
    | apply keeps_try; [apply grows_l_trans | | intros]
    | match goal with
      | |- keeps _ (if ?b then _ else _) => destruct b
      | |- keeps _ (match ?x with _ => _ end) => destruct x
      end ].

Ltac keeps_all := repeat keeps_step.

Lemma grows_new_calls {W : Type} (P : Event -> Prop)
  (s s' : Service (W * list Event)) :
  grows P s s' -> Forall P (new_calls s s').
Proof.
  intros [[d [E F]] _]. unfold new_calls. rewrite E.
  rewrite skipn_app, skipn_all, Nat.sub_diag. exact F.
Qed.

Lemma new_calls_app {W : Type} (s s' : Service (W * list Event)) d :
  calls s' = (calls s ++ d)%list -> new_calls s s' = d.
Proof.
  intros E. unfold new_calls. rewrite E.
  now rewrite skipn_app, skipn_all, Nat.sub_diag.
Qed.

Section YieldFacts.

Context {S : Type}.

Lemma yields_ret {A : Type} (Q : A -> Prop) (a : A) :
  Q a -> yields Q (@ret S A a).
Proof. intros H s a' s' E. unfold ret in E. now injection E as <- _. Qed.

Lemma yields_raise {A : Type} (Q : A -> Prop) (e : Exc) :
  yields Q (@raise S A e).
Proof. intros s a' s' E. discriminate. Qed.

Lemma yields_bind {A B : Type} (Q1 : A -> Prop) (Q : B -> Prop)
  (c : M S A) (k : A -> M S B) :
  yields Q1 c -> (forall a, Q1 a -> yields Q (k a)) -> yields Q (bind c k).
Proof.
  intros Hc Hk s b s' E. unfold bind in E.
  destruct (c s) as [[a | e] s1] eqn:C; [| discriminate].
  eapply Hk; [eapply Hc; exact C | exact E].
Qed.

Lemma yields_try {A : Type} (Q : A -> Prop) f (c : M S A) h :
  yields Q c -> (forall e, yields Q (h e)) -> yields Q (try_except_on f c h).
Proof.
  intros Hc Hh s a s' E. unfold try_except_on in E.
  destruct (c s) as [[a1 | e] s1] eqn:C.
  - injection E as <- _. eapply Hc; exact C.
  - destruct (f e); [eapply Hh; exact E | discriminate].
Qed.

Lemma yields_any {A : Type} (c : M S A) : yields (fun _ => True) c.
Proof. intros s a s' _. exact I. Qed.

End YieldFacts.

(** ** The service's steps on a fixed remote *)
Section FixedFacts.

Context {W : Type}.
Variable d : dict.

Lemma agrees_call {A : Type} (op : M W A) :
  oracle op -> agrees (both_hold d) (call op).
Proof.
  intros O s1 s2 [H1 H2]. unfold call. specialize (O (world s1) (world s2)).
  destruct (op (world s1)) as [r1 w1], (op (world s2)) as [r2 w2].
  simpl in *. split; [exact O | split; assumption].
Qed.

Lemma agrees_time (rt : Runtime W) :
  (forall w w', fst (time_time rt w) = fst (time_time rt w')) ->
  agrees (both_hold d) (time rt).
Proof.
  intros O s1 s2 [H1 H2]. unfold time. specialize (O (world s1) (world s2)).
  destruct (time_time rt (world s1)) as [r1 w1],
           (time_time rt (world s2)) as [r2 w2].
  simpl in *. split; [now rewrite O | split; assumption].
Qed.

Lemma agrees_randint (rt : Runtime W) a b :
  (forall w w', fst (random_draw rt w) = fst (random_draw rt w')) ->
  agrees (both_hold d) (randint rt a b).
Proof.
  intros O s1 s2 [H1 H2]. unfold randint.
  specialize (O (world s1) (world s2)).
  destruct (random_draw rt (world s1)) as [r1 w1],
           (random_draw rt (world s2)) as [r2 w2].
  simpl in *. split; [now rewrite O | split; assumption].
Qed.

Lemma agrees_get_source_workflows :
  agrees (both_hold d) (@get_source_workflows W).
Proof.
  intros s1 s2 [H1 H2]. unfold get_source_workflows. simpl.
  split; [now rewrite H1, H2 | split; assumption].
Qed.

Lemma agrees_lift {A : Type} (c : M (Service W) A) :
  agrees (both_hold d) c -> agrees (both_hold_l d) (lift c).
Proof.
  intros H [l1 s1] [l2 s2] [L B]. simpl in L. subst l2. unfold lift.
  destruct (H s1 s2 B) as [E B']. simpl in *.
  destruct (c s1) as [r1 t1], (c s2) as [r2 t2]. simpl in *.
  split; [exact E | split; [reflexivity | exact B']].
Qed.

Lemma agrees_locals : agrees (both_hold_l d) (@locals W).
Proof.
  intros [l1 s1] [l2 s2] [L B]. simpl in L. subst l2. unfold locals. simpl.
  split; [reflexivity | split; [reflexivity | exact B]].
Qed.

Lemma agrees_set_branch_name b : agrees (both_hold_l d) (@set_branch_name W b).
Proof.
  intros [l1 s1] [l2 s2] [L B]. simpl in L. subst l2.
  unfold set_branch_name. simpl.
  split; [reflexivity | split; [reflexivity | exact B]].
Qed.

Lemma agrees_files_updated_append f :
  agrees (both_hold_l d) (@files_updated_append W f).
Proof.
  intros [l1 s1] [l2 s2] [L B]. simpl in L. subst l2.
  unfold files_updated_append. simpl.
  split; [reflexivity | split; [reflexivity | exact B]].
Qed.

Lemma agrees_files_failed_append f :
  agrees (both_hold_l d) (@files_failed_append W f).
Proof.
  intros [l1 s1] [l2 s2] [L B]. simpl in L. subst l2.
  unfold files_failed_append. simpl.
  split; [reflexivity | split; [reflexivity | exact B]].
Qed.

Lemma agrees_with_locals {A : Type} init (c : M (Locals * Service W) A) :
  agrees (both_hold_l d) c -> agrees (both_hold d) (with_locals init c).
Proof.
  intros H s1 s2 B. unfold with_locals.
  destruct (H (init, s1) (init, s2) (conj eq_refl B)) as [E [_ B']].
  destruct (c (init, s1)) as [r1 [l1 t1]], (c (init, s2)) as [r2 [l2 t2]].
  simpl in *. split; [exact E | exact B'].
Qed.

End FixedFacts.

Ltac agrees_step F :=
  first
    [ apply agrees_ret
    | apply agrees_raise
    | apply agrees_attr
    | apply agrees_time; apply F
    | apply agrees_randint; apply F
    | apply agrees_get_source_workflows
    | apply agrees_locals
    | apply agrees_set_branch_name
    | apply agrees_files_updated_append
    | apply agrees_files_failed_append
    | apply agrees_with_locals
    | apply agrees_lift
    | apply agrees_call; apply F
    | apply agrees_bind; [| intros]
    | apply agrees_try; [| intros]
    | match goal with
      | |- agrees _ (if ?b then _ else _) => destruct b
      | |- agrees _ (match ?x with _ => _ end) => destruct x
      end ].

Ltac agrees_all F := repeat agrees_step F.

(** ** What each service function may call *)
Section Footprints.

Context {W : Type}.
Variable client : IGitHubClient.t W.
Variable rt : Runtime W.
Variable config : SyncConfig.
Variable P : Event -> Prop.
Variable repo : Repository.t.

Lemma keeps_check_skip_conditions :
  (forall r, P (Called_get_open_prs_with_prefix repo BRANCH_PREFIX r)) ->
  keeps (grows P) (_check_skip_conditions (spy client) repo).
Proof.
  intros H. unfold _check_skip_conditions, try_except. keeps_all.
Qed.

Lemma keeps_get_required_changes_from items changes :
  (forall path r, P (Called_get_file_content repo path r)) ->
  keeps (grows P) (_get_required_changes_from (spy client) repo items changes).
Proof.
  intros H. revert changes.
  induction items as [| [filename new_content] rest IH]; intros changes; simpl.
  - keeps_all.
  - keeps_all; apply IH.
Qed.

Lemma keeps_get_required_changes :
  (forall path r, P (Called_get_file_content repo path r)) ->
  keeps (grows P) (_get_required_changes (spy client) repo).
Proof.
  intros H. unfold _get_required_changes. keeps_all.
  now apply keeps_get_required_changes_from.
Qed.

Lemma keeps_generate_unique_branch_name :
  (forall b w,
      P (Called_branch_exists repo b
           (fst (IGitHubClient.branch_exists client repo b w)))) ->
  keeps (grows P)
    (_generate_unique_branch_name (spy client) (spy_runtime rt) repo).
Proof.
  intros H. unfold _generate_unique_branch_name. keeps_all.
Qed.

Lemma keeps_apply_changes branch changes :
  (forall path text message sha w,
      P (Called_create_or_update_file repo path text message branch sha
           (fst (IGitHubClient.create_or_update_file client repo path text
                   message branch sha w)))) ->
  keeps (grows_l P) (apply_changes (spy client) repo branch changes).
Proof.
  intros H. induction changes as [| change rest IH]; simpl.
  - keeps_all.
  - unfold apply_change, try_except. keeps_all. exact IH.
Qed.

(** The Transaction calls [get_base_sha], [branch_exists], [create_branch],
    [create_or_update_file], [create_pull_request] and [delete_branch],
    and nothing else. *)
Lemma keeps_create_sync_pr changes :
  (forall b w,
      P (Called_get_base_sha repo b
           (fst (IGitHubClient.get_base_sha client repo b w)))) ->
  (forall b w,
      P (Called_branch_exists repo b
           (fst (IGitHubClient.branch_exists client repo b w)))) ->
  (forall b sha w,
      P (Called_create_branch repo b sha
           (fst (IGitHubClient.create_branch client repo b sha w)))) ->
  (forall path text message branch sha w,
      P (Called_create_or_update_file repo path text message branch sha
           (fst (IGitHubClient.create_or_update_file client repo path text
                   message branch sha w)))) ->
  (forall title body head base w,
      P (Called_create_pull_request repo title body head base
           (fst (IGitHubClient.create_pull_request client repo title body
                   head base w)))) ->
  (forall b w,
      P (Called_delete_branch repo b
           (fst (IGitHubClient.delete_branch client repo b w)))) ->
  keeps (grows P)
    (_create_sync_pr (spy client) (spy_runtime rt) config repo changes).
Proof.
  intros H1 H2 H3 H4 H5 H6. unfold _create_sync_pr, try_except.
  keeps_all.
  all: try (now apply keeps_generate_unique_branch_name).
  all: now apply keeps_apply_changes.
Qed.

Lemma keeps_sync_single_repo :
  (forall ev, target_call ev = true -> P ev) ->
  keeps (grows P) (sync_single_repo (spy client) (spy_runtime rt) config repo).
Proof.
  intros H. unfold sync_single_repo, try_except.
  apply keeps_try; [apply grows_trans | | intros; keeps_all].
  apply keeps_bind; [apply grows_trans | | intros [skipped |]].
  - apply keeps_check_skip_conditions. intros. now apply H.
  - keeps_all.
  - apply keeps_bind; [apply grows_trans | | intros changes].
    + apply keeps_get_required_changes. intros. now apply H.
    + destruct (negb (truthy_list changes)); [keeps_all |].
      destruct (dry_run config); [keeps_all |].
      apply keeps_create_sync_pr; intros; now apply H.
Qed.

End Footprints.

Section StrategyFootprints.

Context {W : Type}.
Variable client : IGitHubClient.t W.
Variable rt : Runtime W.
Variable config : SyncConfig.
Variable P : Event -> Prop.
Hypothesis P_target : forall ev, target_call ev = true -> P ev.

Lemma keeps_sequential repos : forall idx results,
  keeps (grows P)
    (SequentialSyncStrategy_sync_from (spy client) (spy_runtime rt) config
       idx repos results).
Proof.
  induction repos as [| repo rest IH]; intros idx results; simpl.
  - keeps_all.
  - apply keeps_bind; [apply grows_trans | | intros _].
    { destruct ((0 <? idx)%nat && (idx mod 5 =? 0)%nat); keeps_all. }
    apply keeps_bind; [apply grows_trans | apply keeps_time | intros t0].
    apply keeps_bind; [apply grows_trans | | intros result].
    { now apply keeps_sync_single_repo. }
    apply keeps_bind; [apply grows_trans | apply keeps_time | intros t1].
    apply keeps_bind; [apply grows_trans | | intros _; apply IH].
    apply keeps_call. intros. now apply P_target.
Qed.

Lemma keeps_parallel repos completion : forall results,
  keeps (grows P)
    (ParallelSyncStrategy_sync_from (spy client) (spy_runtime rt) config
       repos completion results).
Proof.
  induction completion as [| i rest IH]; intros results; simpl.
  - keeps_all.
  - destruct (nth_error repos i) as [repo |]; [| apply IH].
    apply keeps_bind; [apply grows_trans | | intros result; apply IH].
    unfold try_except.
    apply keeps_try; [apply grows_trans | | intros; keeps_all].
    now apply keeps_sync_single_repo.
Qed.

Lemma keeps_parallel_sync max_workers completion repos :
  keeps (grows P)
    (ParallelSyncStrategy_sync (spy client) (spy_runtime rt) config
       max_workers completion repos).
Proof.
  unfold ParallelSyncStrategy_sync.
  destruct (max_workers <=? 0)%Z;
    [apply keeps_raise, grows_refl | apply keeps_parallel].
Qed.

Lemma keeps_repos_to_sync_from source infos : forall repos,
  (forall asked w,
      asked <> source ->
      P (Called_get_repository asked
           (fst (IGitHubClient.get_repository client asked w)))) ->
  keeps (grows P) (repos_to_sync_from (spy client) source infos repos).
Proof.
  intros repos H. revert repos.
  induction infos as [| info rest IH]; intros repos; simpl.
  - keeps_all.
  - destruct (String.eqb_spec (RepositoryInfo.full_name info) source);
      [apply IH |].
    apply keeps_bind; [apply grows_trans | | intros repo; apply IH].
    apply keeps_call. intros w. now apply H.
Qed.

End StrategyFootprints.

(** ** The Branch/PR Transaction, run by run *)
Section TransactionRuns.

Context {W : Type}.
Variable client : IGitHubClient.t W.
Variable rt : Runtime W.
Variable config : SyncConfig.
Variable repo : Repository.t.

Local Abbreviation St := (Service (W * list Event)).

Lemma at_world_calls (s : St) w d :
  calls (at_world s w d) = (calls s ++ d)%list.
Proof. reflexivity. Qed.

Lemma at_world_again (s : St) w d w' d' :
  at_world (at_world s w d) w' d' = at_world s w' (d ++ d')%list.
Proof. unfold at_world, calls. simpl. now rewrite app_assoc. Qed.

Lemma call_recorded {A : Type} (ev : outcome A -> Event) (op : M W A) (s : St) :
  call (recorded ev op) s =
  (fst (op (fst (world s))),
   at_world s (snd (op (fst (world s)))) [ev (fst (op (fst (world s))))]).
Proof.
  unfold call, recorded, at_world, calls.
  destruct (op (fst (world s))) as [r w']. reflexivity.
Qed.

Lemma time_run (s : St) :
  time (spy_runtime rt) s =
  (Returned (fst (time_time rt (fst (world s)))),
   at_world s (snd (time_time rt (fst (world s)))) []).
Proof.
  unfold time, spy_runtime, at_world, calls. simpl.
  destruct (time_time rt (fst (world s))) as [t w']. simpl.
  now rewrite app_nil_r.
Qed.

Lemma randint_run a b (s : St) :
  randint (spy_runtime rt) a b s =
  (Returned (a + Z.of_N (fst (random_draw rt (fst (world s)))) mod (b - a + 1))%Z,
   at_world s (snd (random_draw rt (fst (world s)))) []).
Proof.
  unfold randint, spy_runtime, at_world, calls. simpl.
  destruct (random_draw rt (fst (world s))) as [t w']. simpl.
  now rewrite app_nil_r.
Qed.

Local Opaque String.append.

Lemma apply_changes_run branch changes :
  forall (l : Locals) (s : St),
  exists results w',
    List.length results = List.length changes
    /\ apply_changes (spy client) repo branch changes (l, s) =
       (Returned tt,
        ({| l_branch_name := l_branch_name l;
            l_files_updated :=
              (l_files_updated l ++ written true changes results)%list;
            l_files_failed :=
              (l_files_failed l ++ written false changes results)%list |},
         at_world s w' (writes repo branch changes results))).
Proof.
  induction changes as [| change rest IH]; intros l s.
  - exists [], (fst (world s)). split; [reflexivity |]. simpl.
    unfold ret, at_world, calls, writes. simpl. rewrite !app_nil_r.
    destruct l, s as [[w tr] sw st]. reflexivity.
  - simpl apply_changes. unfold bind at 1.
    unfold apply_change, try_except, try_except_on.
    unfold bind at 1. unfold lift at 1. simpl snd. simpl fst.
    cbn [IGitHubClient.create_or_update_file spy].
    rewrite call_recorded.
    destruct (IGitHubClient.create_or_update_file client repo
                (WORKFLOWS_PATH ++ "/" ++ filename change) (content change)
                ("chore: "
                 ++ (if truthy_opt (existing_sha change) then "sync" else "add")
                 ++ " workflow " ++ filename change)
                branch (existing_sha change) (fst (world s))) as [r w1] eqn:E.
    simpl fst. simpl snd.
    destruct r as [[] | e].
    + unfold files_updated_append at 1. simpl fst. simpl snd.
      destruct (IH {| l_branch_name := l_branch_name l;
                      l_files_updated := (l_files_updated l ++ [filename change])%list;
                      l_files_failed := l_files_failed l |}
                   (at_world s w1
                      [Called_create_or_update_file repo
                         (WORKFLOWS_PATH ++ "/" ++ filename change)
                         (content change)
                         ("chore: "
                          ++ (if truthy_opt (existing_sha change)
                              then "sync" else "add")
                          ++ " workflow " ++ filename change)
                         branch (existing_sha change) (Returned tt)]))
        as [results [w' [Hlen Hrun]]].
      exists (Returned tt :: results), w'. split; [simpl; now rewrite Hlen |].
      rewrite Hrun. simpl. rewrite at_world_again.
      unfold writes. simpl. unfold write_of at 2, commit_message.
      now rewrite <- !app_assoc.
    + unfold files_failed_append at 1. simpl fst. simpl snd.
      destruct (IH {| l_branch_name := l_branch_name l;
                      l_files_updated := l_files_updated l;
                      l_files_failed := (l_files_failed l ++ [filename change])%list |}
                   (at_world s w1
                      [Called_create_or_update_file repo
                         (WORKFLOWS_PATH ++ "/" ++ filename change)
                         (content change)
                         ("chore: "
                          ++ (if truthy_opt (existing_sha change)
                              then "sync" else "add")
                          ++ " workflow " ++ filename change)
                         branch (existing_sha change) (Raised e)]))
        as [results [w' [Hlen Hrun]]].
      exists (Raised e :: results), w'. split; [simpl; now rewrite Hlen |].
      rewrite Hrun. simpl. rewrite at_world_again.
      unfold writes. simpl. unfold write_of at 2, commit_message.
      now rewrite <- !app_assoc.
Qed.

Lemma at_world_same (s : Service (W * list Event)) : at_world s (fst (world s)) [] = s.
Proof. destruct s as [[w tr] sw st]. unfold at_world, calls. simpl. now rewrite app_nil_r. Qed.

Lemma lift_call_run {A B : Type} (ev : outcome A -> Event) (op : M W A)
  (k : A -> M (Locals * Service (W * list Event)) B) l s :
  bind (lift (call (recorded ev op))) k (l, s) =
  match op (fst (world s)) with
  | (Returned a, w1) => k a (l, at_world s w1 [ev (Returned a)])
  | (Raised e, w1) => (Raised e, (l, at_world s w1 [ev (Raised e)]))
  end.
Proof.
  unfold bind, lift. cbn [fst snd]. rewrite call_recorded.
  destruct (op (fst (world s))) as [[a | e] w1]; reflexivity.
Qed.

Lemma generate_run (s : Service (W * list Event)) :
  let ts := int_of_float (Qmult (fst (time_time rt (fst (world s)))) (inject_Z 1000)) in
  let w0 := snd (time_time rt (fst (world s))) in
  _generate_unique_branch_name (spy client) (spy_runtime rt) repo s =
  match IGitHubClient.branch_exists client repo (candidate ts) w0 with
  | (Raised e, w1) =>
    (Raised e, at_world s w1 [Called_branch_exists repo (candidate ts) (Raised e)])
  | (Returned false, w1) =>
    (Returned (candidate ts),
     at_world s w1 [Called_branch_exists repo (candidate ts) (Returned false)])
  | (Returned true, w1) =>
    (Returned (candidate ts ++ "-"
               ++ str_of_int (1000 + Z.of_N (fst (random_draw rt w1))
                                     mod (9999 - 1000 + 1))%Z),
     at_world s (snd (random_draw rt w1))
       [Called_branch_exists repo (candidate ts) (Returned true)])
  end.
Proof.
  intros ts w0. unfold _generate_unique_branch_name.
  unfold bind at 1. rewrite time_run. fold ts. fold w0.
  unfold bind at 1. cbn [IGitHubClient.branch_exists spy].
  rewrite call_recorded. cbn [world at_world fst snd].
  fold (candidate ts).
  destruct (IGitHubClient.branch_exists client repo (candidate ts) w0)
    as [[[|] | e] w1] eqn:E; cbn [fst snd].
  - unfold bind. rewrite randint_run. unfold ret. cbn [world at_world fst snd calls].
    rewrite !at_world_again. reflexivity.
  - unfold ret. rewrite at_world_again. reflexivity.
  - rewrite at_world_again. reflexivity.
Qed.


Lemma lift_run {A B : Type} (c : M (Service (W * list Event)) A)
  (k : A -> M (Locals * Service (W * list Event)) B) l s :
  bind (lift c) k (l, s) =
  match c s with
  | (Returned a, s') => k a (l, s')
  | (Raised e, s') => (Raised e, (l, s'))
  end.
Proof.
  unfold bind, lift. cbn [fst snd].
  destruct (c s) as [[a | e] s']; reflexivity.
Qed.

Local Transparent String.append.
Lemma candidate_truthy ts x : truthy_str (candidate ts ++ x) = true.
Proof. reflexivity. Qed.

Lemma candidate_truthy' ts : truthy_str (candidate ts) = true.
Proof. reflexivity. Qed.
Local Opaque String.append.

Lemma named_truthy ts taken b : named ts taken b -> truthy_str b = true.
Proof.
  destruct taken; simpl.
  - intros [suffix [_ ->]]. apply candidate_truthy.
  - intros ->. apply candidate_truthy'.
Qed.

Lemma create_sync_pr_runs changes (s : Service (W * list Event)) :
  exists out d w',
    _create_sync_pr (spy client) (spy_runtime rt) config repo changes s
      = (out, at_world s w' d)
    /\ Transaction config repo changes d out.
Proof.
  unfold _create_sync_pr, with_locals, try_except, try_except_on.
  destruct (Repository.default_branch repo) as [db | e] eqn:Hdb.
  2:{ unfold bind at 1. unfold attr at 1. simpl.
      exists (Returned (error_outcome repo e None [] [])), [], (fst (world s)).
      rewrite at_world_same. split; [reflexivity |].
      now apply T_default_branch_unreadable. }
  unfold bind at 1. unfold attr at 1.
  cbn [IGitHubClient.get_base_sha spy]. rewrite lift_call_run.
  destruct (IGitHubClient.get_base_sha client repo db (fst (world s)))
    as [[sha | e] w1] eqn:E1.
  2:{ simpl. eexists _, _, _. split; [reflexivity |].
      now apply T_base_sha_failed. }
  rewrite lift_run, generate_run.
  set (ts := int_of_float _).
  cbn [world at_world fst snd].
  destruct (IGitHubClient.branch_exists client repo (candidate ts)
              (snd (time_time rt w1))) as [[taken | e] w2] eqn:E2.
  2:{ cbn. rewrite at_world_again. eexists _, _, _. split; [reflexivity |].
      now apply T_branch_exists_failed. }
  assert (N : exists b wb,
             named ts taken b /\
             (if taken
              then
                (Returned
                   (candidate ts ++ "-"
                    ++ str_of_int
                         (1000 + Z.of_N (fst (random_draw rt w2))
                                 mod (9999 - 1000 + 1))%Z),
                 at_world
                   (at_world s w1 [Called_get_base_sha repo db (Returned sha)])
                   (snd (random_draw rt w2))
                   [Called_branch_exists repo (candidate ts) (Returned true)])
              else
                (Returned (candidate ts),
                 at_world
                   (at_world s w1 [Called_get_base_sha repo db (Returned sha)])
                   w2
                   [Called_branch_exists repo (candidate ts) (Returned false)]))
             = (Returned b,
                at_world s wb
                  [Called_get_base_sha repo db (Returned sha);
                   Called_branch_exists repo (candidate ts) (Returned taken)])).
  { destruct taken; rewrite at_world_again; eexists _, _;
      (split; [| reflexivity]); unfold named.
    - eexists. split; [| reflexivity].
      pose proof (Z.mod_pos_bound
                    (Z.of_N (fst (random_draw rt w2))) (9999 - 1000 + 1)%Z).
      lia.
    - reflexivity. }
  destruct N as [b [wb [Hb Eb]]].
  replace (match taken with true => _ | false => _ end)
    with (Returned b,
          at_world s wb
            [Called_get_base_sha repo db (Returned sha);
             Called_branch_exists repo (candidate ts) (Returned taken)]).
  cbn iota beta. clear Eb.
  unfold bind at 1. unfold set_branch_name at 1.
  cbn [fst snd l_branch_name l_files_updated l_files_failed].
  cbn [IGitHubClient.create_branch spy]. rewrite lift_call_run.
  destruct (IGitHubClient.create_branch client repo b sha _)
    as [[[] | e] w3] eqn:E3.
  2:{ cbn iota beta.
      unfold bind at 1. unfold locals at 1.
      cbn [fst snd l_branch_name l_files_updated l_files_failed truthy_opt].
      rewrite (named_truthy _ _ _ Hb).
      cbn [IGitHubClient.delete_branch spy]. rewrite lift_call_run.
      rewrite at_world_again.
      destruct (IGitHubClient.delete_branch client repo b _)
        as [[[] | e'] w4] eqn:E4; unfold ret; cbn [fst snd]; rewrite ?at_world_again;
        eexists _, _, _; (split; [reflexivity |]);
        [ apply (T_create_branch_failed config repo changes db sha ts taken b e (Returned tt))
        | apply (T_create_branch_failed config repo changes db sha ts taken b e (Raised e')) ];
        assumption. }
  rewrite at_world_again.
  destruct (apply_changes_run b changes
              {| l_branch_name := Some b;
                 l_files_updated := [];
                 l_files_failed := [] |}
              (at_world s w3
                 [Called_get_base_sha repo db (Returned sha);
                  Called_branch_exists repo (candidate ts) (Returned taken);
                  Called_create_branch repo b sha (Returned tt)]))
    as [results [w4 [Hlen Hrun]]].
  unfold bind at 1. cbn [app]. rewrite Hrun. clear Hrun.
  cbn [l_branch_name l_files_updated l_files_failed app].
  rewrite at_world_again.
  unfold bind at 1. unfold locals at 1.
  cbn [fst snd l_branch_name l_files_updated l_files_failed].
  destruct (written true changes results) as [| f fs] eqn:Hw.
  - cbn [truthy_list negb].
    cbn [IGitHubClient.delete_branch spy]. rewrite lift_call_run.
    destruct (IGitHubClient.delete_branch client repo b _)
      as [[[] | e] w5] eqn:E5.
    + unfold ret. cbn [fst snd]. rewrite ?at_world_again, <- ?app_assoc.
      eexists _, _, _. split; [reflexivity |].
      apply (T_all_writes_failed config repo changes db sha ts taken b results); assumption.
    + cbn iota beta.
      unfold bind at 1. unfold locals at 1.
      cbn [fst snd l_branch_name l_files_updated l_files_failed truthy_opt].
      rewrite (named_truthy _ _ _ Hb).
      rewrite lift_call_run. cbn [world at_world fst snd].
      destruct (IGitHubClient.delete_branch client repo b w5)
        as [[[] | e'] w6] eqn:E6; unfold ret; cbn [fst snd];
        rewrite ?at_world_again, <- ?app_assoc;
        eexists _, _, _; (split; [reflexivity |]);
        [ apply (T_all_writes_failed_delete_raised config repo changes db sha ts taken b
                   results e (Returned tt))
        | apply (T_all_writes_failed_delete_raised config repo changes db sha ts taken b
                   results e (Raised e')) ];
        assumption.
  - cbn [truthy_list negb].
    unfold bind at 1. unfold attr at 1.
    cbn [IGitHubClient.create_pull_request spy]. rewrite lift_call_run.
    destruct (IGitHubClient.create_pull_request client repo _ _ b db _)
      as [[pr | e] w5] eqn:E5.
    + unfold ret. cbn [fst snd]. rewrite ?at_world_again, <- ?app_assoc.
      eexists _, _, _. split; [reflexivity |]. rewrite <- Hw.
      apply (T_pull_request_opened config repo changes db sha ts taken b results pr);
        try assumption.
      rewrite Hw. discriminate.
    + cbn iota beta.
      unfold bind at 1. unfold locals at 1.
      cbn [fst snd l_branch_name l_files_updated l_files_failed truthy_opt].
      rewrite (named_truthy _ _ _ Hb).
      cbn [IGitHubClient.delete_branch spy].
      rewrite lift_call_run. cbn [world at_world fst snd].
      destruct (IGitHubClient.delete_branch client repo b w5)
        as [[[] | e'] w6] eqn:E6; unfold ret; cbn [fst snd];
        rewrite ?at_world_again, <- ?app_assoc;
        eexists _, _, _; (split; [reflexivity |]); rewrite <- Hw;
        [ apply (T_pull_request_failed config repo changes db sha ts taken b results e
                   (Returned tt))
        | apply (T_pull_request_failed config repo changes db sha ts taken b results e
                   (Raised e')) ];
        try assumption; rewrite Hw; discriminate.
Qed.

End TransactionRuns.

(** ** Counting the writes *)






Lemma in_writes repo b changes results ev :
  In ev (writes repo b changes results) -> is_file_write ev = true.
Proof.
  unfold writes. intros H. apply in_map_iff in H.
  destruct H as [cr [<- _]]. reflexivity.
Qed.

(** ** The Diff Computer, lookup by lookup *)
Section DiffRuns.

Context {W : Type}.
Variable client : IGitHubClient.t W.
Variable repo : Repository.t.
Variable target : string -> option (string * string).

Local Abbreviation St := (Service (W * list Event)).

Local Opaque String.append.

Lemma get_required_changes_from_run items :
  forall changes (s : St),
    (forall path reply,
        In (Called_get_file_content repo path reply)
           (new_calls s
              (snd (_get_required_changes_from (spy client) repo items
                      changes s))) ->
        reply = Returned (target path)) ->
    exists w',
      _get_required_changes_from (spy client) repo items changes s
      = (Returned (changes ++ computeChanges items target)%list,
         at_world s w' (List.map (lookup_of repo target) items)).
Proof.
  induction items as [| [filename new_content] rest IH]; intros changes s H.
  - exists (fst (world s)). simpl. unfold ret.
    now rewrite app_nil_r, at_world_same.
  - simpl _get_required_changes_from in *. unfold bind in *.
    cbn [IGitHubClient.get_file_content spy] in *.
    rewrite call_recorded in *.
    destruct (IGitHubClient.get_file_content client repo
                (WORKFLOWS_PATH ++ "/" ++ filename) (fst (world s)))
      as [r w1] eqn:E.
    cbn [fst snd] in *.
    destruct r as [found | e]; cbn [fst snd] in *.
    2:{ specialize (H (WORKFLOWS_PATH ++ "/" ++ filename) (Raised e)).
        rewrite (new_calls_app s _ _ (at_world_calls s w1 _)) in H.
        specialize (H (or_introl eq_refl)). discriminate. }
    set (s1 := at_world s w1
                 [Called_get_file_content repo
                    (WORKFLOWS_PATH ++ "/" ++ filename) (Returned found)]) in *.
    set (next :=
           match found with
           | Some (existing_content, sha) =>
             if negb (strip existing_content =? strip new_content)%string
             then (changes ++ [{| filename := filename;
                                  content := new_content;
                                  existing_sha := Some sha |}])%list
             else changes
           | None => (changes ++ [{| filename := filename;
                                     content := new_content;
                                     existing_sha := None |}])%list
           end).
    assert (Step :
              match found with
              | Some (existing_content, sha) =>
                if negb (strip existing_content =? strip new_content)%string
                then
                  _get_required_changes_from (spy client) repo rest
                    (changes ++ [{| filename := filename;
                                    content := new_content;
                                    existing_sha := Some sha |}])%list
                else _get_required_changes_from (spy client) repo rest changes
              | None =>
                _get_required_changes_from (spy client) repo rest
                  (changes ++ [{| filename := filename;
                                  content := new_content;
                                  existing_sha := None |}])%list
              end s1
              = _get_required_changes_from (spy client) repo rest next s1).
    { subst next. destruct found as [[existing_content sha] |];
        [destruct (negb _) |]; reflexivity. }
    rewrite Step in *. clear Step.
    pose proof (keeps_get_required_changes_from client (fun _ => True) repo
                  rest next (fun _ _ => I) s1) as [[d [Ed _]] _].
    assert (Calls : calls (snd (_get_required_changes_from (spy client) repo
                                  rest next s1))
                    = (calls s
                       ++ Called_get_file_content repo
                            (WORKFLOWS_PATH ++ "/" ++ filename) (Returned found)
                          :: d)%list).
    { rewrite Ed. subst s1. rewrite at_world_calls, <- app_assoc. reflexivity. }
    assert (Found : found = target (WORKFLOWS_PATH ++ "/" ++ filename)).
    { specialize (H (WORKFLOWS_PATH ++ "/" ++ filename) (Returned found)).
      rewrite (new_calls_app _ _ _ Calls) in H.
      specialize (H (or_introl eq_refl)). now injection H. }
    destruct (IH next s1) as [w' Hrun].
    { intros path reply Hin. apply H.
      rewrite (new_calls_app _ _ _ Calls).
      rewrite (new_calls_app _ _ _ Ed) in Hin. now right. }
    exists w'. rewrite Hrun. subst s1. rewrite at_world_again.
    f_equal; [f_equal |].
    + subst next. unfold computeChanges. cbn [flat_map fst snd].
      rewrite <- Found.
      destruct found as [[existing_content sha] |].
      * destruct (strip existing_content =? strip new_content)%string;
          cbn [negb]; [reflexivity | now rewrite <- app_assoc].
      * now rewrite <- app_assoc.
    + cbn [List.map]. unfold lookup_of at 2. cbn [fst]. now rewrite <- Found.
Qed.

End DiffRuns.

(** ** Whose outcome it is *)
Section OutcomeNames.

Context {W : Type}.
Variable client : IGitHubClient.t W.
Variable rt : Runtime W.
Variable config : SyncConfig.
Variable repo : Repository.t.

Lemma transaction_named_after changes d r :
  Transaction config repo changes d (Returned r) -> named_after repo r.
Proof.
  intros T.
  inversion T as
    [ e Hdb
    | db e Hdb
    | db sha0 ts e Hdb
    | db sha0 ts taken b0 e deleted Hdb Hb
    | db sha0 ts taken b0 results Hdb Hb Hlen Hw
    | db sha0 ts taken b0 results e deleted Hdb Hb Hlen Hw
    | db sha0 ts taken b0 results pr Hdb Hb Hlen Hw
    | db sha0 ts taken b0 results e deleted Hdb Hb Hlen Hw ]; subst;
    try reflexivity;
    destruct deleted as [[] | e']; try discriminate;
    match goal with H : cleanup _ _ _ _ _ _ = Returned r |- _ =>
      injection H as <- end; reflexivity.
Qed.

Lemma sync_single_repo_named_after :
  yields (named_after repo)
    (sync_single_repo (spy client) (spy_runtime rt) config repo).
Proof.
  unfold sync_single_repo, try_except.
  apply yields_try.
  - apply (yields_bind
             (fun o => match o with
                       | Some r => named_after repo r
                       | None => True
                       end)).
    + intros s o s' E. unfold _check_skip_conditions in E.
      destruct (Repository.archived repo).
      { unfold ret in E. injection E as <- _. reflexivity. }
      unfold try_except, try_except_on, bind, attr, ret in E.
      destruct (Repository.default_branch repo) as [b | e].
      * destruct (negb (truthy_str b)).
        { injection E as <- _. reflexivity. }
        destruct (call _ s) as [[[| url rest] | e] s1]; try discriminate;
          injection E as <- _; [exact I | reflexivity].
      * injection E as <- _. reflexivity.
    + intros [skipped |] H; [now apply yields_ret |].
      apply (yields_bind (fun _ => True)); [apply yields_any | intros changes _].
      destruct (negb (truthy_list changes)); [now apply yields_ret |].
      destruct (dry_run config); [now apply yields_ret |].
      intros s r s' E.
      destruct (create_sync_pr_runs client rt config repo changes s)
        as [out [d [w' [Hrun T]]]].
      rewrite E in Hrun. injection Hrun as <- _.
      eapply transaction_named_after; exact T.
  - intros e. apply (yields_bind (fun _ => True)); [apply yields_any |].
    intros _ _. now apply yields_ret.
Qed.

(** [sync_single_repo] returns whatever its gateway does. *)
Lemma sync_single_repo_returns {V : Type} (c : IGitHubClient.t V)
  (r : Runtime V) (s : Service V) :
  exists result, fst (sync_single_repo c r config repo s) = Returned result.
Proof.
  unfold sync_single_repo, try_except, try_except_on.
  match goal with
  | |- context [match ?body s with _ => _ end] =>
    destruct (body s) as [[result | e] s1]
  end.
  - now exists result.
  - eexists. reflexivity.
Qed.

End OutcomeNames.

(** ** The targets [run] dispatches *)
Section Dispatch.

Context {W : Type}.
Variable client : IGitHubClient.t W.
Variable rt : Runtime W.
Variable config : SyncConfig.

Local Abbreviation St := (Service (W * list Event)).

Lemma outcomes_of_app repos r1 r2 :
  outcomes_of repos r1 -> outcomes_of repos r2 ->
  outcomes_of repos (r1 ++ r2)%list.
Proof.
  intros H1 H2 r Hin. apply in_app_or in Hin. destruct Hin; auto.
Qed.

Lemma outcomes_of_one repos repo result d :
  In repo repos -> named_after repo result ->
  outcomes_of repos [set_duration_seconds result d].
Proof.
  intros Hin Hn r [<- | []]. exists repo. split; [exact Hin | exact Hn].
Qed.

Lemma sequential_outcomes all repos : forall idx results,
  incl repos all ->
  outcomes_of all results ->
  yields (outcomes_of all)
    (SequentialSyncStrategy_sync_from (spy client) (spy_runtime rt) config
       idx repos results).
Proof.
  induction repos as [| repo rest IH]; intros idx results Hsub Hacc; simpl.
  - now apply yields_ret.
  - apply (yields_bind (fun _ => True)); [apply yields_any | intros _ _].
    apply (yields_bind (fun _ => True)); [apply yields_any | intros t0 _].
    apply (yields_bind (named_after repo));
      [apply sync_single_repo_named_after | intros result Hr].
    apply (yields_bind (fun _ => True)); [apply yields_any | intros t1 _].
    apply (yields_bind (fun _ => True)); [apply yields_any | intros _ _].
    apply IH.
    + intros t Ht. apply Hsub. now right.
    + apply outcomes_of_app; [exact Hacc |].
      apply (outcomes_of_one all repo); [apply Hsub; now left | exact Hr].
Qed.

Lemma parallel_outcomes repos completion : forall results,
  outcomes_of repos results ->
  yields (outcomes_of repos)
    (ParallelSyncStrategy_sync_from (spy client) (spy_runtime rt) config
       repos completion results).
Proof.
  induction completion as [| i rest IH]; intros results Hacc; simpl.
  - now apply yields_ret.
  - destruct (nth_error repos i) as [repo |] eqn:N; [| now apply IH].
    apply (yields_bind (named_after repo)).
    + unfold try_except. apply yields_try.
      * apply sync_single_repo_named_after.
      * intros e. now apply yields_ret.
    + intros result Hr. apply IH.
      apply outcomes_of_app; [exact Hacc |].
      intros r [<- | []]. exists repo. split; [| exact Hr].
      eapply nth_error_In; exact N.
Qed.

Lemma parallel_sync_outcomes max_workers completion repos :
  yields (outcomes_of repos)
    (ParallelSyncStrategy_sync (spy client) (spy_runtime rt) config
       max_workers completion repos).
Proof.
  unfold ParallelSyncStrategy_sync.
  destruct (max_workers <=? 0)%Z;
    [apply yields_raise | apply parallel_outcomes; intros r []].
Qed.

(** What the loop of [run] over the search results fetches. *)
Lemma repos_to_sync_from_run source infos :
  forall repos (s s' : St) fetched,
    repos_to_sync_from (spy client) source infos repos s
      = (Returned fetched, s') ->
    exists d more,
      calls s' = (calls s ++ d)%list
      /\ fetched = (repos ++ more)%list
      /\ List.forallb (not_fetching source) d = true
      /\ forall t, In t more ->
           exists info,
             In info infos
             /\ RepositoryInfo.full_name info <> source
             /\ In (Called_get_repository (RepositoryInfo.full_name info)
                      (Returned t)) d.
Proof.
  induction infos as [| info rest IH]; intros repos s s' fetched E; simpl in E.
  - unfold ret in E. injection E as <- <-. exists [], [].
    rewrite !app_nil_r. repeat split; try reflexivity. intros t [].
  - destruct (String.eqb_spec (RepositoryInfo.full_name info) source) as [Eq | Ne].
    + destruct (IH _ _ _ _ E) as [d [more [Hc [Hf [Hn Hin]]]]].
      exists d, more. repeat split; try assumption.
      intros t Ht. destruct (Hin t Ht) as [i [Hi Hr]].
      exists i. split; [now right | exact Hr].
    + unfold bind in E. cbn [IGitHubClient.get_repository spy] in E.
      rewrite call_recorded in E.
      destruct (IGitHubClient.get_repository client
                  (RepositoryInfo.full_name info) (fst (world s)))
        as [[t0 | e] w1]; cbn [fst snd] in E; [| discriminate].
      destruct (IH _ _ _ _ E) as [d [more [Hc [Hf [Hn Hin]]]]].
      exists (Called_get_repository (RepositoryInfo.full_name info)
                (Returned t0) :: d), (t0 :: more).
      split; [| split; [| split]].
      * rewrite Hc, at_world_calls, <- app_assoc. reflexivity.
      * rewrite Hf, <- app_assoc. reflexivity.
      * cbn [forallb not_fetching]. rewrite Hn.
        destruct (String.eqb_spec (RepositoryInfo.full_name info) source);
          [contradiction | reflexivity].
      * intros t [<- | Ht].
        -- exists info. split; [now left | split; [exact Ne | now left]].
        -- destruct (Hin t Ht) as [i [Hi [Hne Hr]]].
           exists i. split; [now right | split; [exact Hne | now right]].
Qed.

End Dispatch.

(** ** One repository on a fixed remote *)
Section FixedRemote.

Context {W : Type}.
Variable client : IGitHubClient.t W.
Variable rt : Runtime W.
Variable config : SyncConfig.
Variable d : dict.
Hypothesis F : fixed_remote client rt.

Lemma agrees_get_required_changes_from repo items : forall changes,
  agrees (both_hold d) (_get_required_changes_from client repo items changes).
Proof.
  induction items as [| [filename new_content] rest IH]; intros changes; simpl.
  - agrees_all F.
  - agrees_all F; apply IH.
Qed.

Lemma agrees_apply_changes repo branch changes :
  agrees (both_hold_l d) (apply_changes client repo branch changes).
Proof.
  induction changes as [| change rest IH]; simpl.
  - agrees_all F.
  - unfold apply_change, try_except. agrees_all F. exact IH.
Qed.

Lemma agrees_sync_single_repo repo :
  agrees (both_hold d) (sync_single_repo client rt config repo).
Proof.
  unfold sync_single_repo, try_except.
  apply agrees_try; [| intros; agrees_all F].
  apply agrees_bind; [| intros [skipped |]].
  - unfold _check_skip_conditions, try_except. agrees_all F.
  - agrees_all F.
  - apply agrees_bind; [| intros changes].
    + unfold _get_required_changes.
      apply agrees_bind; [apply agrees_get_source_workflows | intros items].
      apply agrees_get_required_changes_from.
    + destruct (negb (truthy_list changes)); [agrees_all F |].
      destruct (dry_run config); [agrees_all F |].
      unfold _create_sync_pr, try_except.
      apply agrees_with_locals. apply agrees_try; [| intros; agrees_all F].
      apply agrees_bind; [apply agrees_attr | intros db].
      apply agrees_bind; [agrees_all F | intros sha].
      apply agrees_bind; [| intros branch].
      { apply agrees_lift. unfold _generate_unique_branch_name.
        agrees_all F. }
      apply agrees_bind; [apply agrees_set_branch_name | intros _].
      apply agrees_bind; [agrees_all F | intros _].
      apply agrees_bind; [apply agrees_apply_changes | intros _].
      agrees_all F.
Qed.

End FixedRemote.

(** ** The two strategies on a fixed remote *)
Section Scheduling.

Context {W : Type}.
Variable client : IGitHubClient.t W.
Variable rt : Runtime W.
Variable config : SyncConfig.
Variable d : dict.
Variable s0 : Service W.
Hypothesis F : fixed_remote client rt.
Hypothesis D : _source_workflows s0 = d.

Lemma undated_set_duration r q : undated (set_duration_seconds r q) = undated r.
Proof. destruct r. reflexivity. Qed.

Lemma call_returns {A : Type} (op : M W A) (s : Service W) :
  always_returns op ->
  exists a s', call op s = (Returned a, s')
               /\ _source_workflows s' = _source_workflows s.
Proof.
  intros R. unfold call. destruct (R (world s)) as [a Ha].
  destruct (op (world s)) as [r w']. simpl in Ha. subst r.
  eexists _, _. split; reflexivity.
Qed.

Lemma time_returns (s : Service W) :
  exists t s', time rt s = (Returned t, s')
               /\ _source_workflows s' = _source_workflows s.
Proof.
  unfold time. destruct (time_time rt (world s)) as [t w'].
  eexists _, _. split; reflexivity.
Qed.

Lemma sync_single_repo_fixed repo (s : Service W) :
  _source_workflows s = d ->
  exists s', sync_single_repo client rt config repo s
             = (Returned (worker_outcome client rt config s0 repo), s')
             /\ _source_workflows s' = d.
Proof.
  intros Hs.
  destruct (agrees_sync_single_repo client rt config d F repo s s0
              (conj Hs D)) as [E [B _]].
  destruct (sync_single_repo_returns config repo client rt s) as [r Hr].
  unfold worker_outcome. rewrite <- E, Hr.
  destruct (sync_single_repo client rt config repo s) as [o s'] eqn:Run.
  simpl in Hr, B. subst o. now exists s'.
Qed.

Lemma parallel_fixed repos completion : forall results (s : Service W),
  _source_workflows s = d ->
  exists s',
    ParallelSyncStrategy_sync_from client rt config repos completion results s
    = (Returned
         (results
          ++ map (worker_outcome client rt config s0)
               (completed repos completion))%list, s')
    /\ _source_workflows s' = d.
Proof.
  induction completion as [| i rest IH]; intros results s Hs; simpl.
  - exists s. unfold ret. now rewrite app_nil_r.
  - destruct (nth_error repos i) as [repo |] eqn:N; [| now apply IH].
    destruct (sync_single_repo_fixed repo s Hs) as [s1 [Run Hs1]].
    unfold bind, try_except, try_except_on. rewrite Run.
    destruct (IH (results ++ [worker_outcome client rt config s0 repo])%list
                s1 Hs1) as [s' [Rest Hs']].
    exists s'. rewrite Rest. split; [| exact Hs'].
    cbn [app map]. now rewrite <- app_assoc.
Qed.

Lemma sequential_fixed :
  always_returns (IGitHubClient.check_rate_limit client false) ->
  always_returns (IGitHubClient.handle_post_operation_rate_limit client) ->
  forall repos idx results (s : Service W),
  _source_workflows s = d ->
  exists rs s',
    SequentialSyncStrategy_sync_from client rt config idx repos results s
    = (Returned (results ++ rs)%list, s')
    /\ map undated rs
       = map (fun repo => undated (worker_outcome client rt config s0 repo))
           repos
    /\ _source_workflows s' = d.
Proof.
  intros Check Post.
  induction repos as [| repo rest IH]; intros idx results s Hs.
  - exists [], s. simpl. unfold ret. now rewrite app_nil_r.
  - assert (Pre : exists s1,
               (if (0 <? idx)%nat && (idx mod 5 =? 0)%nat
                then call (IGitHubClient.check_rate_limit client false)
                else ret tt) s = (Returned tt, s1)
               /\ _source_workflows s1 = d).
    { destruct ((0 <? idx)%nat && (idx mod 5 =? 0)%nat).
      - destruct (call_returns _ s Check) as [[] [s1 [E K]]].
        exists s1. split; [exact E | congruence].
      - exists s. split; [reflexivity | exact Hs]. }
    destruct Pre as [s1 [E1 H1]].
    destruct (time_returns s1) as [t0 [s2 [E2 H2]]].
    destruct (sync_single_repo_fixed repo s2 ltac:(congruence))
      as [s3 [E3 H3]].
    destruct (time_returns s3) as [t1 [s4 [E4 H4]]].
    destruct (call_returns _ s4 Post) as [[] [s5 [E5 H5]]].
    destruct (IH (S idx)
                (results
                 ++ [set_duration_seconds
                       (worker_outcome client rt config s0 repo)
                       (Qminus t1 t0)])%list
                s5 ltac:(congruence)) as [rs [s' [E6 [Hm H6]]]].
    exists (set_duration_seconds (worker_outcome client rt config s0 repo)
              (Qminus t1 t0) :: rs), s'.
    split; [| split; [| exact H6]].
    + cbn [SequentialSyncStrategy_sync_from]. unfold bind.
      rewrite E1, E2, E3, E4, E5, E6. now rewrite <- app_assoc.
    + cbn [map]. now rewrite undated_set_duration, Hm.
Qed.

End Scheduling.

Lemma completed_all : forall repos pre : list Repository.t,
  completed (pre ++ repos) (seq (length pre) (length repos)) = repos.
Proof.
  induction repos as [| repo rest IH]; intros pre.
  - reflexivity.
  - cbn [length seq]. unfold completed. cbn [flat_map].
    rewrite nth_error_app2, Nat.sub_diag by apply Nat.le_refl.
    cbn [nth_error app]. f_equal.
    specialize (IH (pre ++ [repo])%list).
    rewrite <- app_assoc, length_app, Nat.add_1_r in IH. exact IH.
Qed.

Lemma completed_permutation (repos : list Repository.t) completion :
  Permutation completion (seq 0 (length repos)) ->
  Permutation (completed repos completion) repos.
Proof.
  intros P. rewrite <- (completed_all repos []) at 2.
  unfold completed. now apply Permutation_flat_map.
Qed.

Lemma snapshot_fixed {W : Type} (c : IGitHubClient.t W) (rt : Runtime W)
  (w0 : W) : fixed_remote (snapshot c w0) (snapshot_runtime rt w0).
Proof. constructor; repeat intro; reflexivity. Qed.

(* ================================================================== *)
(** * Properties of [sync_single_repo] *)
(* ================================================================== *)

Section SingleRepo.

Context {W : Type}.
Variable client : IGitHubClient.t W.
Variable rt : Runtime W.
Variable config : SyncConfig.
Variable repo : Repository.t.

(** Once the skip checks let the repository through and the changes are
    known, [sync_single_repo] is the three-way choice of its body. *)
Lemma sync_single_repo_after_diff (s s1 s2 : Service W) changes :
  _check_skip_conditions client repo s = (Returned None, s1) ->
  _get_required_changes client repo s1 = (Returned changes, s2) ->
  sync_single_repo client rt config repo s =
  try_except
    (if negb (truthy_list changes) then
       ret {| repo_name := Repository.name repo;
              status := NO_CHANGES;
              pr_url := None;
              message := "Todos los workflows están actualizados";
              files_updated := [];
              files_failed := [];
              branch_created := None;
              duration_seconds := 0%Q |}
     else if dry_run config then
       ret {| repo_name := Repository.name repo;
              status := SKIPPED;
              pr_url := None;
              message := "Dry run - " ++ str_of_len changes
                         ++ " archivo(s) cambiarían";
              files_updated := List.map filename changes;
              files_failed := [];
              branch_created := None;
              duration_seconds := 0%Q |}
     else _create_sync_pr client rt config repo changes)
    (fun e =>
       ret {| repo_name := Repository.name repo;
              status := ERROR;
              pr_url := None;
              message := "Error: " ++ str_of_exc e;
              files_updated := [];
              files_failed := [];
              branch_created := None;
              duration_seconds := 0%Q |}) s2.
Proof.
  intros H1 H2. unfold sync_single_repo, try_except, try_except_on.
  rewrite (bind_returned _ _ _ _ _ H1). rewrite (bind_returned _ _ _ _ _ H2).
  destruct (negb (truthy_list changes)); [reflexivity |].
  destruct (dry_run config); [reflexivity |].
  destruct (_create_sync_pr client rt config repo changes s2) as [[r | e] s3];
    reflexivity.
Qed.

End SingleRepo.

(** C4. Under dry-run, a repository that passes the skip checks and has
    pending changes gets a [SKIPPED] outcome whose [files_updated] are the
    file names of those changes, in the state the diff left, and no call
    recorded meanwhile creates or deletes a branch, writes a file or opens
    a pull request. *)
Theorem dry_run_purity :
  forall (W : Type) (client : IGitHubClient.t W) (rt : Runtime W)
         (config : SyncConfig) (repo : Repository.t)
         (s s1 s2 : Service (W * list Event)) (changes : list FileChange),
    dry_run config = true ->
    _check_skip_conditions (spy client) repo s = (Returned None, s1) ->
    _get_required_changes (spy client) repo s1 = (Returned changes, s2) ->
    changes <> [] ->
    sync_single_repo (spy client) (spy_runtime rt) config repo s =
      (Returned {| repo_name := Repository.name repo;
                   status := SKIPPED;
                   pr_url := None;
                   message := "Dry run - " ++ str_of_len changes
                              ++ " archivo(s) cambiarían";
                   files_updated := List.map filename changes;
                   files_failed := [];
                   branch_created := None;
                   duration_seconds := 0%Q |}, s2)
    /\ Forall (fun ev => mutates ev = false) (new_calls s s2).
Proof.
  intros W client rt config repo s s1 s2 changes Hdry Hskip Hdiff Hne. split.
  - rewrite (sync_single_repo_after_diff _ _ _ _ _ _ _ _ Hskip Hdiff).
    destruct changes as [| c cs]; [contradiction |].
    unfold try_except, try_except_on. simpl. now rewrite Hdry.
  - apply grows_new_calls.
    apply grows_trans with s1.
    + pose proof (keeps_check_skip_conditions client
                    (fun ev => mutates ev = false) repo) as K.
      specialize (K (fun _ => eq_refl) s). now rewrite Hskip in K.
    + pose proof (keeps_get_required_changes client
                    (fun ev => mutates ev = false) repo) as K.
      specialize (K (fun _ _ => eq_refl) s1). now rewrite Hdiff in K.
Qed.

Lemma dry_run_purity_witness :
  let s := fresh (Demo.start Demo.remote) Demo.desired in
  let s1 := snd (_check_skip_conditions (spy Demo.client) Demo.repo_a s) in
  let s2 := snd (_get_required_changes (spy Demo.client) Demo.repo_a s1) in
  sync_single_repo (spy Demo.client) (spy_runtime Demo.runtime)
    (Demo.dry Demo.config) Demo.repo_a s =
    (Returned {| repo_name := "service-a";
                 status := SKIPPED;
                 pr_url := None;
                 message := "Dry run - 1 archivo(s) cambiarían";
                 files_updated := ["deploy.yml"];
                 files_failed := [];
                 branch_created := None;
                 duration_seconds := 0%Q |}, s2)
  /\ Forall (fun ev => mutates ev = false) (new_calls s s2).
Proof.
  intros s s1 s2.
  exact (dry_run_purity _ Demo.client Demo.runtime (Demo.dry Demo.config)
           Demo.repo_a s s1 s2
           [{| filename := "deploy.yml";
               content := Demo.deploy_yml;
               existing_sha := None |}]
           eq_refl eq_refl eq_refl
           (fun H => match H with end)).
Defined.

(** C10. [sync_single_repo] looks at the change list before it looks at
    the dry-run flag: under dry-run, a repository that passes the skip
    checks ends [NO_CHANGES] exactly when nothing is pending, and [SKIPPED]
    (the dry-run outcome) exactly when something is. *)
Theorem no_changes_before_dry_run :
  forall (W : Type) (client : IGitHubClient.t W) (rt : Runtime W)
         (config : SyncConfig) (repo : Repository.t)
         (s s1 s2 : Service W) (changes : list FileChange),
    dry_run config = true ->
    _check_skip_conditions client repo s = (Returned None, s1) ->
    _get_required_changes client repo s1 = (Returned changes, s2) ->
    exists r,
      sync_single_repo client rt config repo s = (Returned r, s2)
      /\ (changes = [] <-> status r = NO_CHANGES)
      /\ (changes <> [] <-> status r = SKIPPED)
      /\ (changes = [] ->
          message r = "Todos los workflows están actualizados"
          /\ files_updated r = []).
Proof.
  intros W client rt config repo s s1 s2 changes Hdry Hskip Hdiff.
  rewrite (sync_single_repo_after_diff _ _ _ _ _ _ _ _ Hskip Hdiff).
  unfold try_except, try_except_on.
  destruct changes as [| c cs]; simpl.
  - eexists. split; [reflexivity |]. simpl.
    repeat split; try reflexivity; try discriminate; intros; contradiction.
  - rewrite Hdry. eexists. split; [reflexivity |]. simpl.
    repeat split; try reflexivity; try discriminate.
Qed.

Lemma no_changes_before_dry_run_witness :
  let s := {| world := Demo.start Demo.remote;
              _source_workflows := Demo.desired;
              _start_time := None |} in
  exists r,
    sync_single_repo Demo.client Demo.runtime (Demo.dry Demo.config)
      Demo.repo_d s = (Returned r, s)
    /\ (@nil FileChange = [] <-> status r = NO_CHANGES)
    /\ (@nil FileChange <> [] <-> status r = SKIPPED)
    /\ (@nil FileChange = [] ->
        message r = "Todos los workflows están actualizados"
        /\ files_updated r = []).
Proof.
  intros s.
  exact (no_changes_before_dry_run _ Demo.client Demo.runtime
           (Demo.dry Demo.config) Demo.repo_d s s s [] eq_refl eq_refl eq_refl).
Defined.

(* ================================================================== *)
(** * The skip checks *)
(* ================================================================== *)

Lemma truthy_str_false s : truthy_str s = false <-> s = "".
Proof.
  unfold truthy_str. destruct (String.eqb_spec s ""); simpl; split; intros;
    congruence.
Qed.

Lemma collect_urls_filter pulls prefix urls :
  GitHubClient.collect_urls pulls prefix urls =
  (urls ++ List.map GitHubClient.html_url
             (List.filter
                (fun pr => startswith (GitHubClient.head_ref pr) prefix) pulls))%list.
Proof.
  revert urls. induction pulls as [| pr rest IH]; intros urls; simpl.
  - now rewrite app_nil_r.
  - destruct (startswith (GitHubClient.head_ref pr) prefix); rewrite IH; simpl.
    + now rewrite <- app_assoc.
    + reflexivity.
Qed.

(** Past the first two checks, the open pull requests decide. *)
Lemma check_skip_third {W : Type} (client : IGitHubClient.t W)
  (repo : Repository.t) (s : Service W) :
  forall r s',
    Repository.archived repo = false ->
    has_default_branch repo ->
    call (IGitHubClient.get_open_prs_with_prefix client repo BRANCH_PREFIX) s
      = (r, s') ->
    _check_skip_conditions client repo s =
      (match r with
       | Returned (url :: _) =>
         Returned (Some (skipped_because repo
                           ("PR de sync existente: " ++ url)))
       | Returned [] => Returned None
       | Raised e => Raised e
       end, s').
Proof.
  intros r s' Ha [b [Hb Hne]] Hc.
  unfold _check_skip_conditions, try_except, try_except_on, bind, attr, ret.
  rewrite Ha, Hb.
  assert (T : truthy_str b = true).
  { destruct (truthy_str b) eqn:E; [reflexivity |].
    apply truthy_str_false in E. contradiction. }
  rewrite T. simpl. rewrite Hc.
  destruct r as [[| url rest] | e]; reflexivity.
Qed.

(** C3. [_check_skip_conditions] tests, in this order, the archived flag,
    the default branch (empty, or raising when read) and the open pull
    requests the gateway lists under [BRANCH_PREFIX]; the first test that
    matches gives the [SKIPPED] outcome (for the third with the first URL
    listed), the first two without any gateway call.  It returns [None]
    exactly when the repository is not archived, its default branch
    resolves and the gateway lists no such pull request.  [GitHubClient]
    lists the open pulls whose head branch starts with the prefix. *)
Theorem skip_conditions_in_order :
  forall (W : Type) (client : IGitHubClient.t W) (repo : Repository.t)
         (s : Service W),
    (Repository.archived repo = true ->
     _check_skip_conditions client repo s =
       (Returned (Some (skipped_because repo "Repositorio archivado")), s))
    /\ (Repository.archived repo = false ->
        Repository.default_branch repo = Returned "" ->
        _check_skip_conditions client repo s =
          (Returned (Some (skipped_because repo
                             "Repositorio sin branch por defecto")), s))
    /\ (forall e,
        Repository.archived repo = false ->
        Repository.default_branch repo = Raised e ->
        _check_skip_conditions client repo s =
          (Returned (Some (skipped_because repo
                             "Repositorio vacío (sin commits)")), s))
    /\ (forall r s',
        Repository.archived repo = false ->
        has_default_branch repo ->
        call (IGitHubClient.get_open_prs_with_prefix client repo BRANCH_PREFIX) s
          = (r, s') ->
        _check_skip_conditions client repo s =
          (match r with
           | Returned (url :: _) =>
             Returned (Some (skipped_because repo
                               ("PR de sync existente: " ++ url)))
           | Returned [] => Returned None
           | Raised e => Raised e
           end, s'))
    /\ (forall s',
        _check_skip_conditions client repo s = (Returned None, s') <->
        Repository.archived repo = false
        /\ has_default_branch repo
        /\ call (IGitHubClient.get_open_prs_with_prefix client repo
                   BRANCH_PREFIX) s = (Returned [], s'))
    /\ (forall (G : Type) (api : GitHubClient.PyGithub G) prefix cs pulls g',
        GitHubClient.repo_get_pulls_open api repo (GitHubClient.github cs)
          = (pulls, None, g') ->
        fst (GitHubClient.get_open_prs_with_prefix G api repo prefix cs) =
          Returned
            (List.map GitHubClient.html_url
               (List.filter
                  (fun pr => startswith (GitHubClient.head_ref pr) prefix)
                  pulls))).
Proof.
  intros W client repo s.
  pose proof (check_skip_third client repo s) as Third.
  split; [| split; [| split; [| split; [exact Third | split]]]].
  - intros Ha. unfold _check_skip_conditions. now rewrite Ha.
  - intros Ha Hb.
    unfold _check_skip_conditions, try_except, try_except_on, bind, attr, ret.
    now rewrite Ha, Hb.
  - intros e Ha Hb.
    unfold _check_skip_conditions, try_except, try_except_on, bind, attr, ret.
    now rewrite Ha, Hb.
  - intros s'. split.
    + intros H.
      destruct (Repository.archived repo) eqn:Ha.
      { unfold _check_skip_conditions in H. rewrite Ha in H. discriminate. }
      destruct (Repository.default_branch repo) as [b | e] eqn:Hb.
      2:{ unfold _check_skip_conditions, try_except, try_except_on, bind,
            attr, ret in H. rewrite Ha, Hb in H. discriminate. }
      destruct (truthy_str b) eqn:T.
      2:{ unfold _check_skip_conditions, try_except, try_except_on, bind,
            attr, ret in H. rewrite Ha, Hb, T in H. discriminate. }
      assert (D : has_default_branch repo).
      { exists b. split; [exact Hb |]. intros ->. discriminate. }
      split; [reflexivity | split; [exact D |]].
      destruct (call (IGitHubClient.get_open_prs_with_prefix client repo
                        BRANCH_PREFIX) s) as [r t] eqn:Hc.
      rewrite (Third r t eq_refl D eq_refl) in H.
      destruct r as [[| url rest] | e]; try discriminate.
      now injection H as ->.
    + intros [Ha [D Hc]]. now rewrite (Third _ _ Ha D Hc).
  - intros G api prefix cs pulls g' Hp.
    unfold GitHubClient.get_open_prs_with_prefix. rewrite Hp. simpl.
    now rewrite collect_urls_filter.
Qed.

Lemma skip_conditions_in_order_witness :
  let s := {| world := Demo.start Demo.remote;
              _source_workflows := Demo.desired;
              _start_time := None |} in
  _check_skip_conditions Demo.client Demo.repo_b s =
    (Returned (Some (skipped_because Demo.repo_b "Repositorio archivado")), s)
  /\ _check_skip_conditions Demo.client Demo.repo_c s =
       (Returned (Some (skipped_because Demo.repo_c
          "PR de sync existente: https://github.com/Automya/service-c/pull/7")),
        s)
  /\ _check_skip_conditions Demo.client Demo.repo_a s = (Returned None, s).
Proof.
  intros s.
  assert (D : forall n a, has_default_branch (Demo.repository n a)).
  { intros n a. exists "main". split; [reflexivity | discriminate]. }
  split; [| split].
  - exact (proj1 (skip_conditions_in_order _ Demo.client Demo.repo_b s) eq_refl).
  - exact (proj1 (proj2 (proj2 (proj2
             (skip_conditions_in_order _ Demo.client Demo.repo_c s))))
             (Returned ["https://github.com/Automya/service-c/pull/7"]) s
             eq_refl (D _ _) eq_refl).
  - exact (proj2 (proj1 (proj2 (proj2 (proj2 (proj2
             (skip_conditions_in_order _ Demo.client Demo.repo_a s))))) s)
             (conj eq_refl (conj (D _ _) eq_refl))).
Defined.

(* ================================================================== *)
(** * The Branch/PR Transaction *)
(* ================================================================== *)




(* ================================================================== *)
(** * Branch names *)
(* ================================================================== *)

Transparent String.append.

Lemma append_assoc (a b c : string) : (a ++ b) ++ c = a ++ (b ++ c).
Proof. induction a as [| x a IH]; simpl; [reflexivity | now rewrite IH]. Qed.

Lemma startswith_append (p x : string) : startswith (p ++ x) p = true.
Proof.
  unfold startswith. induction p as [| a p IH]; simpl.
  - now destruct x.
  - destruct (ascii_dec a a); [exact IH | contradiction].
Qed.

Lemma named_startswith ts taken b :
  named ts taken b -> startswith b BRANCH_PREFIX = true.
Proof.
  unfold named, candidate. destruct taken.
  - intros [suffix [_ ->]]. rewrite append_assoc. apply startswith_append.
  - intros ->. apply startswith_append.
Qed.

Opaque String.append.

Lemma generated_name_is_named {W : Type} (client : IGitHubClient.t W)
  (rt : Runtime W) (repo : Repository.t) (s s' : Service W) (name : string) :
  _generate_unique_branch_name client rt repo s = (Returned name, s') ->
  exists ts taken, named ts taken name.
Proof.
  unfold _generate_unique_branch_name, bind, time, randint, call, ret.
  destruct (time_time rt (world s)) as [t w0]. cbn [world].
  fold (candidate (int_of_float (Qmult t (inject_Z 1000)))).
  set (ts := int_of_float (Qmult t (inject_Z 1000))).
  destruct (IGitHubClient.branch_exists client repo (candidate ts) w0)
    as [[[|] | e] w1]; cbn [world]; try discriminate.
  - destruct (random_draw rt w1) as [d w2]. intros H.
    assert (E := f_equal
                   (fun p => match fst p with
                             | Returned x => x
                             | Raised _ => name
                             end) H).
    cbn beta iota delta [fst] in E. subst name.
    exists ts, true. unfold named. eexists. split; [| reflexivity].
    pose proof (Z.mod_pos_bound (Z.of_N d) (9999 - 1000 + 1)%Z). lia.
  - intros H. injection H as <- _. exists ts, false. reflexivity.
Qed.

Lemma in_collect_urls pulls prefix pr :
  In pr pulls -> startswith (GitHubClient.head_ref pr) prefix = true ->
  In (GitHubClient.html_url pr) (GitHubClient.collect_urls pulls prefix []).
Proof.
  intros Hin Hp. rewrite collect_urls_filter. simpl.
  apply in_map. apply filter_In. now split.
Qed.

Lemma transaction_on_sync_branch config repo changes d out :
  Transaction config repo changes d out ->
  List.forallb on_sync_branch d = true.
Proof.
  assert (Wr : forall b results,
             startswith b BRANCH_PREFIX = true ->
             List.forallb on_sync_branch (writes repo b changes results) = true).
  { intros b results Hb. unfold writes.
    induction (List.combine changes results) as [| cr l IH]; simpl;
      [reflexivity | now rewrite Hb, IH]. }
  intros T.
  inversion T as
    [ e Hdb
    | db e Hdb
    | db sha ts e Hdb
    | db sha ts taken b e deleted Hdb Hb
    | db sha ts taken b results Hdb Hb Hlen Hw
    | db sha ts taken b results e deleted Hdb Hb Hlen Hw
    | db sha ts taken b results pr Hdb Hb Hlen Hw
    | db sha ts taken b results e deleted Hdb Hb Hlen Hw ]; subst;
    try reflexivity;
    apply named_startswith in Hb; unfold opening; cbn [app forallb];
    rewrite ?forallb_app, ?Wr by assumption; simpl; now rewrite ?Hb.
Qed.

(** C9. A name returned by [_generate_unique_branch_name] is
    [BRANCH_PREFIX], a dash and the millisecond timestamp, followed when
    that name is taken by a dash and a number between 1000 and 9999; so it
    starts with [BRANCH_PREFIX].  Every branch the Transaction creates,
    writes to, opens a pull request from or deletes has such a name.  And
    when [GitHubClient.get_open_prs_with_prefix] finds an open pull request
    whose head is such a name, [_check_skip_conditions] gives [SKIPPED] for
    a repository that passed the first two checks. *)
Theorem branch_names_carry_prefix :
  forall (W : Type) (client : IGitHubClient.t W) (rt : Runtime W)
         (config : SyncConfig) (repo : Repository.t),
    (forall (s s' : Service W) name,
        _generate_unique_branch_name client rt repo s = (Returned name, s') ->
        startswith name BRANCH_PREFIX = true
        /\ exists timestamp taken, named timestamp taken name)
    /\ (forall changes (s : Service (W * list Event)),
        List.forallb on_sync_branch
          (new_calls s
             (snd (_create_sync_pr (spy client) (spy_runtime rt) config repo
                     changes s))) = true)
    /\ (forall (G : Type) (api : GitHubClient.PyGithub G)
               (gateway : IGitHubClient.t (GitHubClient.State G))
               (s : Service (GitHubClient.State G)) name pulls pr g',
        IGitHubClient.get_open_prs_with_prefix gateway
          = GitHubClient.get_open_prs_with_prefix G api ->
        Repository.archived repo = false ->
        has_default_branch repo ->
        startswith name BRANCH_PREFIX = true ->
        GitHubClient.repo_get_pulls_open api repo
          (GitHubClient.github (world s)) = (pulls, None, g') ->
        In pr pulls ->
        GitHubClient.head_ref pr = name ->
        exists url s',
          _check_skip_conditions gateway repo s =
            (Returned (Some (skipped_because repo
                               ("PR de sync existente: " ++ url))), s')).
Proof.
  intros W client rt config repo. split; [| split].
  - intros s s' name H.
    destruct (generated_name_is_named client rt repo s s' name H)
      as [ts [taken N]].
    split; [eapply named_startswith; exact N | now exists ts, taken].
  - intros changes s.
    destruct (create_sync_pr_runs client rt config repo changes s)
      as [out [d [w' [Hrun T]]]].
    rewrite Hrun. cbn [snd].
    rewrite (new_calls_app s (at_world s w' d) d eq_refl).
    eapply transaction_on_sync_branch; exact T.
  - intros G api gateway s name pulls pr g' Hg Ha Hd Hn Hp Hin Hh.
    pose proof (check_skip_third gateway repo s) as Third.
    destruct (call (IGitHubClient.get_open_prs_with_prefix gateway repo
                      BRANCH_PREFIX) s) as [r s'] eqn:Hc.
    rewrite (Third r s' Ha Hd eq_refl).
    assert (R : exists url rest, r = Returned (url :: rest)).
    { unfold call in Hc. rewrite Hg in Hc.
      unfold GitHubClient.get_open_prs_with_prefix in Hc.
      rewrite Hp in Hc. injection Hc as <- _.
      pose proof (in_collect_urls pulls BRANCH_PREFIX pr Hin) as I.
      rewrite Hh in I. specialize (I Hn).
      destruct (GitHubClient.collect_urls pulls BRANCH_PREFIX [])
        as [| url rest]; [contradiction | now exists url, rest]. }
    destruct R as [url [rest ->]]. now exists url, s'.
Qed.

Lemma branch_names_carry_prefix_witness :
  let s := {| world := Demo.start Demo.remote;
              _source_workflows := Demo.desired;
              _start_time := None |} in
  (startswith "sync/workflows-update-1700000000000" BRANCH_PREFIX = true
   /\ exists timestamp taken,
       named timestamp taken "sync/workflows-update-1700000000000")
  /\ (exists url s',
       _check_skip_conditions Demo.client Demo.repo_c s =
         (Returned (Some (skipped_because Demo.repo_c
                            ("PR de sync existente: " ++ url))), s')).
Proof.
  intros s. split.
  - apply (proj1 (branch_names_carry_prefix _ Demo.client Demo.runtime
                    Demo.config Demo.repo_a)
             s
             (snd (_generate_unique_branch_name Demo.client Demo.runtime
                     Demo.repo_a s))).
    vm_compute. reflexivity.
  - apply (proj2 (proj2 (branch_names_carry_prefix _ Demo.client Demo.runtime
                           Demo.config Demo.repo_c))
             Demo.Remote Demo.api Demo.client s
             "sync/workflows-update-1700000000000"
             [Demo.open_pull] Demo.open_pull Demo.remote).
    + reflexivity.
    + reflexivity.
    + exists "main". split; [reflexivity | discriminate].
    + reflexivity.
    + reflexivity.
    + left. reflexivity.
    + reflexivity.
Defined.

(* ================================================================== *)
(** * Cleaning up after a failed Transaction *)
(* ================================================================== *)

Lemma not_in_writes_create repo b changes results repo' b' sha r :
  ~ In (Called_create_branch repo' b' sha r) (writes repo b changes results).
Proof. intros H. apply in_writes in H. discriminate. Qed.

(** When the Transaction returns [ERROR] after [create_branch] returned,
    its last gateway call is the deletion of that branch. *)
Lemma transaction_error_deletes config repo changes d r b sha :
  Transaction config repo changes d (Returned r) ->
  status r = ERROR ->
  In (Called_create_branch repo b sha (Returned tt)) d ->
  branch_created r = Some b
  /\ exists before, d = (before ++ [Called_delete_branch repo b (Returned tt)])%list.
Proof.
  intros T He Hin.
  assert (Op : forall db sha0 ts taken b0 rest,
             In (Called_create_branch repo b sha (Returned tt))
                (opening repo db sha0 ts taken b0 (Returned tt)
                 ++ writes repo b0 changes rest)%list ->
             b0 = b).
  { intros db sha0 ts taken b0 rest H. unfold opening in H. cbn [app In] in H.
    destruct H as [H | [H | [H | H]]]; try discriminate.
    - now injection H.
    - now apply not_in_writes_create in H. }
  assert (Cut : forall (pre mid : list Event) last,
             In (Called_create_branch repo b sha (Returned tt))
                (pre ++ mid ++ last)%list ->
             (forall ev, In ev last -> is_create_branch ev = false) ->
             In (Called_create_branch repo b sha (Returned tt)) (pre ++ mid)%list).
  { intros pre mid last H Hl. rewrite app_assoc in H.
    apply in_app_or in H. destruct H as [H | H]; [exact H |].
    apply Hl in H. discriminate. }
  inversion T as
    [ e Hdb
    | db e Hdb
    | db sha0 ts e Hdb
    | db sha0 ts taken b0 e deleted Hdb Hb
    | db sha0 ts taken b0 results Hdb Hb Hlen Hw
    | db sha0 ts taken b0 results e deleted Hdb Hb Hlen Hw
    | db sha0 ts taken b0 results pr Hdb Hb Hlen Hw
    | db sha0 ts taken b0 results e deleted Hdb Hb Hlen Hw ]; subst.
  - contradiction.
  - destruct Hin as [H | []]. discriminate.
  - destruct Hin as [H | [H | []]]; discriminate.
  - unfold opening in Hin. cbn [app In] in Hin.
    destruct Hin as [H | [H | [H | [H | []]]]]; discriminate.
  - apply Cut in Hin.
    2:{ intros ev [<- | []]. reflexivity. }
    apply Op in Hin. subst b0. split; [reflexivity |].
    eexists. rewrite app_assoc. reflexivity.
  - destruct deleted as [[] | e']; [| discriminate].
    apply Cut in Hin.
    2:{ intros ev [<- | [<- | []]]; reflexivity. }
    apply Op in Hin. subst b0.
    match goal with H : cleanup _ _ _ _ _ _ = Returned r |- _ =>
      injection H as <- end.
    split; [reflexivity |].
    exists (opening repo db sha0 ts taken b (Returned tt)
            ++ writes repo b changes results
            ++ [Called_delete_branch repo b (Raised e)])%list.
    now rewrite <- !app_assoc.
  - discriminate.
  - destruct deleted as [[] | e']; [| discriminate].
    apply Cut in Hin.
    2:{ intros ev [<- | [<- | []]]; reflexivity. }
    apply Op in Hin. subst b0.
    match goal with H : cleanup _ _ _ _ _ _ = Returned r |- _ =>
      injection H as <- end.
    split; [reflexivity |].
    eexists (opening repo db sha0 ts taken b (Returned tt)
             ++ writes repo b changes results
             ++ [Called_create_pull_request repo pull_request_title _ b db
                   (Raised e)])%list.
    now rewrite <- !app_assoc.
Qed.

(** A Transaction whose deletions all returned gave a result. *)
Lemma transaction_returns config repo changes d out :
  Transaction config repo changes d out ->
  List.forallb deletion_returned d = true ->
  exists r, out = Returned r.
Proof.
  intros T H.
  inversion T as
    [ e Hdb
    | db e Hdb
    | db sha0 ts e Hdb
    | db sha0 ts taken b0 e deleted Hdb Hb
    | db sha0 ts taken b0 results Hdb Hb Hlen Hw
    | db sha0 ts taken b0 results e deleted Hdb Hb Hlen Hw
    | db sha0 ts taken b0 results pr Hdb Hb Hlen Hw
    | db sha0 ts taken b0 results e deleted Hdb Hb Hlen Hw ]; subst;
    try (eexists; reflexivity);
    (destruct deleted as [[] | e']; [eexists; reflexivity |]);
    exfalso; unfold opening in H; cbn [app forallb] in H;
    rewrite ?forallb_app in H; cbn [forallb deletion_returned returned] in H;
    rewrite ?andb_false_r in H; discriminate.
Qed.

(** C5, as the code has it.  When [_create_sync_pr] returns [ERROR] in a
    run in which [create_branch] returned, the result names that branch
    and the last gateway call of the run is its deletion.  With a gateway
    whose [delete_branch] never raises, [_create_sync_pr] never raises.
    [GitHubClient.delete_branch] logs a warning and returns when the
    deletion fails with a [GithubException]; any other exception it lets
    through, without logging. *)
Theorem cleanup_before_error :
  forall (W : Type) (client : IGitHubClient.t W) (rt : Runtime W)
         (config : SyncConfig) (repo : Repository.t)
         (changes : list FileChange),
    (forall (s s' : Service (W * list Event)) r b sha,
        _create_sync_pr (spy client) (spy_runtime rt) config repo changes s
          = (Returned r, s') ->
        status r = ERROR ->
        In (Called_create_branch repo b sha (Returned tt)) (new_calls s s') ->
        branch_created r = Some b
        /\ exists before,
            new_calls s s'
            = (before ++ [Called_delete_branch repo b (Returned tt)])%list)
    /\ ((forall b w,
            returned (fst (IGitHubClient.delete_branch client repo b w)) = true) ->
        forall s : Service (W * list Event),
        exists r,
          fst (_create_sync_pr (spy client) (spy_runtime rt) config repo
                 changes s) = Returned r)
    /\ (forall (G : Type) (api : GitHubClient.PyGithub G) (b : string)
               (cs : GitHubClient.State G),
        (forall e g',
            GitHubClient.repo_get_git_ref api repo ("heads/" ++ b)
              (GitHubClient.github cs) = (Raised e, g') ->
            GitHubClient.delete_branch G api repo b cs =
              if is_GithubException e
              then (Returned tt,
                    {| GitHubClient.github := g';
                       GitHubClient.records :=
                         (GitHubClient.records cs
                          ++ [delete_warning repo b e])%list |})
              else (Raised e,
                    {| GitHubClient.github := g';
                       GitHubClient.records := GitHubClient.records cs |}))
        /\ (forall ref g1 e g2,
            GitHubClient.repo_get_git_ref api repo ("heads/" ++ b)
              (GitHubClient.github cs) = (Returned ref, g1) ->
            GitHubClient.ref_delete api ref g1 = (Raised e, g2) ->
            GitHubClient.delete_branch G api repo b cs =
              if is_GithubException e
              then (Returned tt,
                    {| GitHubClient.github := g2;
                       GitHubClient.records :=
                         (GitHubClient.records cs
                          ++ [delete_warning repo b e])%list |})
              else (Raised e,
                    {| GitHubClient.github := g2;
                       GitHubClient.records := GitHubClient.records cs |}))
        /\ (forall e,
            fst (GitHubClient.delete_branch G api repo b cs) = Raised e ->
            is_GithubException e = false)).
Proof.
  intros W client rt config repo changes. split; [| split].
  - intros s s' r b sha Hrun He Hin.
    destruct (create_sync_pr_runs client rt config repo changes s)
      as [out [d [w' [Hrun' T]]]].
    rewrite Hrun in Hrun'. injection Hrun' as <- ->.
    rewrite (new_calls_app s (at_world s w' d) d eq_refl) in *.
    eapply transaction_error_deletes; eassumption.
  - intros Hdel s.
    destruct (create_sync_pr_runs client rt config repo changes s)
      as [out [d [w' [Hrun T]]]].
    rewrite Hrun. cbn [fst].
    apply (transaction_returns config repo changes d out T).
    pose proof (keeps_create_sync_pr client rt config
                  (fun ev => deletion_returned ev = true) repo changes) as K.
    specialize (K (fun _ _ => eq_refl) (fun _ _ => eq_refl)
                  (fun _ _ _ => eq_refl) (fun _ _ _ _ _ _ => eq_refl)
                  (fun _ _ _ _ _ => eq_refl) Hdel s).
    rewrite Hrun in K. cbn [snd] in K.
    apply grows_new_calls in K.
    rewrite (new_calls_app s (at_world s w' d) d eq_refl) in K.
    apply forallb_forall. intros ev Hev.
    rewrite Forall_forall in K. now apply K.
  - intros G api b cs. split; [| split].
    + intros e g' Hr.
      unfold GitHubClient.delete_branch, try_except_on, bind, GitHubClient.gh.
      rewrite Hr. destruct (is_GithubException e); reflexivity.
    + intros ref g1 e g2 Hr Hd.
      unfold GitHubClient.delete_branch, try_except_on, bind, GitHubClient.gh.
      rewrite Hr. cbn [GitHubClient.github]. rewrite Hd.
      destruct (is_GithubException e); reflexivity.
    + intros e.
      unfold GitHubClient.delete_branch, try_except_on, bind, GitHubClient.gh.
      destruct (GitHubClient.repo_get_git_ref api repo ("heads/" ++ b)
                  (GitHubClient.github cs)) as [[ref | e1] g1].
      * cbn [GitHubClient.github].
        destruct (GitHubClient.ref_delete api ref g1) as [[[] | e2] g2].
        -- cbn. discriminate.
        -- destruct (is_GithubException e2) eqn:I2; cbn; [discriminate |].
           intros H. injection H as <-. exact I2.
      * destruct (is_GithubException e1) eqn:I1; cbn; [discriminate |].
        intros H. injection H as <-. exact I1.
Qed.

(** GitHub refuses the deletion: the warning is logged, the Transaction
    returns [ERROR], and the deletion is its last call. *)
Lemma cleanup_before_error_witness :
  let s := fresh (Demo.start Demo.forbidden) Demo.desired in
  let branch := "sync/workflows-update-1700000000000" in
  let run := _create_sync_pr (spy Demo.client) (spy_runtime Demo.runtime)
               Demo.config Demo.repo_a Demo.two_changes s in
  (exists r,
      fst run = Returned r
      /\ status r = ERROR
      /\ branch_created r = Some branch
      /\ exists before,
          new_calls s (snd run)
          = (before
             ++ [Called_delete_branch Demo.repo_a branch (Returned tt)])%list)
  /\ GitHubClient.delete_branch Demo.Remote Demo.api Demo.repo_a branch
       (Demo.start Demo.forbidden)
     = (Returned tt,
        {| GitHubClient.github := Demo.forbidden;
           GitHubClient.records :=
             [delete_warning Demo.repo_a branch
                (Demo.http 403 "Resource not accessible by integration")] |}).
Proof.
  intros s branch run. split.
  - eexists. split; [vm_compute; reflexivity |]. split; [reflexivity |].
    apply (proj1 (cleanup_before_error _ Demo.client Demo.runtime Demo.config
                    Demo.repo_a Demo.two_changes)
             s (snd run) _ branch "a0").
    + vm_compute. reflexivity.
    + reflexivity.
    + vm_compute. right; right; left. reflexivity.
  - apply (proj1 (proj2 (proj2
             (cleanup_before_error _ Demo.client Demo.runtime Demo.config
                Demo.repo_a Demo.two_changes))
             Demo.Remote Demo.api branch (Demo.start Demo.forbidden))
             (Demo.http 403 "Resource not accessible by integration")
             Demo.forbidden).
    reflexivity.
Defined.

(** The network fails while the branch is deleted: every write had
    failed and the branch existed, yet the Transaction does not return an
    [ERROR] outcome; the exception reaches its caller, and nothing was
    logged. *)
Lemma deletion_failure_escapes :
  let s := fresh (Demo.start Demo.offline) Demo.desired in
  let branch := "sync/workflows-update-1700000000000" in
  let run := _create_sync_pr (spy Demo.client) (spy_runtime Demo.runtime)
               Demo.config Demo.repo_a Demo.two_changes s in
  fst run = Raised Demo.connection_reset
  /\ GitHubClient.records (fst (world (snd run))) = []
  /\ new_calls s (snd run)
     = [Called_get_base_sha Demo.repo_a "main" (Returned "a0");
        Called_branch_exists Demo.repo_a branch (Returned false);
        Called_create_branch Demo.repo_a branch "a0" (Returned tt);
        write_of Demo.repo_a branch
          {| filename := "build.yml";
             content := Demo.build_yml;
             existing_sha := Some "a1" |}
          (Raised (Demo.http 409 "Conflict: .github/workflows/build.yml"));
        write_of Demo.repo_a branch
          {| filename := "deploy.yml";
             content := Demo.deploy_yml;
             existing_sha := None |}
          (Raised (Demo.http 409 "Conflict: .github/workflows/deploy.yml"));
        Called_delete_branch Demo.repo_a branch (Raised Demo.connection_reset);
        Called_delete_branch Demo.repo_a branch (Raised Demo.connection_reset)].
Proof.
  intros s branch run. split; [| split]; vm_compute; reflexivity.
Qed.

(* ================================================================== *)
(** * The Diff Computer *)
(* ================================================================== *)

Lemma computeChanges_up_to_date desired target :
  (forall item, In item desired ->
     exists existing sha,
       target (WORKFLOWS_PATH ++ "/" ++ fst item) = Some (existing, sha)
       /\ strip existing = strip (snd item)) ->
  computeChanges desired target = [].
Proof.
  unfold computeChanges. induction desired as [| item rest IH]; intros H.
  - reflexivity.
  - cbn [flat_map].
    destruct (H item (or_introl eq_refl)) as [existing [sha [-> E]]].
    rewrite E, String.eqb_refl. simpl.
    apply IH. intros i Hi. apply H. now right.
Qed.

(** C2. In a run of [_get_required_changes] whose lookups answered what
    the target holds, each desired file was looked up once, in order, under
    the workflows path, and the result is [computeChanges]: a creation
    without version token for a file the target lacks, an update with the
    target's token for a file whose trimmed content differs, nothing for a
    file whose trimmed content is equal.  When every desired file is in
    the target with equal trimmed content the result is empty, and
    [sync_single_repo], past the skip checks, returns [NO_CHANGES] without
    any call that creates or deletes a branch, writes a file or opens a
    pull request. *)
Theorem required_changes_follow_diff :
  forall (W : Type) (client : IGitHubClient.t W) (rt : Runtime W)
         (config : SyncConfig) (repo : Repository.t)
         (target : string -> option (string * string))
         (s : Service (W * list Event)),
    let run := _get_required_changes (spy client) repo s in
    (forall path reply,
        In (Called_get_file_content repo path reply) (new_calls s (snd run)) ->
        reply = Returned (target path)) ->
    fst run = Returned (computeChanges (_source_workflows s) target)
    /\ new_calls s (snd run)
       = List.map (lookup_of repo target) (_source_workflows s)
    /\ ((forall item, In item (_source_workflows s) ->
           exists existing sha,
             target (WORKFLOWS_PATH ++ "/" ++ fst item) = Some (existing, sha)
             /\ strip existing = strip (snd item)) ->
        computeChanges (_source_workflows s) target = []
        /\ forall s0,
            _check_skip_conditions (spy client) repo s0 = (Returned None, s) ->
            sync_single_repo (spy client) (spy_runtime rt) config repo s0 =
              (Returned {| repo_name := Repository.name repo;
                           status := NO_CHANGES;
                           pr_url := None;
                           message := "Todos los workflows están actualizados";
                           files_updated := [];
                           files_failed := [];
                           branch_created := None;
                           duration_seconds := 0%Q |}, snd run)
            /\ List.forallb (fun ev => negb (mutates ev))
                 (new_calls s0 (snd run)) = true).
Proof.
  intros W client rt config repo target s run H.
  assert (R : exists w',
             run = (Returned (computeChanges (_source_workflows s) target),
                    at_world s w'
                      (List.map (lookup_of repo target) (_source_workflows s)))).
  { subst run. unfold _get_required_changes, bind, get_source_workflows in *.
    destruct (get_required_changes_from_run client repo target
                (_source_workflows s) [] s H) as [w' E].
    exists w'. exact E. }
  destruct R as [w' R]. rewrite R. cbn [fst snd].
  split; [reflexivity |]. split; [now apply new_calls_app |].
  intros Hsame.
  pose proof (computeChanges_up_to_date _ _ Hsame) as Z.
  split; [exact Z |].
  intros s0 Hskip. split.
  - rewrite Z in R.
    rewrite (sync_single_repo_after_diff _ _ _ _ _ _ _ _ Hskip R).
    reflexivity.
  - pose proof (keeps_check_skip_conditions client
                  (fun ev => mutates ev = false) repo (fun _ => eq_refl) s0)
      as [[d [Ed Fd]] _].
    rewrite Hskip in Ed. cbn [snd] in Ed.
    rewrite (new_calls_app s0 _
               (d ++ List.map (lookup_of repo target) (_source_workflows s))).
    2:{ rewrite at_world_calls, Ed. now rewrite app_assoc. }
    rewrite forallb_app. apply andb_true_iff. split.
    + apply forallb_forall. intros ev Hev. rewrite Forall_forall in Fd.
      now rewrite (Fd ev Hev).
    + apply forallb_forall. intros ev Hev. apply in_map_iff in Hev.
      destruct Hev as [item [<- _]]. reflexivity.
Qed.

Lemma required_changes_follow_diff_witness :
  let target path :=
    if String.eqb path ".github/workflows/build.yml"
    then Some (Demo.build_yml, "d1")
    else if String.eqb path ".github/workflows/deploy.yml"
         then Some ("  " ++ Demo.deploy_yml, "d2")
         else None in
  let s0 := fresh (Demo.start Demo.remote) Demo.desired in
  let s := snd (_check_skip_conditions (spy Demo.client) Demo.repo_d s0) in
  let run := _get_required_changes (spy Demo.client) Demo.repo_d s in
  fst run = Returned (computeChanges Demo.desired target)
  /\ new_calls s (snd run) = List.map (lookup_of Demo.repo_d target) Demo.desired
  /\ computeChanges Demo.desired target = []
  /\ sync_single_repo (spy Demo.client) (spy_runtime Demo.runtime)
       Demo.config Demo.repo_d s0 =
       (Returned {| repo_name := "service-d";
                    status := NO_CHANGES;
                    pr_url := None;
                    message := "Todos los workflows están actualizados";
                    files_updated := [];
                    files_failed := [];
                    branch_created := None;
                    duration_seconds := 0%Q |}, snd run)
  /\ List.forallb (fun ev => negb (mutates ev)) (new_calls s0 (snd run)) = true.
Proof.
  intros target s0 s run.
  destruct (required_changes_follow_diff _ Demo.client Demo.runtime Demo.config
              Demo.repo_d target s) as [A [B C]].
  { intros path reply Hin. vm_compute in Hin.
    destruct Hin as [Hin | [Hin | []]]; injection Hin as <- <-; reflexivity. }
  destruct C as [Z S0].
  { intros item [<- | [<- | []]].
    - exists Demo.build_yml, "d1". split; reflexivity.
    - exists ("  " ++ Demo.deploy_yml), "d2". split; vm_compute; reflexivity. }
  destruct (S0 s0 eq_refl) as [R F].
  repeat split; assumption.
Defined.

(* ================================================================== *)
(** * The load stage *)
(* ================================================================== *)

(** [run] is its prelude, the load stage, and the rest. *)
Lemma run_stages {W : Type} (client : IGitHubClient.t W) (rt : Runtime W)
  (config : SyncConfig) (parallel : bool) (completion : list nat)
  (s : Service W) :
  run client rt config parallel completion s =
  match run_prelude client rt s with
  | (Raised e, s1) => (Raised e, s1)
  | (Returned _, s1) =>
    match _load_source_workflows client config s1 with
    | (Raised e, s2) => (Raised e, s2)
    | (Returned _, s2) =>
      run_after_load client rt config parallel completion s2
    end
  end.
Proof.
  unfold run, run_prelude, run_after_load, bind.
  destruct (time rt s) as [[t | e] s0]; [| reflexivity].
  destruct (set_start_time t s0) as [[[] | e] s0']; [| reflexivity].
  destruct (call (IGitHubClient.check_rate_limit client false) s0')
    as [[[] | e] s1]; [| reflexivity].
  destruct (_load_source_workflows client config s1) as [[[] | e] s2];
    reflexivity.
Qed.

Lemma load_source_workflows_cases {W : Type} (client : IGitHubClient.t W)
  (config : SyncConfig) (s : Service W) :
  _load_source_workflows client config s =
  match call (IGitHubClient.get_repository client
                (org config ++ "/" ++ source_repo config)) s with
  | (Raised e, s1) => (Raised e, s1)
  | (Returned src, s1) =>
    match call (IGitHubClient.get_workflow_files client src WORKFLOWS_PATH) s1
    with
    | (Raised e, s2) => (Raised e, s2)
    | (Returned workflows, s2) =>
      match (if truthy_list (files_filter config)
             then List.filter (fun kv => str_in (fst kv) (files_filter config))
                    workflows
             else workflows) with
      | [] =>
        (Raised (SourceRepoError
                   ("No se encontraron workflows en " ++ WORKFLOWS_PATH)), s2)
      | kv :: kept => set_source_workflows (kv :: kept) s2
      end
    end
  end.
Proof.
  unfold _load_source_workflows, bind.
  destruct (call (IGitHubClient.get_repository client _) s)
    as [[src | e] s1]; [| reflexivity].
  destruct (call (IGitHubClient.get_workflow_files client src WORKFLOWS_PATH) s1)
    as [[workflows | e] s2]; [| reflexivity].
  destruct (if truthy_list (files_filter config) then _ else _);
    reflexivity.
Qed.

(** The calls of the prelude and of the load stage. *)
Lemma run_prelude_appends {W : Type} (client : IGitHubClient.t W)
  (rt : Runtime W) (s : Service (W * list Event)) :
  grows (fun ev => load_stage_call ev = true) s
    (snd (run_prelude (spy client) (spy_runtime rt) s)).
Proof.
  apply (keeps_bind _ (grows_trans _)); [apply keeps_time | intros t].
  apply (keeps_bind _ (grows_trans _)); [apply keeps_set_start_time | intros _].
  apply keeps_call. reflexivity.
Qed.

Lemma load_source_workflows_appends {W : Type} (client : IGitHubClient.t W)
  (config : SyncConfig) (s : Service (W * list Event)) :
  exists d,
    calls (snd (_load_source_workflows (spy client) config s))
    = (calls s ++ d)%list
    /\ Forall (fun ev => load_stage_call ev = true) d.
Proof.
  rewrite load_source_workflows_cases.
  cbn [IGitHubClient.get_repository IGitHubClient.get_workflow_files spy].
  rewrite call_recorded.
  destruct (IGitHubClient.get_repository client _ (fst (world s)))
    as [[src | e1] w1]; cbn [fst snd].
  2:{ eexists. split; [apply at_world_calls |]. repeat constructor. }
  rewrite call_recorded.
  destruct (IGitHubClient.get_workflow_files client src WORKFLOWS_PATH _)
    as [[workflows | e2] w2]; cbn [fst snd]; rewrite at_world_again.
  2:{ eexists. split; [apply at_world_calls |]. repeat constructor. }
  destruct (if truthy_list (files_filter config) then _ else _);
    cbn [snd set_source_workflows];
    (eexists; split; [reflexivity | repeat constructor]).
Qed.

(** C7. The load stage raises [SourceRepoError] when the listing it gets
    from the source is empty once filtered, and raises what the gateway
    raised when listing fails; it returns only after storing a non-empty
    set.  When it raises, [run] raises the same exception, in the same
    state.  So at the end of any [run], either no gateway call beyond the
    load stage was made or the desired set is non-empty.
    [GitHubClient.get_workflow_files] raises [SourceRepoError] when the
    workflows path answers 404. *)
Theorem empty_desired_set_is_fatal :
  forall (W : Type) (client : IGitHubClient.t W) (rt : Runtime W)
         (config : SyncConfig),
    (forall (s s1 s2 : Service W) src workflows,
        call (IGitHubClient.get_repository client
                (org config ++ "/" ++ source_repo config)) s
          = (Returned src, s1) ->
        call (IGitHubClient.get_workflow_files client src WORKFLOWS_PATH) s1
          = (Returned workflows, s2) ->
        (if truthy_list (files_filter config)
         then List.filter (fun kv => str_in (fst kv) (files_filter config))
                workflows
         else workflows) = [] ->
        _load_source_workflows client config s =
          (Raised (SourceRepoError
                     ("No se encontraron workflows en " ++ WORKFLOWS_PATH)), s2))
    /\ (forall (s s1 s2 : Service W) src e,
        call (IGitHubClient.get_repository client
                (org config ++ "/" ++ source_repo config)) s
          = (Returned src, s1) ->
        call (IGitHubClient.get_workflow_files client src WORKFLOWS_PATH) s1
          = (Raised e, s2) ->
        _load_source_workflows client config s = (Raised e, s2))
    /\ (forall (s s' : Service W),
        _load_source_workflows client config s = (Returned tt, s') ->
        _source_workflows s' <> [])
    /\ (forall parallel completion (s s1 s2 : Service W) e,
        run_prelude client rt s = (Returned tt, s1) ->
        _load_source_workflows client config s1 = (Raised e, s2) ->
        run client rt config parallel completion s = (Raised e, s2))
    /\ (forall parallel completion (s : Service (W * list Event)),
        let final :=
          snd (run (spy client) (spy_runtime rt) config parallel completion s) in
        List.forallb load_stage_call (new_calls s final) = true
        \/ _source_workflows final <> [])
    /\ (forall (G : Type) (api : GitHubClient.PyGithub G) repo path cs g g',
        GitHubClient.repo_get_contents api repo path (GitHubClient.github cs)
          = (Raised (GithubException g), g') ->
        gh_status g = 404%Z ->
        gh_rate_limit_exceeded g = false ->
        fst (GitHubClient.get_workflow_files G api repo path cs) =
          Raised (SourceRepoError ("Workflows path not found: " ++ path))).
Proof.
  intros W client rt config.
  assert (Stored : forall (V : Type) (c : IGitHubClient.t V) (s s' : Service V),
             _load_source_workflows c config s = (Returned tt, s') ->
             _source_workflows s' <> []).
  { intros V c s s' H. rewrite load_source_workflows_cases in H.
    destruct (call (IGitHubClient.get_repository c _) s)
      as [[src | e] s1]; [| discriminate].
    destruct (call (IGitHubClient.get_workflow_files c src WORKFLOWS_PATH) s1)
      as [[workflows | e] s2]; [| discriminate].
    destruct (if truthy_list (files_filter config) then _ else _)
      as [| kv kept]; [discriminate |].
    unfold set_source_workflows in H. injection H as <-. discriminate. }
  split; [| split; [| split; [| split; [| split]]]].
  - intros s s1 s2 src workflows H1 H2 H3.
    rewrite load_source_workflows_cases, H1, H2, H3. reflexivity.
  - intros s s1 s2 src e H1 H2.
    rewrite load_source_workflows_cases, H1, H2. reflexivity.
  - apply Stored.
  - intros parallel completion s s1 s2 e H1 H2.
    now rewrite run_stages, H1, H2.
  - intros parallel completion s final. subst final. rewrite run_stages.
    pose proof (run_prelude_appends client rt s) as Pre.
    destruct (run_prelude (spy client) (spy_runtime rt) s) as [[[] | e] s1];
      cbn [snd] in *.
    2:{ left. apply grows_new_calls in Pre. apply forallb_forall.
        rewrite Forall_forall in Pre. exact Pre. }
    destruct (_load_source_workflows (spy client) config s1)
      as [[[] | e] s2] eqn:L.
    + right.
      pose proof (Stored _ _ _ _ L) as N.
      assert (K : grows (fun _ => True) s2
                    (snd (run_after_load (spy client) (spy_runtime rt) config
                            parallel completion s2))).
      { unfold run_after_load.
        apply (keeps_bind _ (grows_trans _));
          [apply keeps_call; intros; exact I | intros _].
        apply (keeps_bind _ (grows_trans _));
          [apply keeps_call; intros; exact I | intros infos].
        destruct (negb (truthy_list infos));
          [apply keeps_ret, grows_refl |].
        apply (keeps_bind _ (grows_trans _)); [| intros repos].
        { apply keeps_repos_to_sync_from. intros; exact I. }
        apply (keeps_bind _ (grows_trans _)); [| intros results].
        { destruct parallel.
          - apply keeps_parallel_sync. intros; exact I.
          - apply keeps_sequential. intros; exact I. }
        apply (keeps_bind _ (grows_trans _)); [apply keeps_time | intros t].
        apply keeps_ret, grows_refl. }
      destruct K as [_ K]. now rewrite K.
    + left. cbn [snd].
      destruct (load_source_workflows_appends client config s1)
        as [d2 [E2 F2]].
      rewrite L in E2. cbn [snd] in E2.
      destruct Pre as [[d1 [E1 F1]] _].
      rewrite (new_calls_app s s2 (d1 ++ d2)).
      2:{ rewrite E2, E1. now rewrite app_assoc. }
      apply forallb_forall. apply Forall_forall. apply Forall_app. now split.
  - intros G api repo path cs g g' H S404 Hrl.
    unfold GitHubClient.get_workflow_files, try_except_on, bind,
      GitHubClient._api_call_with_retry.
    change (GitHubClient.range GitHubClient.MAX_RETRIES) with [0; 1; 2]%Z.
    cbn [GitHubClient._api_call_with_retry_from].
    unfold GitHubClient.gh at 1. rewrite H. cbn iota beta.
    rewrite Hrl, S404. cbn. rewrite S404. reflexivity.
Qed.

Lemma empty_desired_set_is_fatal_witness :
  let config := Demo.only Demo.config ["release.yml"] in
  let nothing := SourceRepoError "No se encontraron workflows en .github/workflows" in
  let s := {| world := Demo.start Demo.remote;
              _source_workflows := [];
              _start_time := None |} in
  let s1 := snd (run_prelude Demo.client Demo.runtime s) in
  let s2 := snd (_load_source_workflows Demo.client config s1) in
  _load_source_workflows Demo.client config s1 = (Raised nothing, s2)
  /\ run Demo.client Demo.runtime config false [] s = (Raised nothing, s2)
  /\ fst (GitHubClient.get_workflow_files Demo.Remote Demo.api Demo.repo_b
            WORKFLOWS_PATH (Demo.start Demo.remote))
     = Raised (SourceRepoError "Workflows path not found: .github/workflows").
Proof.
  intros config nothing s s1 s2.
  pose proof (empty_desired_set_is_fatal _ Demo.client Demo.runtime config)
    as [Empty [_ [_ [Abort [_ Missing]]]]].
  assert (L : _load_source_workflows Demo.client config s1 = (Raised nothing, s2)).
  { apply (Empty s1 s1 s2 Demo.source Demo.desired); vm_compute; reflexivity. }
  split; [exact L | split].
  - apply (Abort false [] s s1 s2 nothing); [vm_compute; reflexivity | exact L].
  - apply (Missing Demo.Remote Demo.api Demo.repo_b WORKFLOWS_PATH
             (Demo.start Demo.remote)
             {| gh_status := 404;
                gh_secondary := false;
                gh_rate_limit_exceeded := false;
                gh_text := "Not Found" |}
             Demo.remote); reflexivity.
Defined.

(* ================================================================== *)
(** * The source repository is no target *)
(* ================================================================== *)

Lemma target_call_not_fetching source ev :
  target_call ev = true -> not_fetching source ev = true.
Proof. destruct ev; simpl; congruence. Qed.

(** C6. In a [run] that returns its results, the calls that follow the
    topic search never ask [get_repository] for the source's full name
    [org/source_repo], and every outcome returned bears the name of a
    repository that was fetched, after the search, under the full name of
    a search result other than the source's. *)
Theorem source_repository_is_excluded :
  forall (W : Type) (client : IGitHubClient.t W) (rt : Runtime W)
         (config : SyncConfig) (parallel : bool) (completion : list nat)
         (s s' : Service (W * list Event)) (results : list SyncResult),
    run (spy client) (spy_runtime rt) config parallel completion s
      = (Returned results, s') ->
    let source_full_name := org config ++ "/" ++ source_repo config in
    exists before infos after,
      new_calls s s'
      = (before
         ++ Called_search_repositories_by_topic (org config) (topic config)
              (Returned infos) :: after)%list
      /\ List.forallb (not_fetching source_full_name) after = true
      /\ forall r, In r results ->
           exists info target,
             In info infos
             /\ RepositoryInfo.full_name info <> source_full_name
             /\ In (Called_get_repository (RepositoryInfo.full_name info)
                      (Returned target)) after
             /\ repo_name r = Repository.name target.
Proof.
  intros W client rt config parallel completion s s' results H source.
  rewrite run_stages in H.
  pose proof (run_prelude_appends client rt s) as [[d1 [E1 _]] _].
  destruct (run_prelude (spy client) (spy_runtime rt) s) as [[[] | e] s1];
    [| discriminate].
  cbn [snd] in E1.
  destruct (load_source_workflows_appends client config s1) as [d2 [E2 _]].
  destruct (_load_source_workflows (spy client) config s1) as [[[] | e] s2];
    [| discriminate].
  cbn [snd] in E2.
  unfold run_after_load in H. unfold bind at 1 in H.
  cbn [IGitHubClient.check_rate_limit spy] in H. rewrite call_recorded in H.
  destruct (IGitHubClient.check_rate_limit client true (fst (world s2)))
    as [[[] | e] w3]; cbn [fst snd] in H; [| discriminate].
  unfold bind at 1 in H.
  cbn [IGitHubClient.search_repositories_by_topic spy] in H.
  rewrite call_recorded in H. cbn [world at_world fst snd] in H.
  destruct (IGitHubClient.search_repositories_by_topic client (org config)
              (topic config) w3) as [[infos | e] w4]; cbn [fst snd] in H;
    [| discriminate].
  rewrite at_world_again in H. cbn [app] in H.
  set (s4 := at_world s2 w4
               [Called_check_rate_limit true (Returned tt);
                Called_search_repositories_by_topic (org config)
                  (topic config) (Returned infos)]) in *.
  assert (C4 : calls s4
               = (calls s
                  ++ (d1 ++ d2 ++ [Called_check_rate_limit true (Returned tt)])
                  ++ [Called_search_repositories_by_topic (org config)
                        (topic config) (Returned infos)])%list).
  { subst s4. rewrite at_world_calls, E2, E1.
    rewrite <- !app_assoc. reflexivity. }
  exists (d1 ++ d2 ++ [Called_check_rate_limit true (Returned tt)])%list, infos.
  destruct (negb (truthy_list infos)).
  { unfold ret in H. injection H as <- <-. exists [].
    split; [| split; [reflexivity | intros r []]].
    apply new_calls_app. rewrite C4. now rewrite <- !app_assoc. }
  unfold bind at 1 in H. fold source in H.
  destruct (repos_to_sync_from (spy client) source infos [] s4)
    as [[repos | e] s5] eqn:R; [| discriminate].
  destruct (repos_to_sync_from_run client source infos [] s4 s5 repos R)
    as [d5 [more [C5 [-> [N5 Fetched]]]]].
  cbn [app] in *.
  unfold bind at 1 in H.
  set (strategy :=
         if parallel
         then ParallelSyncStrategy_sync (spy client) (spy_runtime rt) config
                (max_workers config) completion more
         else SequentialSyncStrategy_sync (spy client) (spy_runtime rt) config
                more) in *.
  assert (K : grows (fun ev => target_call ev = true) s5 (snd (strategy s5))
              /\ yields (outcomes_of more) strategy).
  { subst strategy. destruct parallel; split.
    - apply keeps_parallel_sync. auto.
    - apply parallel_sync_outcomes.
    - apply keeps_sequential. auto.
    - apply sequential_outcomes; [apply incl_refl | intros r []]. }
  destruct K as [[[d6 [C6 F6]] _] Y].
  destruct (strategy s5) as [[results0 | e] s6] eqn:S; [| discriminate].
  cbn [snd] in C6. specialize (Y s5 results0 s6 S).
  unfold bind at 1 in H. rewrite time_run in H.
  unfold ret in H. injection H as <- <-.
  exists (d5 ++ d6)%list. split; [| split].
  - apply new_calls_app. rewrite at_world_calls, app_nil_r, C6, C5, C4.
    rewrite <- !app_assoc. reflexivity.
  - rewrite forallb_app, N5. cbn [andb].
    apply forallb_forall. intros ev Hev. rewrite Forall_forall in F6.
    apply target_call_not_fetching. now apply F6.
  - intros r Hr. destruct (Y r Hr) as [t [Ht Hn]].
    destruct (Fetched t Ht) as [info [Hi [Hne Hin]]].
    exists info, t. repeat split; try assumption.
    apply in_or_app. now left.
Qed.

Lemma source_repository_is_excluded_witness :
  let s := fresh (Demo.start Demo.remote) [] in
  let ran := run (spy Demo.client) (spy_runtime Demo.runtime) Demo.config
               false [] s in
  exists results before infos after,
    fst ran = Returned results
    /\ List.map repo_name results
       = ["service-a"; "service-b"; "service-c"; "service-d"]
    /\ In (Demo.info "ci-templates" false) infos
    /\ new_calls s (snd ran)
       = (before
          ++ Called_search_repositories_by_topic "Automya" "microservice"
               (Returned infos) :: after)%list
    /\ List.forallb (not_fetching "Automya/ci-templates") after = true
    /\ forall r, In r results ->
         exists info target,
           In info infos
           /\ RepositoryInfo.full_name info <> "Automya/ci-templates"
           /\ In (Called_get_repository (RepositoryInfo.full_name info)
                    (Returned target)) after
           /\ repo_name r = Repository.name target.
Proof.
  intros s ran.
  destruct (source_repository_is_excluded _ Demo.client Demo.runtime
              Demo.config false [] s (snd ran)
              (match fst ran with Returned l => l | Raised _ => [] end))
    as [before [infos [after [C [N F]]]]].
  { vm_compute. reflexivity. }
  exists (match fst ran with Returned l => l | Raised _ => [] end),
    before, infos, after.
  split; [vm_compute; reflexivity |].
  split; [vm_compute; reflexivity |].
  split; [| split; [exact C | split; [exact N | exact F]]].
  assert (I : infos = Demo.tagged Demo.remote).
  { vm_compute in C.
    repeat (destruct before as [| ? before];
            [cbn [app] in C; try discriminate
            | cbn [app] in C; injection C as <- C]).
    all: try (injection C as <- _; reflexivity).
    all: try (destruct before; discriminate). }
  rewrite I. left. reflexivity.
Defined.

(* ================================================================== *)
(** * Sequential and parallel scheduling *)
(* ================================================================== *)

(** C8, as the code has it.  On a remote in a fixed state (every gateway
    call, the clock and the generator answer the same whatever happened
    before), with a positive [max_workers] (the thread pool of the parallel
    strategy raises [ValueError] otherwise), and provided the two rate-limit
    calls that only the sequential strategy makes, [check_rate_limit()] and
    [handle_post_operation_rate_limit()], return, both strategies return,
    and for every completion order of the futures their results are the
    same up to order and [duration_seconds]; in particular the statuses
    form the same multiset. *)
Theorem scheduling_equivalence {W : Type} (client : IGitHubClient.t W)
  (rt : Runtime W) (config : SyncConfig) (repos : list Repository.t)
  (completion : list nat) (s : Service W) :
  fixed_remote client rt ->
  (0 < max_workers config)%Z ->
  always_returns (IGitHubClient.check_rate_limit client false) ->
  always_returns (IGitHubClient.handle_post_operation_rate_limit client) ->
  Permutation completion (seq 0 (length repos)) ->
  exists rs rp ss sp,
    SequentialSyncStrategy_sync client rt config repos s = (Returned rs, ss)
    /\ ParallelSyncStrategy_sync client rt config (max_workers config)
         completion repos s = (Returned rp, sp)
    /\ Permutation (map undated rs) (map undated rp)
    /\ Permutation (map status rs) (map status rp).
Proof.
  intros F Workers Check Post P.
  destruct (sequential_fixed client rt config (_source_workflows s) s F
              eq_refl Check Post repos 0 [] s eq_refl)
    as [rs [ss [Seq [Hs _]]]].
  destruct (parallel_fixed client rt config (_source_workflows s) s F
              eq_refl repos completion [] s eq_refl) as [sp [Par _]].
  set (rp := map (worker_outcome client rt config s) (completed repos completion))
    in Par.
  assert (U : Permutation (map undated rs) (map undated rp)).
  { rewrite Hs. unfold rp. rewrite map_map.
    apply Permutation_map, Permutation_sym, completed_permutation, P. }
  exists rs, rp, ss, sp. repeat split.
  - exact Seq.
  - unfold ParallelSyncStrategy_sync.
    destruct (Z.leb_spec (max_workers config) 0); [lia | exact Par].
  - exact U.
  - replace (map status rs) with (map status (map undated rs))
      by (rewrite map_map; apply map_ext; now intros []).
    replace (map status rp) with (map status (map undated rp))
      by (rewrite map_map; apply map_ext; now intros []).
    now apply Permutation_map.
Qed.

Lemma scheduling_equivalence_witness :
  let w0 := Demo.start Demo.remote in
  exists rs rp ss sp,
    SequentialSyncStrategy_sync (snapshot Demo.client w0)
      (snapshot_runtime Demo.runtime w0) Demo.config Demo.six
      (service_at w0 Demo.desired) = (Returned rs, ss)
    /\ ParallelSyncStrategy_sync (snapshot Demo.client w0)
         (snapshot_runtime Demo.runtime w0) Demo.config
         (max_workers Demo.config) (rev (seq 0 6)) Demo.six
         (service_at w0 Demo.desired) = (Returned rp, sp)
    /\ Permutation (map undated rs) (map undated rp)
    /\ Permutation (map status rs) (map status rp).
Proof.
  intros w0.
  apply (scheduling_equivalence (snapshot Demo.client w0)
           (snapshot_runtime Demo.runtime w0) Demo.config Demo.six
           (rev (seq 0 6)) (service_at w0 Demo.desired)).
  - constructor; repeat intro; reflexivity.
  - reflexivity.
  - intros w. exists tt. reflexivity.
  - intros w. exists tt. reflexivity.
  - apply Permutation_sym, Permutation_rev.
Defined.

(** The remote is in a fixed state and its rate-limit endpoint cannot be
    read: with six targets the sequential strategy raises at its sixth
    repository and produces no outcome, while the parallel strategy, which
    never checks the rate limit, returns the six outcomes. *)
Lemma rate_limit_failure_aborts_sequential :
  let w0 := Demo.start Demo.throttled in
  let client := snapshot Demo.client w0 in
  let rt := snapshot_runtime Demo.runtime w0 in
  fixed_remote client rt
  /\ fst (SequentialSyncStrategy_sync client rt Demo.config Demo.six
            (service_at w0 Demo.desired))
     = Raised Demo.connection_reset
  /\ exists rp,
       fst (ParallelSyncStrategy_sync client rt Demo.config
              (max_workers Demo.config) (seq 0 6) Demo.six
              (service_at w0 Demo.desired))
       = Returned rp
       /\ map status rp
          = [SUCCESS; SKIPPED; SKIPPED; NO_CHANGES; ERROR; SKIPPED].
Proof.
  intros w0 client rt. split; [apply snapshot_fixed | split].
  - vm_compute. reflexivity.
  - eexists. split; vm_compute; reflexivity.
Qed.

(* ================================================================== *)
(** * The validators *)
(* ================================================================== *)

Transparent String.append.

(** ** The matcher reads the texts of the expression *)
Section RegexFacts.

Import Re.

Lemma append_nil_inv (s1 s2 : string) : s1 ++ s2 = "" -> s1 = "" /\ s2 = "".
Proof. destruct s1; simpl; [auto | discriminate]. Qed.

Lemma nullable_matches r : nullable r = true <-> matches r "".
Proof.
  split.
  - induction r; simpl; intros H; try discriminate.
    + constructor.
    + apply andb_true_iff in H. destruct H as [H1 H2].
      change "" with ("" ++ ""). constructor; auto.
    + apply orb_true_iff in H. destruct H; [apply M_alt_l | apply M_alt_r]; auto.
    + constructor.
  - intros H. remember "" as s eqn:E. induction H; simpl; try reflexivity;
      try discriminate.
    + apply append_nil_inv in E. destruct E. apply andb_true_iff. auto.
    + apply orb_true_iff. auto.
    + apply orb_true_iff. auto.
Qed.

Lemma deriv_sound a r : forall s, matches (deriv a r) s -> matches r (String a s).
Proof.
  induction r; simpl; intros s H.
  - inversion H.
  - inversion H.
  - destruct (holds a) eqn:Ha; inversion H; subst. now constructor.
  - assert (L : forall t, matches (Cat (deriv a r1) r2) t ->
                          matches (Cat r1 r2) (String a t)).
    { intros t Ht. inversion Ht; subst.
      change (String a (s1 ++ s2)) with (String a s1 ++ s2).
      constructor; auto. }
    destruct (nullable r1) eqn:N; [| now apply L].
    inversion H; subst; [now apply L |].
    change (String a s) with ("" ++ String a s).
    constructor; [now apply nullable_matches | auto].
  - inversion H; subst; [apply M_alt_l | apply M_alt_r]; auto.
  - inversion H; subst.
    change (String a (s1 ++ s2)) with (String a s1 ++ s2).
    constructor; auto.
Qed.

Lemma deriv_complete a r t :
  matches r t -> forall u, t = String a u -> matches (deriv a r) u.
Proof.
  induction 1 as [| holds b Hb | r1 r2 s1 s2 H1 IH1 H2 IH2 | r1 r2 s H IH
                 | r1 r2 s H IH | r | r s1 s2 H1 IH1 H2 IH2];
    intros u E; simpl; try discriminate.
  - injection E as -> <-. rewrite Hb. constructor.
  - destruct s1 as [| b s1'].
    + simpl in E. subst s2.
      assert (N : nullable r1 = true) by now apply nullable_matches.
      rewrite N. apply M_alt_r. now apply IH2.
    + simpl in E. injection E as -> <-.
      assert (C : matches (Cat (deriv a r1) r2) (s1' ++ s2))
        by (constructor; [now apply IH1 | assumption]).
      destruct (nullable r1); [now apply M_alt_l | exact C].
  - apply M_alt_l. now apply IH.
  - apply M_alt_r. now apply IH.
  - destruct s1 as [| b s1'].
    + simpl in E. now apply IH2.
    + simpl in E. injection E as -> <-.
      constructor; [now apply IH1 | assumption].
Qed.

Lemma accepts_matches r s : accepts r s = true <-> matches r s.
Proof.
  revert r. induction s as [| a s IH]; intros r; simpl.
  - apply nullable_matches.
  - rewrite IH. split; [apply deriv_sound |].
    intros H. now apply (deriv_complete a r (String a s)).
Qed.

(** How the matcher goes through the shapes the patterns are made of. *)
Lemma accepts_Nothing s : accepts Nothing s = false.
Proof. induction s; simpl; auto. Qed.

Lemma accepts_Empty s : accepts Empty s = String.eqb s "".
Proof. destruct s; simpl; [reflexivity | apply accepts_Nothing]. Qed.

Lemma accepts_Alt r1 r2 s : accepts (Alt r1 r2) s = accepts r1 s || accepts r2 s.
Proof. revert r1 r2. induction s; intros; simpl; auto. Qed.

Lemma accepts_Cat_Nothing r s : accepts (Cat Nothing r) s = false.
Proof. induction s; simpl; auto. Qed.

Lemma accepts_Cat_Empty r s : accepts (Cat Empty r) s = accepts r s.
Proof.
  destruct s as [| a s]; simpl; [reflexivity |].
  now rewrite accepts_Alt, accepts_Cat_Nothing.
Qed.

Lemma accepts_Cat_Class holds r s :
  accepts (Cat (Class holds) r) s =
  match s with
  | String a rest => holds a && accepts r rest
  | EmptyString => false
  end.
Proof.
  destruct s as [| a s]; simpl; [reflexivity |].
  destruct (holds a); simpl;
    [apply accepts_Cat_Empty | apply accepts_Cat_Nothing].
Qed.

Lemma accepts_upto_Class holds n : forall s,
  accepts (upto n (Class holds)) s
  = (String.length s <=? n)%nat && forallb holds (list_ascii_of_string s).
Proof.
  induction n as [| n IH]; intros s.
  - simpl upto. rewrite accepts_Empty. destruct s; reflexivity.
  - simpl upto. rewrite accepts_Alt, accepts_Empty, accepts_Cat_Class.
    destruct s as [| a s]; [reflexivity |].
    cbn [String.eqb orb String.length list_ascii_of_string forallb].
    rewrite IH. cbn [Nat.leb].
    destruct (holds a), (String.length s <=? n)%nat; reflexivity.
Qed.

Lemma accepts_lit x s : accepts (lit x) s = String.eqb s x.
Proof.
  revert s. induction x as [| a x IH]; intros s.
  - simpl lit. apply accepts_Empty.
  - simpl lit. rewrite accepts_Cat_Class.
    destruct s as [| b s]; [reflexivity |].
    rewrite IH. cbn [String.eqb]. rewrite (Ascii.eqb_sym a b).
    reflexivity.
Qed.

End RegexFacts.

(** ** Texts *)
Section TextFacts.

Lemma chomp_spec s line : Re.chomp s = Some line <-> s = line ++ nl.
Proof.
  revert line. induction s as [| a s IH]; intros line.
  - simpl. split; [discriminate |]. destruct line; discriminate.
  - cbn [Re.chomp]. destruct s as [| b s].
    + destruct (Ascii.eqb_spec a (ascii_of_nat 10)) as [-> | N].
      * split.
        -- intros H. injection H as <-. reflexivity.
        -- destruct line as [| c line]; simpl; intros H.
           ++ reflexivity.
           ++ injection H as _ H. destruct line; discriminate.
      * split; [discriminate |].
        destruct line as [| c line]; simpl; intros H.
        -- injection H as ->. now contradiction N.
        -- injection H as _ H. destruct line; discriminate.
    + destruct (Re.chomp (String b s)) as [l |].
      * pose proof (proj1 (IH l) eq_refl) as C. split.
        -- intros H. injection H as <-. simpl. now rewrite <- C.
        -- destruct line as [| c line]; simpl; intros H; [discriminate |].
           injection H as <- H. f_equal. f_equal.
           apply IH in H. now injection H.
      * split; [discriminate |].
        destruct line as [| c line]; simpl; intros H; [discriminate |].
        injection H as _ H. apply IH in H. discriminate.
Qed.

Lemma list_ascii_app (s1 s2 : string) :
  list_ascii_of_string (s1 ++ s2)
  = (list_ascii_of_string s1 ++ list_ascii_of_string s2)%list.
Proof. induction s1 as [| a s1 IH]; simpl; [reflexivity | now rewrite IH]. Qed.

Lemma length_append (s1 s2 : string) :
  String.length (s1 ++ s2) = String.length s1 + String.length s2.
Proof. induction s1 as [| a s1 IH]; simpl; [reflexivity | now rewrite IH]. Qed.

(** [c in s] for a single character [c]. *)
Lemma contains_char c s :
  str_contains (String c "") s
  = existsb (Ascii.eqb c) (list_ascii_of_string s).
Proof.
  induction s as [| a s IH]; [reflexivity |].
  cbn [str_contains String.prefix list_ascii_of_string existsb].
  rewrite IH. destruct (ascii_dec c a) as [-> | N].
  - rewrite Ascii.eqb_refl. now destruct s.
  - destruct (Ascii.eqb_spec c a); [contradiction | reflexivity].
Qed.

Lemma contains_here x s : String.prefix x s = true -> str_contains x s = true.
Proof. intros H. destruct s; simpl in *; rewrite H; reflexivity. Qed.

Lemma contains_later x a s :
  str_contains x s = true -> str_contains x (String a s) = true.
Proof. intros H. cbn [str_contains]. rewrite H. apply orb_true_r. Qed.

Lemma contains_append x s1 s2 :
  str_contains x s2 = true -> str_contains x (s1 ++ s2) = true.
Proof.
  intros H. induction s1 as [| a s1 IH]; [exact H |].
  simpl String.append. now apply contains_later.
Qed.

End TextFacts.

(** ** What the patterns accept *)
Section ValidatorFacts.

Lemma accepts_headed first others n s :
  Re.accepts (Re.Cat (Re.Class first) (Re.upto n (Re.Class others))) s = true
  <-> headed first others s /\ String.length s <= S n.
Proof.
  rewrite accepts_Cat_Class. destruct s as [| a rest].
  - split; [discriminate |]. intros [[a [rest [E _]]] _]. discriminate.
  - rewrite accepts_upto_Class, !andb_true_iff, Nat.leb_le. simpl String.length.
    split.
    + intros [Ha [Hl Hr]]. split; [now exists a, rest | lia].
    + intros [[a' [rest' [E [Ha Hr]]]] Hl]. injection E as <- <-.
      repeat split; [exact Ha | lia | exact Hr].
Qed.

Lemma match_maybe_newline p (shape : string -> Prop) value :
  (forall s, Re.accepts (Re.body p) s = true <-> shape s) ->
  Re.match_ p value = true <-> maybe_newline shape value.
Proof.
  intros A. unfold Re.match_, maybe_newline. rewrite orb_true_iff, A.
  split; (intros [H | H]; [now left | right]).
  - destruct (Re.chomp value) as [line |] eqn:C; [| discriminate].
    exists line. split; [now apply chomp_spec | now apply A].
  - destruct H as [line [E S]]. apply chomp_spec in E. rewrite E. now apply A.
Qed.

Lemma validate_cases self value :
  validate self value
  = if Re.match_ (pattern self) value then Returned value
    else Raised (invalid self value).
Proof. unfold validate. now destruct (Re.match_ (pattern self) value). Qed.

Lemma validate_returns self (shape : string -> Prop) value :
  (forall s, Re.accepts (Re.body (pattern self)) s = true <-> shape s) ->
  (validate self value = Returned value <-> maybe_newline shape value)
  /\ (validate self value = Returned value
      \/ validate self value = Raised (invalid self value)).
Proof.
  intros A. rewrite validate_cases.
  pose proof (match_maybe_newline (pattern self) shape value A) as M.
  destruct (Re.match_ (pattern self) value).
  - split; [| now left]. split; [intros _; now apply M | reflexivity].
  - split; [| now right]. split; [discriminate |].
    intros H. apply M in H. discriminate.
Qed.

Lemma name_pattern_accepts s :
  Re.accepts (Re.body name_pattern) s = true <-> is_name s.
Proof. apply accepts_headed. Qed.

Lemma topic_pattern_accepts s :
  Re.accepts (Re.body topic_pattern) s = true <-> is_topic s.
Proof. apply accepts_headed. Qed.

End ValidatorFacts.

Section WorkflowNames.

Lemma matches_star_class holds s :
  Re.matches (Re.Star (Re.Class holds)) s
  <-> forallb holds (list_ascii_of_string s) = true.
Proof.
  split.
  - intros H. remember (Re.Star (Re.Class holds)) as r eqn:E.
    induction H as [| | | | | r0 | r0 s1 s2 H1 _ H2 IH2]; try discriminate.
    + reflexivity.
    + injection E as ->. inversion H1 as [| h a Ha | | | | |]; subst.
      simpl. rewrite Ha. now apply IH2.
  - induction s as [| a s IH]; simpl; intros H; [constructor |].
    apply andb_true_iff in H. destruct H as [Ha Hs].
    change (String a s) with (String a "" ++ s).
    constructor; [now constructor | now apply IH].
Qed.

Lemma matches_lit x s : Re.matches (Re.lit x) s <-> s = x.
Proof. now rewrite <- accepts_matches, accepts_lit, String.eqb_eq. Qed.

Lemma workflow_pattern_accepts s :
  Re.accepts (Re.body workflow_pattern) s = true <-> is_workflow_name s.
Proof.
  rewrite accepts_matches. unfold workflow_pattern, is_workflow_name, headed.
  cbn [Re.body]. split.
  - intros H.
    inversion H as [| | r1 r2 s1 t1 Ha Hrest | | | |]; subst.
    inversion Ha as [| h a Halnum | | | | |]; subst.
    inversion Hrest as [| | r1 r2 mid t2 Hmid Htail | | | |]; subst.
    inversion Htail as [| | r1 r2 dot ext Hdot Hext | | | |]; subst.
    apply matches_star_class in Hmid.
    apply (matches_lit ".") in Hdot. subst dot.
    assert (E : ext = "yml" \/ ext = "yaml").
    { inversion Hext; subst; [left | right];
        [now apply (matches_lit "yml") | now apply (matches_lit "yaml")]. }
    split.
    + exists a, (mid ++ "." ++ ext). split; [reflexivity |].
      split; [exact Halnum |].
      rewrite !list_ascii_app, !forallb_app, Hmid.
      destruct E as [-> | ->]; reflexivity.
    + exists (String a mid).
      destruct E as [-> | ->]; [left | right]; reflexivity.
  - intros [[a [rest [-> [Halnum Hrest]]]] [stem E]].
    assert (S : exists mid ext,
               rest = mid ++ "." ++ ext /\ (ext = "yml" \/ ext = "yaml")).
    { destruct stem as [| b mid].
      - destruct E as [E | E]; injection E as -> _; discriminate.
      - exists mid. destruct E as [E | E]; injection E as _ ->;
          [exists "yml" | exists "yaml"]; auto. }
    destruct S as [mid [ext [-> Hext]]].
    rewrite list_ascii_app, forallb_app in Hrest.
    apply andb_true_iff in Hrest. destruct Hrest as [Hmid _].
    change (String a (mid ++ "." ++ ext)) with (String a "" ++ (mid ++ "." ++ ext)).
    constructor; [now constructor |].
    constructor; [now apply matches_star_class |].
    constructor; [now apply (matches_lit ".") |].
    destruct Hext as [-> | ->];
      [apply Re.M_alt_l; now apply (matches_lit "yml")
      | apply Re.M_alt_r; now apply (matches_lit "yaml")].
Qed.

End WorkflowNames.

Section Separators.

Lemma absent_char (x : ascii) (holds : ascii -> bool) l :
  holds x = false ->
  forallb holds l = true ->
  existsb (Ascii.eqb x) l = false.
Proof.
  intros Hx. induction l as [| c l IH]; simpl; [reflexivity |].
  intros H. apply andb_true_iff in H. destruct H as [Hc Hl].
  rewrite (IH Hl), orb_false_r.
  destruct (Ascii.eqb_spec x c) as [<- |]; [congruence | reflexivity].
Qed.

Lemma headed_chars first others s :
  (forall a, first a = true -> others a = true) ->
  headed first others s ->
  forallb others (list_ascii_of_string s) = true.
Proof.
  intros Sub [a [rest [-> [Ha Hr]]]]. simpl. now rewrite (Sub a Ha), Hr.
Qed.

Lemma alnum_name_char a : Re.alnum a = true -> Re.name_char a = true.
Proof. unfold Re.name_char. now intros ->. Qed.

(** A workflow name, with or without the newline, has no separator. *)
Lemma workflow_name_no_separator filename x :
  Re.name_char x = false -> Ascii.eqb x (ascii_of_nat 10) = false ->
  maybe_newline is_workflow_name filename ->
  str_contains (String x "") filename = false.
Proof.
  intros Hx Hn H. rewrite contains_char.
  assert (C : forall s, is_workflow_name s ->
                existsb (Ascii.eqb x) (list_ascii_of_string s) = false).
  { intros s [Hs _]. apply (absent_char x Re.name_char); [exact Hx |].
    apply (headed_chars Re.alnum); [apply alnum_name_char | exact Hs]. }
  destruct H as [H | [line [-> H]]]; [now apply C |].
  rewrite list_ascii_app, existsb_app, (C line H). simpl. now rewrite Hn.
Qed.

End Separators.

Lemma validate_workflow_file_cases filename :
  InputValidator.validate_workflow_file filename
  = if str_contains ".." filename || str_contains "/" filename
       || str_contains "\" filename
    then Raised (ValidationError
                   ("Invalid file name (path traversal attempt): '"
                    ++ filename ++ "'"))
    else if Re.match_ workflow_pattern filename then Returned filename
         else Raised (invalid WorkflowFilePattern filename).
Proof.
  unfold InputValidator.validate_workflow_file.
  destruct (str_contains ".." filename || str_contains "/" filename
            || str_contains "\" filename); [reflexivity |].
  apply validate_cases.
Qed.

Lemma validate_workflow_file_same filename v :
  InputValidator.validate_workflow_file filename = Returned v -> v = filename.
Proof.
  rewrite validate_workflow_file_cases.
  destruct (_ || _ || _); [discriminate |].
  destruct (Re.match_ workflow_pattern filename); [| discriminate].
  now intros [= <-].
Qed.

(** [validate_organization] and [validate_repository] return the value
    unchanged exactly when it is an alphanumeric character followed by at
    most 99 characters of [[a-zA-Z0-9._-]], alone or followed by one
    newline (which [$] lets through); for any other value they raise
    [ValidationError], naming the field, the value and the pattern. *)
Theorem names_are_validated value :
  (InputValidator.validate_organization value = Returned value
   <-> maybe_newline is_name value)
  /\ (InputValidator.validate_repository value = Returned value
      <-> maybe_newline is_name value)
  /\ (~ maybe_newline is_name value ->
      InputValidator.validate_organization value
      = Raised (ValidationError
                  ("Invalid organization name: '" ++ value
                   ++ "'. Must match pattern: ^[a-zA-Z0-9][a-zA-Z0-9._-]{0,99}$"))
      /\ InputValidator.validate_repository value
         = Raised (ValidationError
                     ("Invalid repository name: '" ++ value
                      ++ "'. Must match pattern: ^[a-zA-Z0-9][a-zA-Z0-9._-]{0,99}$"))).
Proof.
  unfold InputValidator.validate_organization,
    InputValidator.validate_repository.
  destruct (validate_returns OrganizationNamePattern is_name value
              name_pattern_accepts) as [O1 O2].
  destruct (validate_returns RepositoryNamePattern is_name value
              name_pattern_accepts) as [R1 R2].
  split; [exact O1 | split; [exact R1 |]].
  intros N. split.
  - destruct O2 as [H | H]; [now apply O1 in H | exact H].
  - destruct R2 as [H | H]; [now apply R1 in H | exact H].
Qed.

Lemma names_are_validated_witness :
  InputValidator.validate_organization ("Automya" ++ nl)
  = Returned ("Automya" ++ nl)
  /\ InputValidator.validate_repository "ci templates"
     = Raised (ValidationError
                 ("Invalid repository name: 'ci templates'"
                  ++ ". Must match pattern: ^[a-zA-Z0-9][a-zA-Z0-9._-]{0,99}$")).
Proof.
  split.
  - apply (proj1 (names_are_validated ("Automya" ++ nl))).
    right. exists "Automya". split; [reflexivity |].
    split; [| simpl; lia]. exists "A"%char, "utomya". repeat split.
  - apply (proj2 (proj2 (names_are_validated "ci templates"))).
    intros H. apply (match_maybe_newline name_pattern is_name) in H;
      [discriminate | apply name_pattern_accepts].
Defined.

(** [validate_workflow_file] returns the name unchanged exactly when it
    has no [..] and is an alphanumeric character followed by characters of
    [[a-zA-Z0-9._-]], ending in [.yml] or [.yaml], alone or followed by one
    newline.  A name it returns has no slash and no backslash, and a name
    with [..], a slash or a backslash is refused as a path traversal
    attempt, whatever else it looks like. *)
Theorem workflow_file_names_are_validated filename :
  (InputValidator.validate_workflow_file filename = Returned filename
   <-> str_contains ".." filename = false
       /\ maybe_newline is_workflow_name filename)
  /\ (forall v,
      InputValidator.validate_workflow_file filename = Returned v ->
      v = filename
      /\ str_contains "/" filename = false
      /\ str_contains "\" filename = false)
  /\ (str_contains ".." filename = true
      \/ str_contains "/" filename = true
      \/ str_contains "\" filename = true ->
      InputValidator.validate_workflow_file filename
      = Raised (ValidationError
                  ("Invalid file name (path traversal attempt): '"
                   ++ filename ++ "'"))).
Proof.
  pose proof (match_maybe_newline workflow_pattern is_workflow_name filename
                workflow_pattern_accepts) as M.
  rewrite validate_workflow_file_cases.
  split; [| split].
  - split.
    + destruct (str_contains ".." filename); [discriminate |].
      destruct (_ || _); [discriminate |].
      destruct (Re.match_ workflow_pattern filename); [| discriminate].
      intros _. split; [reflexivity | now apply M].
    + intros [D W]. rewrite D.
      rewrite (workflow_name_no_separator filename "/" eq_refl eq_refl W).
      rewrite (workflow_name_no_separator filename "\" eq_refl eq_refl W).
      apply M in W. now rewrite W.
  - intros v.
    destruct (str_contains ".." filename); [discriminate |].
    destruct (str_contains "/" filename); [discriminate |].
    destruct (str_contains "\" filename); [discriminate |].
    destruct (Re.match_ workflow_pattern filename); [| discriminate].
    intros [= <-]. auto.
  - intros [-> | [-> | ->]]; rewrite ?orb_true_r; reflexivity.
Qed.

Lemma workflow_file_names_are_validated_witness :
  InputValidator.validate_workflow_file "ci..yml"
  = Raised (ValidationError
              "Invalid file name (path traversal attempt): 'ci..yml'")
  /\ InputValidator.validate_workflow_file ("build.yaml" ++ nl)
     = Returned ("build.yaml" ++ nl).
Proof.
  split.
  - apply (proj2 (proj2 (workflow_file_names_are_validated "ci..yml"))).
    left. reflexivity.
  - apply (proj1 (workflow_file_names_are_validated ("build.yaml" ++ nl))).
    split; [reflexivity |].
    right. exists "build.yaml". split; [reflexivity |]. split.
    + exists "b"%char, "uild.yaml". repeat split.
    + exists "build". now right.
Defined.

(** [validate_workflow_files] gives the empty list for [None] and for
    the empty list; otherwise it returns the list unchanged exactly when
    every name passes [validate_workflow_file], and raises what the first
    name that fails raises. *)
Theorem workflow_file_lists_are_validated :
  InputValidator.validate_workflow_files None = Returned []
  /\ InputValidator.validate_workflow_files (Some []) = Returned []
  /\ forall files,
      (forall v,
          InputValidator.validate_workflow_files (Some files) = Returned v ->
          v = files)
      /\ (InputValidator.validate_workflow_files (Some files) = Returned files
          <-> Forall (fun f => InputValidator.validate_workflow_file f
                               = Returned f) files)
      /\ (forall good f rest e,
          files = (good ++ f :: rest)%list ->
          Forall (fun f => InputValidator.validate_workflow_file f = Returned f)
            good ->
          InputValidator.validate_workflow_file f = Raised e ->
          InputValidator.validate_workflow_files (Some files) = Raised e).
Proof.
  split; [reflexivity | split; [reflexivity |]]. intros files.
  assert (E : InputValidator.validate_workflow_files (Some files)
              = InputValidator.validate_each files)
    by now destruct files.
  rewrite E. clear E.
  assert (Same : forall l v,
             InputValidator.validate_each l = Returned v ->
             v = l
             /\ Forall (fun f => InputValidator.validate_workflow_file f
                                 = Returned f) l).
  { induction l as [| f l IH]; simpl; intros v H.
    - injection H as <-. split; constructor.
    - destruct (InputValidator.validate_workflow_file f) as [w | e] eqn:F;
        [| discriminate].
      apply validate_workflow_file_same in F as F'. subst w.
      destruct (InputValidator.validate_each l) as [vs | e]; [| discriminate].
      injection H as <-. destruct (IH vs eq_refl) as [-> A].
      split; [reflexivity | now constructor]. }
  split; [| split].
  - intros v H. now apply Same in H.
  - split; [intros H; now apply Same in H |].
    induction 1 as [| f l Hf _ IH]; simpl; [reflexivity |].
    now rewrite Hf, IH.
  - intros good f rest e -> Hgood Hf.
    induction Hgood as [| g l Hg _ IH]; simpl.
    + now rewrite Hf.
    + now rewrite Hg, IH.
Qed.

Lemma workflow_file_lists_are_validated_witness :
  InputValidator.validate_workflow_files
    (Some ["build.yml"; "../deploy.yml"; "notes.txt"])
  = Raised (ValidationError
              "Invalid file name (path traversal attempt): '../deploy.yml'").
Proof.
  apply (proj2 (proj2 (proj2 (proj2 workflow_file_lists_are_validated)
                         ["build.yml"; "../deploy.yml"; "notes.txt"]))
           ["build.yml"] "../deploy.yml" ["notes.txt"]).
  - reflexivity.
  - repeat constructor.
  - reflexivity.
Defined.

(** [validate_topic] checks the lower-cased topic and returns it: the
    result is [value.lower()], returned exactly when that is a lower-case
    alphanumeric followed by at most 49 characters of [[a-z0-9-]] (alone
    or followed by one newline); the error quotes the lower-cased topic. *)
Theorem topics_are_validated (lower : string -> string) value :
  (forall v, InputValidator.validate_topic lower value = Returned v ->
             v = lower value)
  /\ (InputValidator.validate_topic lower value = Returned (lower value)
      <-> maybe_newline is_topic (lower value))
  /\ (~ maybe_newline is_topic (lower value) ->
      InputValidator.validate_topic lower value
      = Raised (ValidationError
                  ("Invalid topic: '" ++ lower value
                   ++ "'. Must match pattern: ^[a-z0-9][a-z0-9-]{0,49}$"))).
Proof.
  unfold InputValidator.validate_topic.
  destruct (validate_returns TopicPattern is_topic (lower value)
              topic_pattern_accepts) as [T1 T2].
  split; [| split; [exact T1 |]].
  - intros v. rewrite validate_cases.
    destruct (Re.match_ (pattern TopicPattern) (lower value));
      [now intros [= <-] | discriminate].
  - intros N. destruct T2 as [H | H]; [now apply T1 in H | exact H].
Qed.

Lemma topics_are_validated_witness :
  InputValidator.validate_topic ascii_lower "Microservice"
  = Returned "microservice"
  /\ InputValidator.validate_topic ascii_lower "Micro Service"
     = Raised (ValidationError
                 ("Invalid topic: 'micro service'"
                  ++ ". Must match pattern: ^[a-z0-9][a-z0-9-]{0,49}$")).
Proof.
  split.
  - apply (proj1 (proj2 (topics_are_validated ascii_lower "Microservice"))).
    left. split; [| simpl; lia].
    exists "m"%char, "icroservice". repeat split.
  - apply (proj2 (proj2 (topics_are_validated ascii_lower "Micro Service"))).
    intros H. apply (match_maybe_newline topic_pattern is_topic) in H;
      [discriminate | apply topic_pattern_accepts].
Defined.

(** ** [create_config] *)

(** [create_config] runs the validators in the order token, organization,
    source repository, topic, files, and raises the [ValidationError] of
    the first that fails.  It never returns a configuration: when all five
    pass it calls [SyncConfig] with the keyword [auto_merge], which the
    dataclass does not have, and the [TypeError] of that call leaves it. *)
Theorem create_config_validates_in_order (lower : string -> string)
  (args : Cli.Namespace) (token : string) :
  (forall config, Cli.create_config lower args token <> Returned config)
  /\ (forall e,
      InputValidator.validate_token (Some token) = Raised e ->
      Cli.create_config lower args token = Raised e)
  /\ (forall e,
      InputValidator.validate_token (Some token) = Returned token ->
      InputValidator.validate_organization (Cli.args_org args) = Raised e ->
      Cli.create_config lower args token = Raised e)
  /\ (forall e,
      InputValidator.validate_token (Some token) = Returned token ->
      InputValidator.validate_organization (Cli.args_org args)
        = Returned (Cli.args_org args) ->
      InputValidator.validate_repository (Cli.args_source_repo args)
        = Raised e ->
      Cli.create_config lower args token = Raised e)
  /\ (forall e,
      InputValidator.validate_token (Some token) = Returned token ->
      InputValidator.validate_organization (Cli.args_org args)
        = Returned (Cli.args_org args) ->
      InputValidator.validate_repository (Cli.args_source_repo args)
        = Returned (Cli.args_source_repo args) ->
      InputValidator.validate_topic lower (Cli.args_topic args) = Raised e ->
      Cli.create_config lower args token = Raised e)
  /\ (forall e,
      InputValidator.validate_token (Some token) = Returned token ->
      InputValidator.validate_organization (Cli.args_org args)
        = Returned (Cli.args_org args) ->
      InputValidator.validate_repository (Cli.args_source_repo args)
        = Returned (Cli.args_source_repo args) ->
      InputValidator.validate_topic lower (Cli.args_topic args)
        = Returned (lower (Cli.args_topic args)) ->
      InputValidator.validate_workflow_files (Some (Cli.args_files args))
        = Raised e ->
      Cli.create_config lower args token = Raised e)
  /\ (InputValidator.validate_token (Some token) = Returned token ->
      InputValidator.validate_organization (Cli.args_org args)
        = Returned (Cli.args_org args) ->
      InputValidator.validate_repository (Cli.args_source_repo args)
        = Returned (Cli.args_source_repo args) ->
      InputValidator.validate_topic lower (Cli.args_topic args)
        = Returned (lower (Cli.args_topic args)) ->
      InputValidator.validate_workflow_files (Some (Cli.args_files args))
        = Returned (Cli.args_files args) ->
      Cli.create_config lower args token
      = Raised (OtherException
                  ("SyncConfig.__init__() got an unexpected keyword argument "
                   ++ "'auto_merge'"))).
Proof.
  unfold Cli.create_config.
  split; [| repeat split].
  - intros config.
    destruct (InputValidator.validate_token (Some token)); [| discriminate].
    destruct (InputValidator.validate_organization _); [| discriminate].
    destruct (InputValidator.validate_repository _); [| discriminate].
    destruct (InputValidator.validate_topic lower _); [| discriminate].
    destruct (InputValidator.validate_workflow_files _); discriminate.
  - now intros e ->.
  - now intros e -> ->.
  - now intros e -> -> ->.
  - now intros e -> -> -> ->.
  - now intros e -> -> -> -> ->.
  - now intros -> -> -> -> ->.
Qed.

Lemma create_config_validates_in_order_witness :
  let args := {| Cli.args_org := "Automya";
                 Cli.args_topic := "Microservice";
                 Cli.args_source_repo := "ci templates";
                 Cli.args_files := ["../deploy.yml"];
                 Cli.args_dry_run := false;
                 Cli.args_verbose := false;
                 Cli.args_parallel := false;
                 Cli.args_max_workers := 4;
                 Cli.args_timeout := 30;
                 Cli.args_auto_merge := false |} in
  Cli.create_config ascii_lower args "ghp_0123456789abcdefghij"
  = Raised (ValidationError
              ("Invalid repository name: 'ci templates'"
               ++ ". Must match pattern: ^[a-zA-Z0-9][a-zA-Z0-9._-]{0,99}$")).
Proof.
  intros args.
  apply (proj1 (proj2 (proj2 (proj2
           (create_config_validates_in_order ascii_lower args
              "ghp_0123456789abcdefghij"))))); reflexivity.
Defined.

(* ================================================================== *)
(** * The GitHub client *)
(* ================================================================== *)

(** ** Retries *)
Section RetryFacts.

Context {G : Type}.
Variable api : GitHubClient.PyGithub G.
Context {A : Type}.
Variable operation : M G A.
Variable operation_name : string.

(** One turn of the loop. *)
Lemma retry_step attempt rest last (s : GitHubClient.State G) :
  exists warning,
    GitHubClient.level warning = GitHubClient.LWARNING
    /\ GitHubClient._api_call_with_retry_from G api operation operation_name
         (attempt :: rest) last s
       = match operation (GitHubClient.github s) with
         | (Returned a, g') =>
           (Returned a,
            {| GitHubClient.github := g';
               GitHubClient.records := GitHubClient.records s |})
         | (Raised e, g') =>
           if retryable e then
             GitHubClient._api_call_with_retry_from G api operation
               operation_name rest (Some e)
               {| GitHubClient.github :=
                    GitHubClient.time_sleep api (inject_Z (backoff attempt e)) g';
                  GitHubClient.records :=
                    (GitHubClient.records s ++ [warning])%list |}
           else
             (Raised e,
              {| GitHubClient.github := g';
                 GitHubClient.records := GitHubClient.records s |})
         end.
Proof.
  cbn [GitHubClient._api_call_with_retry_from].
  unfold GitHubClient.gh, bind, GitHubClient.log, GitHubClient.sleep.
  destruct (operation (GitHubClient.github s)) as [[a | e] g'].
  - eexists (GitHubClient.mkLog GitHubClient.LWARNING ""). split; reflexivity.
  - destruct e as [g | | | | | | | |];
      try (eexists; split; [| reflexivity]; reflexivity).
    unfold retryable, backoff, secondary_limit.
    destruct (gh_rate_limit_exceeded g); cbn [orb negb andb];
      [eexists; split; [| reflexivity]; reflexivity |].
    destruct (existsb (Z.eqb (gh_status g)) [500; 502; 503; 504]%Z);
      cbn [orb negb andb]; [eexists; split; [| reflexivity]; reflexivity |].
    destruct ((gh_status g =? 403)%Z && gh_secondary g) eqn:S3.
    + eexists; split; [| reflexivity]; reflexivity.
    + eexists (GitHubClient.mkLog GitHubClient.LWARNING ""). split; reflexivity.
Qed.


Lemma retry_end last (s : GitHubClient.State G) :
  GitHubClient._api_call_with_retry_from G api operation operation_name
    [] last s
  = (exhausted operation_name last,
     {| GitHubClient.github := GitHubClient.github s;
        GitHubClient.records :=
          (GitHubClient.records s ++ [retries_exhausted operation_name])%list |}).
Proof. destruct last; reflexivity. Qed.

(** The calls made, counted by [count], and where the outcome comes
    from. *)
Lemma retry_from_counts (count : G -> nat) :
  (forall g, count (snd (operation g)) = S (count g)) ->
  (forall seconds g, count (GitHubClient.time_sleep api seconds g) = count g) ->
  forall attempts last s,
    let r := GitHubClient._api_call_with_retry_from G api operation
               operation_name attempts last s in
    count (GitHubClient.github (snd r))
    <= count (GitHubClient.github s) + List.length attempts
    /\ (attempts = [] -> fst r = exhausted operation_name last)
    /\ (attempts <> [] ->
        count (GitHubClient.github s) < count (GitHubClient.github (snd r))
        /\ exists g, fst r = fst (operation g)).
Proof.
  intros Hop Hsleep.
  induction attempts as [| attempt rest IH]; intros last s r; subst r.
  - rewrite retry_end. cbn [fst snd GitHubClient.github List.length].
    split; [lia | split; [reflexivity | congruence]].
  - destruct (retry_step attempt rest last s) as [warning [_ ->]].
    pose proof (Hop (GitHubClient.github s)) as C.
    destruct (operation (GitHubClient.github s)) as [[a | e] g'] eqn:O;
      cbn [snd] in C.
    + cbn [fst snd GitHubClient.github List.length].
      split; [lia | split; [discriminate |]]. intros _.
      split; [lia |]. exists (GitHubClient.github s). now rewrite O.
    + destruct (retryable e).
      * match goal with
        | |- context [GitHubClient._api_call_with_retry_from G api operation
                        operation_name rest (Some e) ?t] =>
          specialize (IH (Some e) t); set (s1 := t) in *
        end.
        cbn zeta in IH. destruct IH as [Le [Nil Cons]].
        assert (C1 : count (GitHubClient.github s1)
                     = S (count (GitHubClient.github s)))
          by (subst s1; cbn [GitHubClient.github]; now rewrite Hsleep).
        cbn [List.length]. split; [lia | split; [discriminate |]]. intros _.
        destruct rest as [| next rest'].
        -- rewrite (Nil eq_refl). split.
           ++ rewrite retry_end. cbn [snd GitHubClient.github]. lia.
           ++ exists (GitHubClient.github s). now rewrite O.
        -- destruct Cons as [Lt Ex]; [discriminate |]. split; [lia | exact Ex].
      * cbn [fst snd GitHubClient.github List.length].
        split; [lia | split; [discriminate |]]. intros _.
        split; [lia |]. exists (GitHubClient.github s). now rewrite O.
Qed.

End RetryFacts.

(** [_api_call_with_retry] calls the operation at least once and at most
    [MAX_RETRIES] = 3 times, and its outcome is the outcome of one of those
    calls: what it returns the operation returned, what it raises the
    operation raised (the [RuntimeError] after the loop is never raised). *)
Theorem retry_calls_the_operation :
  forall (G A : Type) (api : GitHubClient.PyGithub G) (operation : M G A)
         (operation_name : string) (count : G -> nat)
         (s : GitHubClient.State G),
    (forall g, count (snd (operation g)) = S (count g)) ->
    (forall seconds g, count (GitHubClient.time_sleep api seconds g) = count g) ->
    let r := GitHubClient._api_call_with_retry G api operation operation_name s in
    count (GitHubClient.github s) < count (GitHubClient.github (snd r))
    /\ count (GitHubClient.github (snd r)) <= count (GitHubClient.github s) + 3
    /\ exists g, fst r = fst (operation g).
Proof.
  intros G A api operation operation_name count s Hop Hsleep r. subst r.
  unfold GitHubClient._api_call_with_retry.
  change (GitHubClient.range GitHubClient.MAX_RETRIES) with [0; 1; 2]%Z.
  destruct (retry_from_counts api operation operation_name count Hop Hsleep
              [0; 1; 2]%Z None s) as [Le [_ Cons]].
  destruct Cons as [Lt Ex]; [discriminate |].
  cbn [List.length] in Le. repeat split; [exact Lt | lia | exact Ex].
Qed.

Lemma retry_calls_the_operation_witness :
  let e := Demo.http 503 "Service Unavailable" in
  let r := GitHubClient._api_call_with_retry nat ticking (failing e)
             "get_repo(Automya/service-a)"
             {| GitHubClient.github := 0; GitHubClient.records := [] |} in
  fst r = Raised e
  /\ 0 < GitHubClient.github (snd r)
  /\ GitHubClient.github (snd r) <= 0 + 3
  /\ exists g, fst r = fst (failing e g).
Proof.
  intros e r. split; [reflexivity |].
  apply (retry_calls_the_operation nat unit ticking (failing e)
           "get_repo(Automya/service-a)" (fun n => n)
           {| GitHubClient.github := 0; GitHubClient.records := [] |});
    reflexivity.
Defined.

(** An operation that returns, or raises an exception that is not worth
    a retry (a [GithubException] that is neither a rate limit nor a 5xx),
    is called once: its outcome is passed on at once, nothing is slept and
    nothing is logged. *)
Theorem retry_first_attempt_decides :
  forall (G A : Type) (api : GitHubClient.PyGithub G) (operation : M G A)
         (operation_name : string) (s : GitHubClient.State G)
         (r : outcome A) (g' : G),
    operation (GitHubClient.github s) = (r, g') ->
    (forall e, r = Raised e -> retryable e = false) ->
    GitHubClient._api_call_with_retry G api operation operation_name s
    = (r, {| GitHubClient.github := g';
             GitHubClient.records := GitHubClient.records s |}).
Proof.
  intros G A api operation operation_name s r g' O N.
  unfold GitHubClient._api_call_with_retry.
  change (GitHubClient.range GitHubClient.MAX_RETRIES) with [0; 1; 2]%Z.
  destruct (retry_step api operation operation_name 0%Z [1; 2]%Z None s)
    as [warning [_ ->]].
  rewrite O. destruct r as [a | e]; [reflexivity |].
  now rewrite (N e eq_refl).
Qed.

Lemma retry_first_attempt_decides_witness :
  let e := Demo.http 404 "Not Found" in
  GitHubClient._api_call_with_retry nat ticking (failing e)
    "get_contents(.github/workflows/build.yml)"
    {| GitHubClient.github := 0; GitHubClient.records := [] |}
  = (Raised e, {| GitHubClient.github := 1; GitHubClient.records := [] |}).
Proof.
  intros e.
  apply (retry_first_attempt_decides nat unit ticking (failing e)
           "get_contents(.github/workflows/build.yml)"
           {| GitHubClient.github := 0; GitHubClient.records := [] |}
           (Raised e) 1).
  - reflexivity.
  - intros e' [= <-]. reflexivity.
Defined.

(** When the three attempts fail with exceptions worth a retry, the
    operation was called three times, each failure was followed by a
    warning and a sleep (of 2, 4 and 8 seconds, or of 60, 120 and 240 for a
    secondary rate limit), the last one included; then the error is logged
    and the exception of the third attempt is raised. *)
Theorem retry_gives_up_after_three :
  forall (G A : Type) (api : GitHubClient.PyGithub G) (operation : M G A)
         (operation_name : string) (s : GitHubClient.State G)
         (e0 e1 e2 : Exc) (g0 g1 g2 : G),
    let pause attempt e g :=
      GitHubClient.time_sleep api (inject_Z (backoff attempt e)) g in
    operation (GitHubClient.github s) = (Raised e0, g0) ->
    retryable e0 = true ->
    operation (pause 0%Z e0 g0) = (Raised e1, g1) ->
    retryable e1 = true ->
    operation (pause 1%Z e1 g1) = (Raised e2, g2) ->
    retryable e2 = true ->
    exists w0 w1 w2,
      GitHubClient.level w0 = GitHubClient.LWARNING
      /\ GitHubClient.level w1 = GitHubClient.LWARNING
      /\ GitHubClient.level w2 = GitHubClient.LWARNING
      /\ GitHubClient._api_call_with_retry G api operation operation_name s
         = (Raised e2,
            {| GitHubClient.github := pause 2%Z e2 g2;
               GitHubClient.records :=
                 (GitHubClient.records s
                  ++ [w0; w1; w2; retries_exhausted operation_name])%list |}).
Proof.
  intros G A api operation operation_name s e0 e1 e2 g0 g1 g2 pause
         O0 R0 O1 R1 O2 R2.
  unfold GitHubClient._api_call_with_retry.
  change (GitHubClient.range GitHubClient.MAX_RETRIES) with [0; 1; 2]%Z.
  destruct (retry_step api operation operation_name 0%Z [1; 2]%Z None s)
    as [w0 [L0 ->]].
  rewrite O0, R0.
  match goal with
  | |- context [GitHubClient._api_call_with_retry_from G api operation
                  operation_name [1; 2]%Z (Some e0) ?t] =>
    destruct (retry_step api operation operation_name 1%Z [2]%Z (Some e0) t)
      as [w1 [L1 ->]]
  end.
  cbn [GitHubClient.github GitHubClient.records]. fold (pause 0%Z e0 g0).
  rewrite O1, R1.
  match goal with
  | |- context [GitHubClient._api_call_with_retry_from G api operation
                  operation_name [2]%Z (Some e1) ?t] =>
    destruct (retry_step api operation operation_name 2%Z [] (Some e1) t)
      as [w2 [L2 ->]]
  end.
  cbn [GitHubClient.github GitHubClient.records]. fold (pause 1%Z e1 g1).
  rewrite O2, R2, retry_end.
  exists w0, w1, w2. repeat split; try assumption.
  cbn [GitHubClient.github GitHubClient.records exhausted].
  now rewrite <- !app_assoc.
Qed.

Lemma retry_gives_up_after_three_witness :
  let e := Demo.http 503 "Service Unavailable" in
  let unavailable : M Demo.Remote unit := fun g => (Raised e, g) in
  let r := GitHubClient._api_call_with_retry Demo.Remote Demo.api unavailable
             "get_repo(Automya/service-a)" (Demo.start Demo.remote) in
  fst r = Raised e
  /\ (exists w0 w1 w2,
         GitHubClient.level w0 = GitHubClient.LWARNING
         /\ GitHubClient.level w1 = GitHubClient.LWARNING
         /\ GitHubClient.level w2 = GitHubClient.LWARNING
         /\ GitHubClient.records (snd r)
            = [w0; w1; w2; retries_exhausted "get_repo(Automya/service-a)"])
  /\ Qeq (Demo.now (GitHubClient.github (snd r))) (Demo.now Demo.remote + 14).
Proof.
  intros e unavailable r.
  destruct (retry_gives_up_after_three Demo.Remote unit Demo.api unavailable
              "get_repo(Automya/service-a)" (Demo.start Demo.remote)
              e e e Demo.remote
              (GitHubClient.time_sleep Demo.api (inject_Z (backoff 0 e))
                 Demo.remote)
              (GitHubClient.time_sleep Demo.api (inject_Z (backoff 1 e))
                 (GitHubClient.time_sleep Demo.api (inject_Z (backoff 0 e))
                    Demo.remote))
              eq_refl eq_refl eq_refl eq_refl eq_refl eq_refl)
    as [w0 [w1 [w2 [L0 [L1 [L2 E]]]]]].
  fold r in E. rewrite E. cbn [fst snd GitHubClient.github GitHubClient.records].
  split; [reflexivity | split; [| reflexivity]].
  exists w0, w1, w2. repeat split; assumption.
Defined.

(** ** Repositories, files and the search *)
Section ClientFacts.

Context {G : Type}.
Variable api : GitHubClient.PyGithub G.
Variable calls : GitHubClientMore.Calls G.

(** The first attempt decides, for an outcome that is not worth a retry. *)
Lemma retry_once {A : Type} (operation : M G A) operation_name
  (s : GitHubClient.State G) r g' :
  operation (GitHubClient.github s) = (r, g') ->
  (forall e, r = Raised e -> retryable e = false) ->
  GitHubClient._api_call_with_retry G api operation operation_name s
  = (r, {| GitHubClient.github := g';
           GitHubClient.records := GitHubClient.records s |}).
Proof.
  intros O N. unfold GitHubClient._api_call_with_retry.
  change (GitHubClient.range GitHubClient.MAX_RETRIES) with [0; 1; 2]%Z.
  destruct (retry_step api operation operation_name 0%Z [1; 2]%Z None s)
    as [warning [_ ->]].
  rewrite O. destruct r as [a | e]; [reflexivity |].
  now rewrite (N e eq_refl).
Qed.

(** A handler that re-raises only what is no [GithubException]. *)
Lemma try_converts {S A : Type} (body : M S A) (handler : Exc -> M S A) s e :
  (forall x t e', is_GithubException x = true ->
     fst (handler x t) = Raised e' -> is_GithubException e' = false) ->
  fst (try_except_on is_GithubException body handler s) = Raised e ->
  is_GithubException e = false.
Proof.
  intros H. unfold try_except_on.
  destruct (body s) as [[a | x] t]; [discriminate |].
  destruct (is_GithubException x) eqn:Ix.
  - apply (H x t e Ix).
  - cbn. now intros [= <-].
Qed.

Lemma collect_repositories_listed items : forall repos (s : GitHubClient.State G),
  (forall r, In r items -> kept r = true ->
     exists b, Repository.default_branch (GitHubClientMore.found r) = Returned b) ->
  exists records,
    GitHubClientMore.collect_repositories G items repos s
    = (Returned (repos ++ List.map info_of (List.filter kept items))%list,
       logged s records).
Proof.
  induction items as [| r rest IH]; intros repos s H.
  - exists (GitHubClient.records s). cbn. unfold ret. rewrite app_nil_r.
    now destruct s.
  - assert (Hrest : forall r', In r' rest -> kept r' = true ->
              exists b, Repository.default_branch (GitHubClientMore.found r')
                        = Returned b)
      by (intros r' Hin; apply H; now right).
    cbn [GitHubClientMore.collect_repositories filter].
    assert (Step : forall acc t,
               GitHubClient.github t = GitHubClient.github s ->
               exists records,
                 GitHubClientMore.collect_repositories G rest acc t
                 = (Returned (acc ++ List.map info_of (List.filter kept rest))%list,
                    logged s records)).
    { intros acc t Ht. destruct (IH acc t Hrest) as [records E].
      exists records. rewrite E. unfold logged. now rewrite Ht. }
    destruct (kept r) eqn:K; cbn [map].
    + destruct (H r (or_introl eq_refl) K) as [b Hb].
      unfold kept in K.
      destruct (Repository.archived (GitHubClientMore.found r)) eqn:Ar;
        [discriminate |].
      destruct (GitHubClientMore.permissions r) as [[[|] |] | e] eqn:P;
        try discriminate;
        unfold try_except, try_except_on, bind, attr, ret, GitHubClient.log;
        cbn [fst snd]; rewrite Hb;
        match goal with
        | |- context [GitHubClientMore.collect_repositories G rest ?acc ?t] =>
          destruct (Step acc t eq_refl) as [records E]
        end;
        exists records; rewrite E, <- app_assoc; cbn [app];
        unfold info_of; rewrite Hb; unfold truthy_str;
        destruct b; reflexivity.
    + unfold kept in K.
      destruct (Repository.archived (GitHubClientMore.found r)) eqn:Ar.
      * unfold bind, GitHubClient.log. now apply Step.
      * destruct (GitHubClientMore.permissions r) as [[[|] |] | e] eqn:P;
          try discriminate.
        unfold try_except, try_except_on, bind, attr, ret, GitHubClient.log;
          cbn [fst snd].
        now apply Step.
Qed.

End ClientFacts.

(** [get_repository] lets no [GithubException] through.  What
    [github.get_repo] returns it returns; a GitHub error that is not worth
    a retry it turns, after that one call, into [SourceRepoError] for a
    404, [AuthenticationError] for a 401 and [RepositoryAccessError]
    otherwise. *)
Theorem get_repository_translates_errors :
  forall (G : Type) (api : GitHubClient.PyGithub G)
         (calls : GitHubClientMore.Calls G) (full_name : string)
         (s : GitHubClient.State G),
    (forall e,
        fst (GitHubClientMore.get_repository G api calls full_name s) = Raised e ->
        is_GithubException e = false)
    /\ (forall repo g',
        GitHubClientMore.github_get_repo calls full_name (GitHubClient.github s)
          = (Returned repo, g') ->
        GitHubClientMore.get_repository G api calls full_name s
        = (Returned repo,
           {| GitHubClient.github := g';
              GitHubClient.records := GitHubClient.records s |}))
    /\ (forall g g',
        GitHubClientMore.github_get_repo calls full_name (GitHubClient.github s)
          = (Raised (GithubException g), g') ->
        retryable (GithubException g) = false ->
        GitHubClientMore.get_repository G api calls full_name s
        = (Raised
             (if (gh_status g =? 404)%Z then
                SourceRepoError ("Repository not found: " ++ full_name)
              else if (gh_status g =? 401)%Z then
                AuthenticationError "Invalid GitHub token"
              else
                RepositoryAccessError
                  ("Error accessing repository " ++ full_name ++ ": "
                   ++ GitHubClientMore._extract_error G calls
                        (GithubException g))),
           {| GitHubClient.github := g';
              GitHubClient.records := GitHubClient.records s |})).
Proof.
  intros G api calls full_name s. split; [| split].
  - intros e. unfold GitHubClientMore.get_repository. apply try_converts.
    intros x t e' Ix. destruct x as [g | | | | | | | |]; try discriminate.
    destruct (gh_status g =? 404)%Z; [now intros [= <-] |].
    destruct (gh_status g =? 401)%Z; now intros [= <-].
  - intros repo g' O. unfold GitHubClientMore.get_repository, try_except_on.
    rewrite (retry_once api _ _ s (Returned repo) g' O); [reflexivity |].
    discriminate.
  - intros g g' O N. unfold GitHubClientMore.get_repository, try_except_on.
    rewrite (retry_once api _ _ s (Raised (GithubException g)) g' O).
    2:{ now intros e [= <-]. }
    cbn [is_GithubException].
    destruct (gh_status g =? 404)%Z; [reflexivity |].
    destruct (gh_status g =? 401)%Z; reflexivity.
Qed.

Lemma get_repository_translates_errors_witness :
  GitHubClientMore.get_repository Demo.Remote demo_api demo_calls
    "Automya/service-x" (Demo.start Demo.remote)
  = (Raised (SourceRepoError "Repository not found: Automya/service-x"),
     Demo.start Demo.remote).
Proof.
  apply (proj2 (proj2 (get_repository_translates_errors Demo.Remote demo_api
                         demo_calls "Automya/service-x"
                         (Demo.start Demo.remote)))
           {| gh_status := 404;
              gh_secondary := false;
              gh_rate_limit_exceeded := false;
              gh_text := "Not Found" |}
           Demo.remote); reflexivity.
Defined.

(** [get_file_content] answers [None] both for a path that is not there
    (a 404, after one call) and for a path that is a directory; for a file
    it gives the decoded text and the blob SHA.  A [GithubException] that
    leaves it is never a 404. *)
Theorem get_file_content_absent_or_directory :
  forall (G : Type) (api : GitHubClient.PyGithub G)
         (calls : GitHubClientMore.Calls G) (repo : Repository.t)
         (path : string) (s : GitHubClient.State G),
    let after g' :=
      {| GitHubClient.github := g';
         GitHubClient.records := GitHubClient.records s |} in
    (forall entries g',
        GitHubClient.repo_get_contents api repo path (GitHubClient.github s)
          = (Returned (GitHubClient.Listing entries), g') ->
        GitHubClientMore.get_file_content G api repo path s
        = (Returned None, after g'))
    /\ (forall g g',
        GitHubClient.repo_get_contents api repo path (GitHubClient.github s)
          = (Raised (GithubException g), g') ->
        gh_status g = 404%Z ->
        gh_rate_limit_exceeded g = false ->
        GitHubClientMore.get_file_content G api repo path s
        = (Returned None, after g'))
    /\ (forall c text g',
        GitHubClient.repo_get_contents api repo path (GitHubClient.github s)
          = (Returned (GitHubClient.OneFile c), g') ->
        GitHubClient.cf_decoded c = Returned text ->
        GitHubClientMore.get_file_content G api repo path s
        = (Returned (Some (text, GitHubClient.cf_sha c)), after g'))
    /\ (forall g,
        fst (GitHubClientMore.get_file_content G api repo path s)
          = Raised (GithubException g) ->
        gh_status g <> 404%Z).
Proof.
  intros G api calls repo path s after. subst after. cbn beta.
  unfold GitHubClientMore.get_file_content, try_except_on, bind.
  split; [| split; [| split]].
  - intros entries g' O.
    rewrite (retry_once api _ _ s _ g' O); [reflexivity | discriminate].
  - intros g g' O S404 Rl.
    rewrite (retry_once api _ _ s _ g' O).
    + cbn [is_GithubException]. now rewrite S404.
    + intros e [= <-]. unfold retryable. now rewrite Rl, S404.
  - intros c text g' O D.
    rewrite (retry_once api _ _ s _ g' O); [| discriminate].
    unfold attr. now rewrite D.
  - intros g.
    destruct (GitHubClient._api_call_with_retry G api
                (GitHubClient.repo_get_contents api repo path) _ s)
      as [[[c | entries] | e] t].
    + unfold attr, ret. destruct (GitHubClient.cf_decoded c) as [text | e];
        [discriminate |].
      destruct e as [g0 | | | | | | | |]; cbn; try discriminate.
      destruct (gh_status g0 =? 404)%Z eqn:E; [discriminate |].
      cbn. intros [= <-]. now apply Z.eqb_neq.
    + discriminate.
    + destruct e as [g0 | | | | | | | |]; cbn; try discriminate.
      destruct (gh_status g0 =? 404)%Z eqn:E; [discriminate |].
      cbn. intros [= <-]. now apply Z.eqb_neq.
Qed.

Lemma get_file_content_absent_or_directory_witness :
  GitHubClientMore.get_file_content Demo.Remote demo_api Demo.repo_a
    ".github/workflows" (Demo.start Demo.remote)
  = (Returned None, Demo.start Demo.remote)
  /\ GitHubClientMore.get_file_content Demo.Remote demo_api Demo.repo_a
       ".github/workflows/deploy.yml" (Demo.start Demo.remote)
     = (Returned None, Demo.start Demo.remote).
Proof.
  pose proof (get_file_content_absent_or_directory Demo.Remote demo_api
                demo_calls Demo.repo_a ".github/workflows"
                (Demo.start Demo.remote)) as [Dir _].
  pose proof (get_file_content_absent_or_directory Demo.Remote demo_api
                demo_calls Demo.repo_a ".github/workflows/deploy.yml"
                (Demo.start Demo.remote)) as [_ [Absent _]].
  split.
  - apply (Dir [Demo.file "build.yml" (Demo.build_yml ++ nl ++ " ") "a1"]
             Demo.remote).
    reflexivity.
  - apply (Absent {| gh_status := 404;
                     gh_secondary := false;
                     gh_rate_limit_exceeded := false;
                     gh_text := "Not Found" |} Demo.remote); reflexivity.
Defined.

(** [search_repositories_by_topic] lets no [GithubException] through.
    When the search yields [items], it returns the description of those
    that are not archived and whose permissions do not deny pushing, in
    order, with [main] for an empty default branch; but when the iteration
    is ended by a [GithubException] it returns the empty list, dropping
    what had been collected. *)
Theorem search_keeps_pushable_repositories :
  forall (G : Type) (api : GitHubClient.PyGithub G)
         (calls : GitHubClientMore.Calls G) (org topic : string)
         (s : GitHubClient.State G),
    let found :=
      GitHubClientMore.search_repositories_by_topic G api calls org topic s in
    (forall e, fst found = Raised e -> is_GithubException e = false)
    /\ (forall items stopped g',
        GitHubClientMore.github_search_repositories calls
          ("org:" ++ org ++ " topic:" ++ topic) (GitHubClient.github s)
          = (Returned (items, stopped), g') ->
        (forall r, In r items -> kept r = true ->
           exists b,
             Repository.default_branch (GitHubClientMore.found r) = Returned b) ->
        fst found
        = match stopped with
          | None => Returned (List.map info_of (List.filter kept items))
          | Some e => if is_GithubException e then Returned [] else Raised e
          end
        /\ GitHubClient.github (snd found) = g').
Proof.
  intros G api calls org topic s found. subst found. split.
  - intros e. unfold GitHubClientMore.search_repositories_by_topic.
    apply try_converts. intros x t e' _. discriminate.
  - intros items stopped g' O D.
    unfold GitHubClientMore.search_repositories_by_topic, try_except_on, bind.
    rewrite (retry_once api _ _ s _ g' O); [| discriminate].
    cbn [fst snd].
    destruct (collect_repositories_listed items []
                {| GitHubClient.github := g';
                   GitHubClient.records := GitHubClient.records s |} D)
      as [records ->].
    cbn [app]. destruct stopped as [e |]; [| split; reflexivity].
    unfold raise. destruct (is_GithubException e); split; reflexivity.
Qed.

Lemma search_keeps_pushable_repositories_witness :
  let found :=
    GitHubClientMore.search_repositories_by_topic Demo.Remote demo_api
      demo_calls "Automya" "microservice" (Demo.start Demo.remote) in
  fst found
  = Returned [Demo.info "ci-templates" false; Demo.info "service-a" false;
              Demo.info "service-c" false]
  /\ GitHubClient.github (snd found) = Demo.remote.
Proof.
  intros found.
  apply (proj2 (search_keeps_pushable_repositories Demo.Remote demo_api
                  demo_calls "Automya" "microservice"
                  (Demo.start Demo.remote))
           (searched Demo.remote) None Demo.remote).
  - reflexivity.
  - intros r Hin _. exists "main". vm_compute in Hin.
    repeat (destruct Hin as [<- | Hin]; [reflexivity |]). contradiction.
Defined.

(** ** Listings of workflow files *)
Section ListingFacts.

Context {G : Type}.
Variable api : GitHubClient.PyGithub G.

Lemma dict_set_fresh (d : dict) k v :
  ~ In k (List.map fst d) -> dict_set d k v = (d ++ [(k, v)])%list.
Proof.
  induction d as [| [k' v'] d IH]; simpl; intros N; [reflexivity |].
  destruct (String.eqb_spec k' k) as [-> | _]; [tauto |].
  rewrite IH; [reflexivity | tauto].
Qed.

Lemma collect_filenames_filter entries : forall filenames,
  GitHubClientMore.collect_filenames entries filenames
  = (filenames
     ++ List.map GitHubClient.cf_name (List.filter is_workflow_entry entries))%list.
Proof.
  induction entries as [| c rest IH]; intros filenames; simpl.
  - now rewrite app_nil_r.
  - fold (is_workflow_entry c). destruct (is_workflow_entry c); rewrite IH.
    + simpl. now rewrite <- app_assoc.
    + reflexivity.
Qed.

Lemma collect_workflows_filter entries : forall (workflows : dict)
  (s : GitHubClient.State G),
  (forall c, In c entries -> is_workflow_entry c = true ->
     exists text, GitHubClient.cf_decoded c = Returned text) ->
  NoDup (List.map fst workflows
         ++ List.map GitHubClient.cf_name
              (List.filter is_workflow_entry entries))%list ->
  GitHubClient.collect_workflows G entries workflows s
  = (Returned
       (workflows
        ++ List.map decoded_entry (List.filter is_workflow_entry entries))%list,
     s).
Proof.
  induction entries as [| c rest IH]; intros workflows s D N; simpl.
  - unfold ret. now rewrite app_nil_r.
  - fold (is_workflow_entry c).
    assert (Drest : forall c', In c' rest -> is_workflow_entry c' = true ->
              exists text, GitHubClient.cf_decoded c' = Returned text)
      by (intros c' Hin; apply D; now right).
    simpl in N. destruct (is_workflow_entry c) eqn:W.
    + destruct (D c (or_introl eq_refl) W) as [text Ht].
      unfold bind, attr. rewrite Ht. simpl in N.
      apply NoDup_remove in N as [N1 N2].
      rewrite dict_set_fresh.
      2:{ intros Hin. apply N2. apply in_or_app. now left. }
      rewrite IH; [| exact Drest |].
      * simpl. unfold decoded_entry at 2. rewrite Ht.
        now rewrite <- app_assoc.
      * rewrite map_app. simpl. rewrite <- app_assoc. simpl.
        apply NoDup_app_remove_l in N1 as Nr.
        clear - N1 N2.
        revert N1 N2. generalize (map fst workflows) as ks.
        generalize (map GitHubClient.cf_name (filter is_workflow_entry rest))
          as ns.
        intros ns ks N1 N2.
        induction ks as [| k ks IHk]; simpl in *.
        -- constructor; [| exact N1]. intros H. apply N2. exact H.
        -- inversion N1 as [| x l Hx Hl]; subst. constructor.
           ++ intros H. apply in_app_or in H. destruct H as [H | [H | H]].
              ** apply Hx. apply in_or_app. now left.
              ** subst. apply N2. now left.
              ** apply Hx. apply in_or_app. now right.
           ++ apply IHk; [exact Hl |]. intros H. apply N2. now right.
    + now apply IH.
Qed.

End ListingFacts.

(** For a listing whose workflow files have distinct names and decode,
    [get_workflow_files] returns the entries of type [file] named [*.yml]
    or [*.yaml], in order, with their text, and [get_workflow_filenames]
    returns the keys of that dict.  When the path answers 404 the first
    raises [SourceRepoError] and the second returns the empty list. *)
Theorem workflow_files_and_names_agree :
  forall (G : Type) (api : GitHubClient.PyGithub G) (repo : Repository.t)
         (path : string) (s : GitHubClient.State G),
    let files := GitHubClient.get_workflow_files G api repo path s in
    let names := GitHubClientMore.get_workflow_filenames G api repo path s in
    (forall contents g',
        GitHubClient.repo_get_contents api repo path (GitHubClient.github s)
          = (Returned contents, g') ->
        (forall c, In c (entries_of contents) -> is_workflow_entry c = true ->
           exists text, GitHubClient.cf_decoded c = Returned text) ->
        NoDup (List.map GitHubClient.cf_name
                 (List.filter is_workflow_entry (entries_of contents))) ->
        fst files
        = Returned (List.map decoded_entry
                      (List.filter is_workflow_entry (entries_of contents)))
        /\ fst names
           = Returned (List.map GitHubClient.cf_name
                         (List.filter is_workflow_entry (entries_of contents)))
        /\ forall d l,
            fst files = Returned d -> fst names = Returned l ->
            List.map fst d = l)
    /\ (forall g g',
        GitHubClient.repo_get_contents api repo path (GitHubClient.github s)
          = (Raised (GithubException g), g') ->
        gh_status g = 404%Z ->
        gh_rate_limit_exceeded g = false ->
        fst files = Raised (SourceRepoError ("Workflows path not found: " ++ path))
        /\ fst names = Returned []).
Proof.
  intros G api repo path s files names. subst files names. split.
  - intros contents g' O D N.
    assert (F : fst (GitHubClient.get_workflow_files G api repo path s)
                = Returned (List.map decoded_entry
                              (List.filter is_workflow_entry
                                 (entries_of contents)))).
    { unfold GitHubClient.get_workflow_files, try_except_on, bind.
      rewrite (retry_once api _ _ s _ g' O); [| discriminate].
      change (match contents with
              | GitHubClient.OneFile c => [c]
              | GitHubClient.Listing l => l
              end) with (entries_of contents).
      rewrite (collect_workflows_filter (entries_of contents) [] _ D N).
      reflexivity. }
    assert (L : fst (GitHubClientMore.get_workflow_filenames G api repo path s)
                = Returned (List.map GitHubClient.cf_name
                              (List.filter is_workflow_entry
                                 (entries_of contents)))).
    { unfold GitHubClientMore.get_workflow_filenames, try_except_on, bind.
      rewrite (retry_once api _ _ s _ g' O); [| discriminate].
      unfold ret. cbn [fst].
      change (match contents with
              | GitHubClient.Listing l => l
              | GitHubClient.OneFile c => [c]
              end) with (entries_of contents).
      now rewrite collect_filenames_filter. }
    split; [exact F | split; [exact L |]].
    intros d l Hd Hl. rewrite F in Hd. rewrite L in Hl.
    injection Hd as <-. injection Hl as <-.
    rewrite map_map. reflexivity.
  - intros g g' O S404 Rl.
    assert (N : forall e, Raised (A := GitHubClient.Contents) (GithubException g)
                          = Raised e -> retryable e = false).
    { intros e [= <-]. unfold retryable. now rewrite Rl, S404. }
    split.
    + unfold GitHubClient.get_workflow_files, try_except_on, bind.
      rewrite (retry_once api _ _ s _ g' O N).
      cbn [is_GithubException]. now rewrite S404.
    + unfold GitHubClientMore.get_workflow_filenames, try_except_on, bind.
      rewrite (retry_once api _ _ s _ g' O N).
      cbn [is_GithubException]. now rewrite S404.
Qed.

Lemma workflow_files_and_names_agree_witness :
  fst (GitHubClient.get_workflow_files Demo.Remote demo_api Demo.source
         WORKFLOWS_PATH (Demo.start Demo.remote))
  = Returned Demo.desired
  /\ fst (GitHubClientMore.get_workflow_filenames Demo.Remote demo_api
            Demo.source WORKFLOWS_PATH (Demo.start Demo.remote))
     = Returned ["build.yml"; "deploy.yml"].
Proof.
  destruct (proj1 (workflow_files_and_names_agree Demo.Remote demo_api
                     Demo.source WORKFLOWS_PATH (Demo.start Demo.remote))
              (GitHubClient.Listing
                 [Demo.file "build.yml" Demo.build_yml "s1";
                  Demo.file "deploy.yml" Demo.deploy_yml "s2";
                  Demo.file "README.md" "notes" "s3"])
              Demo.remote) as [F [L _]].
  - reflexivity.
  - intros c Hin _. cbn in Hin.
    repeat (destruct Hin as [<- | Hin]; [eexists; reflexivity |]).
    contradiction.
  - vm_compute. repeat constructor; cbn; intuition discriminate.
  - split; [exact F | exact L].
Defined.

(** ** Pacing on the rate limit *)
Section PacingFacts.

Context {G : Type}.
Variable api : GitHubClient.PyGithub G.

(** Waiting for the reset sleeps at most [MAX_RATE_LIMIT_WAIT] seconds,
    or not at all. *)
Lemma wait_for_reset_bounded reset_time remaining limit_type
  (s : GitHubClient.State G) :
  exists s',
    GitHubClient._wait_for_rate_limit_reset G api reset_time remaining
      limit_type s = (Returned tt, s')
    /\ (GitHubClient.github s' = GitHubClient.github s
        \/ exists seconds,
             (0 < seconds)%Q /\ (seconds <= 300)%Q
             /\ GitHubClient.github s'
                = GitHubClient.time_sleep api seconds (GitHubClient.github s)).
Proof.
  unfold GitHubClient._wait_for_rate_limit_reset.
  set (wait := (GitHubClient.dt_timestamp reset_time
                - GitHubClient.datetime_now api (GitHubClient.github s) + 5)%Q).
  destruct (Qle_bool wait 0) eqn:Z0; cbn [negb].
  - eexists. split; [reflexivity | now left].
  - assert (P : (0 < wait)%Q).
    { apply Qnot_le_lt. intros H. apply Qle_bool_iff in H. congruence. }
    unfold bind, GitHubClient.log, GitHubClient.sleep.
    eexists. split; [reflexivity |]. right. cbn [GitHubClient.github].
    destruct (Qle_bool wait (inject_Z GitHubClient.MAX_RATE_LIMIT_WAIT)) eqn:L.
    + exists wait. split; [exact P | split; [| reflexivity]].
      now apply Qle_bool_iff in L.
    + exists (inject_Z GitHubClient.MAX_RATE_LIMIT_WAIT).
      split; [reflexivity | split; [| reflexivity]]. discriminate.
Qed.

End PacingFacts.

(** [handle_post_operation_rate_limit] never raises.  It sleeps one
    second when at least 50 calls remain, two seconds when the rate limit
    cannot be read, and in every case either not at all or for at most
    [MAX_RATE_LIMIT_WAIT] = 300 seconds. *)
Theorem pacing_waits_are_capped :
  forall (G : Type) (api : GitHubClient.PyGithub G) (s : GitHubClient.State G),
    let paced := GitHubClient.handle_post_operation_rate_limit G api s in
    let g1 := snd (GitHubClient.get_rate_limit api (GitHubClient.github s)) in
    fst paced = Returned tt
    /\ (GitHubClient.github (snd paced) = g1
        \/ exists seconds,
             (0 < seconds)%Q /\ (seconds <= 300)%Q
             /\ GitHubClient.github (snd paced)
                = GitHubClient.time_sleep api seconds g1)
    /\ (forall limit,
        fst (GitHubClient.get_rate_limit api (GitHubClient.github s))
          = Returned limit ->
        (50 <= GitHubClient.remaining (GitHubClient.core limit))%Z ->
        snd paced
        = {| GitHubClient.github := GitHubClient.time_sleep api 1 g1;
             GitHubClient.records := GitHubClient.records s |})
    /\ (forall e,
        fst (GitHubClient.get_rate_limit api (GitHubClient.github s))
          = Raised e ->
        GitHubClient.github (snd paced) = GitHubClient.time_sleep api 2 g1).
Proof.
  intros G api s paced g1. subst paced g1.
  unfold GitHubClient.handle_post_operation_rate_limit, try_except,
    try_except_on, bind, GitHubClient.gh.
  destruct (GitHubClient.get_rate_limit api (GitHubClient.github s))
    as [[limit | e] g1]; cbn [fst snd].
  - destruct (GitHubClient.remaining (GitHubClient.core limit) <? 10)%Z eqn:L10.
    + destruct (wait_for_reset_bounded api
                  (GitHubClient.reset (GitHubClient.core limit))
                  (GitHubClient.remaining (GitHubClient.core limit))
                  "Core API"
                  {| GitHubClient.github := g1;
                     GitHubClient.records := GitHubClient.records s |})
        as [s' [-> B]].
      cbn [fst snd]. split; [reflexivity | split; [exact B | split]].
      * intros limit' [= <-] H. apply Z.ltb_lt in L10. lia.
      * discriminate.
    + destruct (GitHubClient.remaining (GitHubClient.core limit)
                <? GitHubClient.RATE_LIMIT_THRESHOLD)%Z eqn:L50;
        unfold GitHubClient.sleep; cbn [fst snd GitHubClient.github].
      * split; [reflexivity | split; [| split]].
        -- right. exists 2%Q. repeat split; discriminate.
        -- intros limit' [= <-] H. apply Z.ltb_lt in L50.
           unfold GitHubClient.RATE_LIMIT_THRESHOLD in L50. lia.
        -- discriminate.
      * split; [reflexivity | split; [| split]].
        -- right. exists 1%Q. repeat split; discriminate.
        -- reflexivity.
        -- discriminate.
  - unfold GitHubClient.log, GitHubClient.sleep.
    cbn [fst snd GitHubClient.github].
    split; [reflexivity | split; [| split]].
    + right. exists 2%Q. repeat split; discriminate.
    + discriminate.
    + reflexivity.
Qed.

Lemma pacing_waits_are_capped_witness :
  snd (GitHubClient.handle_post_operation_rate_limit Demo.Remote Demo.api
         (Demo.start Demo.remote))
  = {| GitHubClient.github := GitHubClient.time_sleep Demo.api 1 Demo.remote;
       GitHubClient.records := [] |}
  /\ GitHubClient.github
       (snd (GitHubClient.handle_post_operation_rate_limit Demo.Remote Demo.api
               (Demo.start Demo.throttled)))
     = GitHubClient.time_sleep Demo.api 2 Demo.throttled.
Proof.
  split.
  - apply (proj1 (proj2 (proj2 (pacing_waits_are_capped Demo.Remote Demo.api
                                  (Demo.start Demo.remote))))
             {| GitHubClient.core :=
                  {| GitHubClient.remaining := 4990;
                     GitHubClient.reset :=
                       {| GitHubClient.dt_timestamp :=
                            Qplus (Demo.now Demo.remote) 3600;
                          GitHubClient.dt_str := "2023-11-14 23:13:20+00:00" |} |};
                GitHubClient.search :=
                  Some {| GitHubClient.remaining := 29;
                          GitHubClient.reset :=
                            {| GitHubClient.dt_timestamp :=
                                 Qplus (Demo.now Demo.remote) 3600;
                               GitHubClient.dt_str :=
                                 "2023-11-14 23:13:20+00:00" |} |} |}).
    + reflexivity.
    + cbn. lia.
  - apply (proj2 (proj2 (proj2 (pacing_waits_are_capped Demo.Remote Demo.api
                                  (Demo.start Demo.throttled))))
             Demo.connection_reset).
    reflexivity.
Defined.

(** [check_rate_limit] reads the core limit, or the search limit when
    asked (the core one if there is none).  With at least 50 calls left
    (5 for the search) it logs and returns without sleeping.  When the rate
    limit cannot be read because of a [GithubException] it logs a warning
    and returns; any other exception leaves it. *)
Theorem rate_limit_check_waits_only_when_low :
  forall (G : Type) (api : GitHubClient.PyGithub G) (is_search : bool)
         (s : GitHubClient.State G),
    let checked := GitHubClient.check_rate_limit G api is_search s in
    (forall limit g1,
        GitHubClient.get_rate_limit api (GitHubClient.github s)
          = (Returned limit, g1) ->
        let read :=
          if is_search
          then match GitHubClient.search limit with
               | Some l => l
               | None => GitHubClient.core limit
               end
          else GitHubClient.core limit in
        ((if is_search then 5 else 50) <= GitHubClient.remaining read)%Z ->
        fst checked = Returned tt
        /\ GitHubClient.github (snd checked) = g1
        /\ List.length (GitHubClient.records (snd checked))
           = S (List.length (GitHubClient.records s)))
    /\ (forall e g1,
        GitHubClient.get_rate_limit api (GitHubClient.github s)
          = (Raised e, g1) ->
        checked
        = if is_GithubException e then
            (Returned tt,
             {| GitHubClient.github := g1;
                GitHubClient.records :=
                  (GitHubClient.records s
                   ++ [GitHubClient.mkLog GitHubClient.LWARNING
                         ("No se pudo verificar rate limit: "
                          ++ str_of_exc e)])%list |})
          else
            (Raised e,
             {| GitHubClient.github := g1;
                GitHubClient.records := GitHubClient.records s |})).
Proof.
  intros G api is_search s checked. subst checked.
  unfold GitHubClient.check_rate_limit, try_except_on, bind, GitHubClient.gh.
  split.
  - intros limit g1 O H. rewrite O. cbn [fst snd].
    destruct is_search; cbn iota beta zeta in *;
      unfold GitHubClient.log at 1; cbn [fst snd].
    + unfold GitHubClient.SEARCH_RATE_LIMIT_THRESHOLD.
      apply Z.ltb_ge in H. rewrite H. unfold ret. cbn.
      split; [reflexivity | split; [reflexivity |]].
      rewrite length_app. cbn. lia.
    + unfold GitHubClient.RATE_LIMIT_THRESHOLD.
      apply Z.ltb_ge in H. rewrite H. unfold ret. cbn.
      split; [reflexivity | split; [reflexivity |]].
      rewrite length_app. cbn. lia.
  - intros e g1 O. rewrite O. cbn [fst snd].
    now destruct (is_GithubException e).
Qed.

Lemma rate_limit_check_waits_only_when_low_witness :
  GitHubClient.check_rate_limit Demo.Remote Demo.api false
    (Demo.start Demo.throttled)
  = (Raised Demo.connection_reset, Demo.start Demo.throttled).
Proof.
  apply (proj2 (rate_limit_check_waits_only_when_low Demo.Remote Demo.api false
                  (Demo.start Demo.throttled))
           Demo.connection_reset Demo.throttled).
  reflexivity.
Defined.

(** ** Merging a pull request *)
Section MergeFacts.

Context {G : Type}.
Variable api : GitHubClient.PyGithub G.
Variable calls : GitHubClientMore.Calls G.
Variable lower : string -> string.
Variable repo : Repository.t.
Variable pr_number : Z.
Variable merge_method : string.
Variable max_retries : Z.

Lemma merge_attempts_true attempts : forall pr (s : GitHubClient.State G),
  fst (GitHubClientMore.merge_attempts G api calls lower repo pr_number
         merge_method max_retries attempts pr s) = Returned true ->
  exists g,
    fst (GitHubClientMore.pr_merge calls repo pr_number merge_method g)
    = Returned true.
Proof.
  induction attempts as [| attempt rest IH]; intros pr s;
    [discriminate |].
  cbn [GitHubClientMore.merge_attempts].
  destruct (GitHubClientMore.pr_mergeable pr) as [[|] |]; try discriminate;
    (unfold GitHubClient.gh at 1;
     destruct (GitHubClientMore.pr_merge calls repo pr_number merge_method
                 (GitHubClient.github s)) as [[merged | e] g'] eqn:O;
     [ cbn [fst]; intros [= ->]; exists (GitHubClient.github s); now rewrite O
     | destruct (is_GithubException e); [| discriminate];
       cbn zeta; destruct (_ && _); [| discriminate];
       unfold bind at 1; unfold GitHubClient.log at 1; unfold bind at 1;
       destruct (GitHubClientMore.update_branch G calls repo pr_number _)
         as [[[|] | e'] s2]; try discriminate;
       unfold bind at 1; unfold GitHubClient.sleep at 1; unfold bind at 1;
       destruct (GitHubClient.gh G
                   (GitHubClientMore.repo_get_pull calls repo pr_number) _)
         as [[pr' | e''] s3]; [apply IH | discriminate] ]).
Qed.

Lemma range_positive n :
  (0 < n)%Z -> exists rest, GitHubClient.range n = 0%Z :: rest.
Proof.
  intros H. unfold GitHubClient.range.
  destruct (Z.to_nat n) as [| k] eqn:E; [lia |]. eexists. reflexivity.
Qed.

Lemma range_nonpositive n : (n <= 0)%Z -> GitHubClient.range n = [].
Proof.
  intros H. unfold GitHubClient.range.
  now replace (Z.to_nat n) with 0 by lia.
Qed.

End MergeFacts.

(** [merge_pull_request] answers [True] only when a call of [pr.merge]
    reported the merge.  For a pull request GitHub says is not mergeable
    it logs a warning and answers [False] without calling [pr.merge]; with
    [max_retries] at most 0 it answers [False] having only fetched the pull
    request. *)
Theorem merge_reports_only_real_merges :
  forall (G : Type) (api : GitHubClient.PyGithub G)
         (calls : GitHubClientMore.Calls G) (lower : string -> string)
         (repo : Repository.t) (pr_number : Z) (merge_method : string)
         (max_retries : Z) (s : GitHubClient.State G),
    let merged :=
      GitHubClientMore.merge_pull_request G api calls lower repo pr_number
        merge_method max_retries s in
    (fst merged = Returned true ->
     exists g,
       fst (GitHubClientMore.pr_merge calls repo pr_number merge_method g)
       = Returned true)
    /\ (forall pr g',
        GitHubClientMore.repo_get_pull calls repo pr_number
          (GitHubClient.github s) = (Returned pr, g') ->
        GitHubClientMore.pr_mergeable pr = Some false ->
        (0 < max_retries)%Z ->
        merged
        = (Returned false,
           {| GitHubClient.github := g';
              GitHubClient.records :=
                (GitHubClient.records s
                 ++ [GitHubClient.mkLog GitHubClient.LWARNING
                       ("PR #" ++ str_of_int pr_number
                        ++ " no es mergeable (posible conflicto)")])%list |}))
    /\ (forall pr g',
        GitHubClientMore.repo_get_pull calls repo pr_number
          (GitHubClient.github s) = (Returned pr, g') ->
        (max_retries <= 0)%Z ->
        merged
        = (Returned false,
           {| GitHubClient.github := g';
              GitHubClient.records := GitHubClient.records s |})).
Proof.
  intros G api calls lower repo pr_number merge_method max_retries s merged.
  subst merged. unfold GitHubClientMore.merge_pull_request, bind.
  split; [| split].
  - unfold GitHubClient.gh at 1. destruct (GitHubClientMore.repo_get_pull calls repo pr_number
                (GitHubClient.github s)) as [[pr | e] g']; [| discriminate].
    apply merge_attempts_true.
  - intros pr g' O M P. unfold GitHubClient.gh at 1. rewrite O.
    destruct (range_positive max_retries P) as [rest ->].
    cbn [GitHubClientMore.merge_attempts]. rewrite M. reflexivity.
  - intros pr g' O N. unfold GitHubClient.gh at 1.
    rewrite O, (range_nonpositive max_retries N).
    reflexivity.
Qed.

Lemma merge_reports_only_real_merges_witness :
  GitHubClientMore.merge_pull_request Demo.Remote demo_api demo_calls
    ascii_lower Demo.repo_c 7 "squash" 3 (Demo.start Demo.remote)
  = (Returned false,
     {| GitHubClient.github := Demo.remote;
        GitHubClient.records :=
          [GitHubClient.mkLog GitHubClient.LWARNING
             "PR #7 no es mergeable (posible conflicto)"] |}).
Proof.
  apply (proj1 (proj2 (merge_reports_only_real_merges Demo.Remote demo_api
                         demo_calls ascii_lower Demo.repo_c 7 "squash" 3
                         (Demo.start Demo.remote)))
           {| GitHubClientMore.pr_html_url :=
                Demo.pull_url "Automya/service-c" 7;
              GitHubClientMore.pr_number := 7;
              GitHubClientMore.pr_mergeable := Some false |}
           Demo.remote).
  - reflexivity.
  - reflexivity.
  - lia.
Defined.

(* ================================================================== *)
(** * More on the service *)
(* ================================================================== *)

(** ** The two strategies, on any gateway *)
Section AnyGateway.

Context {W : Type}.
Variable client : IGitHubClient.t W.
Variable rt : Runtime W.
Variable config : SyncConfig.

Lemma yields_with_locals {A : Type} (Q : A -> Prop) init
  (c : M (Locals * Service W) A) :
  yields Q c -> yields Q (with_locals init c).
Proof.
  intros H s a s' E. unfold with_locals in E.
  destruct (c (init, s)) as [r [l t]] eqn:C. injection E as -> _.
  eapply H. exact C.
Qed.

Lemma create_sync_pr_named repo changes :
  yields (named_after repo) (_create_sync_pr client rt config repo changes).
Proof.
  unfold _create_sync_pr, try_except.
  apply yields_with_locals, yields_try.
  - apply (yields_bind (fun _ => True)); [apply yields_any | intros db _].
    apply (yields_bind (fun _ => True)); [apply yields_any | intros sha _].
    apply (yields_bind (fun _ => True)); [apply yields_any | intros b _].
    apply (yields_bind (fun _ => True)); [apply yields_any | intros _ _].
    apply (yields_bind (fun _ => True)); [apply yields_any | intros _ _].
    apply (yields_bind (fun _ => True)); [apply yields_any | intros _ _].
    apply (yields_bind (fun _ => True)); [apply yields_any | intros l _].
    destruct (negb (truthy_list (l_files_updated l))).
    + apply (yields_bind (fun _ => True)); [apply yields_any | intros _ _].
      now apply yields_ret.
    + apply (yields_bind (fun _ => True)); [apply yields_any | intros base _].
      apply (yields_bind (fun _ => True)); [apply yields_any | intros pr _].
      now apply yields_ret.
  - intros e.
    apply (yields_bind (fun _ => True)); [apply yields_any | intros l _].
    apply (yields_bind (fun _ => True)); [apply yields_any | intros _ _].
    now apply yields_ret.
Qed.

Lemma check_skip_named repo :
  yields (fun o => match o with
                   | Some r => named_after repo r
                   | None => True
                   end)
    (_check_skip_conditions client repo).
Proof.
  intros s o s' E. unfold _check_skip_conditions in E.
  destruct (Repository.archived repo).
  { unfold ret in E. injection E as <- _. reflexivity. }
  unfold try_except, try_except_on, bind, attr, ret in E.
  destruct (Repository.default_branch repo) as [b | e].
  - destruct (negb (truthy_str b)).
    { injection E as <- _. reflexivity. }
    destruct (call _ s) as [[[| url rest] | e] s1]; try discriminate;
      injection E as <- _; [exact I | reflexivity].
  - injection E as <- _. reflexivity.
Qed.

Lemma sync_single_repo_named repo :
  yields (named_after repo) (sync_single_repo client rt config repo).
Proof.
  unfold sync_single_repo, try_except. apply yields_try.
  - apply (yields_bind _ _ _ _ (check_skip_named repo)).
    intros [skipped |] H; [now apply yields_ret |].
    apply (yields_bind (fun _ => True)); [apply yields_any | intros changes _].
    destruct (negb (truthy_list changes)); [now apply yields_ret |].
    destruct (dry_run config); [now apply yields_ret |].
    apply create_sync_pr_named.
  - intros e. apply (yields_bind (fun _ => True)); [apply yields_any |].
    intros _ _. now apply yields_ret.
Qed.

(** [sync_single_repo] returns, under the name of its repository. *)
Lemma sync_single_repo_total repo (s : Service W) :
  exists r s',
    sync_single_repo client rt config repo s = (Returned r, s')
    /\ repo_name r = Repository.name repo.
Proof.
  destruct (sync_single_repo_returns config repo client rt s) as [r E].
  destruct (sync_single_repo client rt config repo s) as [o s'] eqn:R.
  cbn in E. subst o. exists r, s'. split; [reflexivity |].
  exact (sync_single_repo_named repo s r s' R).
Qed.

Lemma parallel_total repos completion : forall results (s : Service W),
  exists more s',
    ParallelSyncStrategy_sync_from client rt config repos completion results s
    = (Returned (results ++ more)%list, s')
    /\ List.map repo_name more
       = List.map Repository.name (completed repos completion).
Proof.
  induction completion as [| i rest IH]; intros results s.
  - exists [], s. cbn. unfold ret. now rewrite app_nil_r.
  - cbn [ParallelSyncStrategy_sync_from completed flat_map].
    fold (completed repos rest).
    destruct (nth_error repos i) as [repo |]; [| apply IH].
    destruct (sync_single_repo_total repo s) as [r [s1 [E N]]].
    unfold bind, try_except, try_except_on. rewrite E.
    destruct (IH (results ++ [r])%list s1) as [more [s' [E' N']]].
    exists (r :: more), s'. rewrite E', <- app_assoc. split; [reflexivity |].
    cbn. now rewrite N, N'.
Qed.

Lemma time_total (s : Service W) : exists t s', time rt s = (Returned t, s').
Proof.
  unfold time. destruct (time_time rt (world s)) as [t w]. eauto.
Qed.

Lemma sequential_names repos : forall idx results (s : Service W),
  match fst (SequentialSyncStrategy_sync_from client rt config idx repos
               results s) with
  | Returned out =>
    exists more,
      out = (results ++ more)%list
      /\ List.map repo_name more = List.map Repository.name repos
  | Raised e =>
    exists w,
      fst (IGitHubClient.check_rate_limit client false w) = Raised e
      \/ fst (IGitHubClient.handle_post_operation_rate_limit client w)
         = Raised e
  end.
Proof.
  induction repos as [| repo rest IH]; intros idx results s.
  - cbn. exists []. now rewrite app_nil_r.
  - assert (Turn : forall s1 : Service W,
      match
        fst ((repo_start <- time rt ;;
              result <- sync_single_repo client rt config repo ;;
              now <- time rt ;;
              let result := set_duration_seconds result (Qminus now repo_start) in
              call (IGitHubClient.handle_post_operation_rate_limit client) ;;
              SequentialSyncStrategy_sync_from client rt config (S idx) rest
                (results ++ [result])%list)%py s1)
      with
      | Returned out =>
        exists more,
          out = (results ++ more)%list
          /\ List.map repo_name more = List.map Repository.name (repo :: rest)
      | Raised e =>
        exists w,
          fst (IGitHubClient.check_rate_limit client false w) = Raised e
          \/ fst (IGitHubClient.handle_post_operation_rate_limit client w)
             = Raised e
      end).
    { intros s1. unfold bind at 1. destruct (time_total s1) as [t0 [s2 ->]].
      unfold bind at 1.
      destruct (sync_single_repo_total repo s2) as [r [s3 [-> N]]].
      unfold bind at 1. destruct (time_total s3) as [t1 [s4 ->]].
      cbn zeta. unfold bind at 1. unfold call at 1.
      destruct (IGitHubClient.handle_post_operation_rate_limit client
                  (world s4)) as [[[] | e] w5] eqn:H.
      2:{ cbn [fst]. exists (world s4). right. now rewrite H. }
      match goal with
      | |- context [SequentialSyncStrategy_sync_from client rt config (S idx)
                      rest ?acc ?t] =>
        specialize (IH (S idx) acc t);
        destruct (fst (SequentialSyncStrategy_sync_from client rt config
                         (S idx) rest acc t)) as [out | e]
      end; [| exact IH].
      destruct IH as [more [-> Hm]].
      exists (set_duration_seconds r (t1 - t0) :: more).
      rewrite <- app_assoc. split; [reflexivity |].
      cbn. now rewrite N, Hm. }
    cbn [SequentialSyncStrategy_sync_from]. unfold bind at 1.
    destruct ((0 <? idx)%nat && (idx mod 5 =? 0)%nat).
    + unfold call at 1.
      destruct (IGitHubClient.check_rate_limit client false (world s))
        as [[[] | e] w1] eqn:C.
      * apply Turn.
      * cbn [fst]. exists (world s). left. now rewrite C.
    + apply Turn.
Qed.

End AnyGateway.

(** With a positive number of workers [ParallelSyncStrategy.sync] never
    raises, whatever the gateway does: it returns one outcome for every
    future that completes, in completion order, each under the name of its
    repository.  With a number of workers that is not positive it raises
    the [ValueError] of [ThreadPoolExecutor] before anything is submitted:
    no outcome, and the service is as it was. *)
Theorem parallel_sync_needs_workers :
  forall (W : Type) (client : IGitHubClient.t W) (rt : Runtime W)
         (config : SyncConfig) (max_workers : Z) (completion : list nat)
         (repos : list Repository.t) (s : Service W),
    ((0 < max_workers)%Z ->
     exists results s',
       ParallelSyncStrategy_sync client rt config max_workers completion repos s
       = (Returned results, s')
       /\ List.map repo_name results
          = List.map Repository.name (completed repos completion))
    /\ ((max_workers <= 0)%Z ->
        ParallelSyncStrategy_sync client rt config max_workers completion repos s
        = (Raised (OtherException "max_workers must be greater than 0"), s)).
Proof.
  intros W client rt config max_workers completion repos s.
  unfold ParallelSyncStrategy_sync.
  destruct (Z.leb_spec max_workers 0) as [Le | Gt]; split; intros H;
    try lia.
  - reflexivity.
  - destruct (parallel_total client rt config repos completion [] s)
      as [more [s' [E N]]].
    exists more, s'. split; [exact E | exact N].
Qed.

Lemma parallel_sync_needs_workers_witness :
  let s := service_at (Demo.start Demo.remote) Demo.desired in
  (exists results s',
     ParallelSyncStrategy_sync demo_client Demo.runtime Demo.config 4
       [2; 0; 1] [Demo.repo_a; Demo.repo_b; Demo.repo_c] s
     = (Returned results, s')
     /\ List.map repo_name results = ["service-c"; "service-a"; "service-b"])
  /\ ParallelSyncStrategy_sync demo_client Demo.runtime Demo.config 0
       [2; 0; 1] [Demo.repo_a; Demo.repo_b; Demo.repo_c] s
     = (Raised (OtherException "max_workers must be greater than 0"), s).
Proof.
  intros s. split.
  - apply (proj1 (parallel_sync_needs_workers _ demo_client Demo.runtime
                    Demo.config 4 [2; 0; 1]
                    [Demo.repo_a; Demo.repo_b; Demo.repo_c] s)).
    reflexivity.
  - apply (proj2 (parallel_sync_needs_workers _ demo_client Demo.runtime
                    Demo.config 0 [2; 0; 1]
                    [Demo.repo_a; Demo.repo_b; Demo.repo_c] s)).
    discriminate.
Defined.

(** When [SequentialSyncStrategy.sync] returns, it returns one outcome
    per repository, in the order given, each under the name of its
    repository.  When it raises, the exception was raised by
    [check_rate_limit()] or by [handle_post_operation_rate_limit()]:
    nothing that happens to a repository makes it raise. *)
Theorem sequential_sync_keeps_order :
  forall (W : Type) (client : IGitHubClient.t W) (rt : Runtime W)
         (config : SyncConfig) (repos : list Repository.t) (s : Service W),
    (forall results s',
        SequentialSyncStrategy_sync client rt config repos s
          = (Returned results, s') ->
        List.map repo_name results = List.map Repository.name repos)
    /\ (forall e s',
        SequentialSyncStrategy_sync client rt config repos s = (Raised e, s') ->
        exists w,
          fst (IGitHubClient.check_rate_limit client false w) = Raised e
          \/ fst (IGitHubClient.handle_post_operation_rate_limit client w)
             = Raised e).
Proof.
  intros W client rt config repos s. unfold SequentialSyncStrategy_sync.
  pose proof (sequential_names client rt config repos 0 [] s) as H.
  split.
  - intros results s' E. rewrite E in H. cbn [fst] in H.
    destruct H as [more [-> N]]. exact N.
  - intros e s' E. rewrite E in H. exact H.
Qed.

Lemma sequential_sync_keeps_order_witness :
  List.map repo_name
    (match fst (SequentialSyncStrategy_sync demo_client Demo.runtime Demo.config
                  Demo.six (service_at (Demo.start Demo.remote) Demo.desired))
     with
     | Returned results => results
     | Raised _ => []
     end)
  = ["service-a"; "service-b"; "service-c"; "service-d"; "service-e";
     "service-f"]
  /\ exists w,
      fst (IGitHubClient.check_rate_limit demo_client false w)
      = Raised Demo.connection_reset
      \/ fst (IGitHubClient.handle_post_operation_rate_limit demo_client w)
         = Raised Demo.connection_reset.
Proof.
  pose proof (sequential_sync_keeps_order _ demo_client Demo.runtime Demo.config
                Demo.six (service_at (Demo.start Demo.remote) Demo.desired))
    as [Ok _].
  pose proof (sequential_sync_keeps_order _ demo_client Demo.runtime Demo.config
                Demo.six (service_at (Demo.start Demo.throttled) Demo.desired))
    as [_ Bad].
  split.
  - apply (Ok _ (snd (SequentialSyncStrategy_sync demo_client Demo.runtime
                        Demo.config Demo.six
                        (service_at (Demo.start Demo.remote) Demo.desired)))).
    vm_compute. reflexivity.
  - apply (Bad Demo.connection_reset
             (snd (SequentialSyncStrategy_sync demo_client Demo.runtime
                     Demo.config Demo.six
                     (service_at (Demo.start Demo.throttled) Demo.desired)))).
    vm_compute. reflexivity.
Defined.

(** ** The Transaction: failures around the branch and the pull request *)
Section TransactionShapes.

Variable config : SyncConfig.
Variable repo : Repository.t.
Variable changes : list FileChange.

Lemma in_opening_writes ev db sha ts taken b created results :
  In ev (opening repo db sha ts taken b created
         ++ writes repo b changes results) ->
  ev = Called_get_base_sha repo db (Returned sha)
  \/ ev = Called_branch_exists repo (candidate ts) (Returned taken)
  \/ ev = Called_create_branch repo b sha created
  \/ is_file_write ev = true.
Proof.
  unfold opening. cbn [app In].
  intros [H | [H | [H | H]]]; auto.
  right; right; right. eapply in_writes; exact H.
Qed.

(** The run in which [create_branch] raised. *)
Lemma transaction_branch_refused d out b sha e :
  Transaction config repo changes d out ->
  In (Called_create_branch repo b sha (Raised e)) d ->
  exists db ts taken deleted,
    d = (opening repo db sha ts taken b (Raised e)
         ++ [Called_delete_branch repo b deleted])%list
    /\ out = cleanup repo b deleted e [] [].
Proof.
  intros T Hin.
  assert (No : forall db sha0 ts taken b0 results tail,
             (forall ev, In ev tail -> is_create_branch ev = false) ->
             ~ In (Called_create_branch repo b sha (Raised e))
                 (opening repo db sha0 ts taken b0 (Returned tt)
                  ++ writes repo b0 changes results ++ tail)).
  { intros db sha0 ts taken b0 results tail Htail H.
    rewrite app_assoc in H. apply in_app_or in H. destruct H as [H | H].
    - apply in_opening_writes in H.
      destruct H as [H | [H | [H | H]]]; discriminate.
    - apply Htail in H. discriminate. }
  inversion T as
    [ e0 Hdb
    | db e0 Hdb
    | db sha0 ts e0 Hdb
    | db sha0 ts taken b0 e0 deleted Hdb Hb
    | db sha0 ts taken b0 results Hdb Hb Hlen Hw
    | db sha0 ts taken b0 results e0 deleted Hdb Hb Hlen Hw
    | db sha0 ts taken b0 results pr Hdb Hb Hlen Hw
    | db sha0 ts taken b0 results e0 deleted Hdb Hb Hlen Hw ]; subst.
  - contradiction.
  - destruct Hin as [H | []]. discriminate.
  - destruct Hin as [H | [H | []]]; discriminate.
  - unfold opening in Hin. cbn [app In] in Hin.
    destruct Hin as [H | [H | [H | [H | []]]]]; try discriminate.
    injection H as -> -> ->. now exists db, ts, taken, deleted.
  - exfalso. eapply No; [| exact Hin]. intros ev [<- | []]. reflexivity.
  - exfalso. eapply No; [| exact Hin]. intros ev [<- | [<- | []]]; reflexivity.
  - exfalso. eapply No; [| exact Hin]. intros ev [<- | []]. reflexivity.
  - exfalso. eapply No; [| exact Hin]. intros ev [<- | [<- | []]]; reflexivity.
Qed.

(** The runs that stopped before [create_branch]. *)
Lemma transaction_no_branch d out :
  Transaction config repo changes d out ->
  List.filter is_create_branch d = [] ->
  exists e,
    out = Returned (error_outcome repo e None [] [])
    /\ List.filter mutates d = [].
Proof.
  intros T H.
  inversion T as
    [ e0 Hdb
    | db e0 Hdb
    | db sha0 ts e0 Hdb
    | db sha0 ts taken b0 e0 deleted Hdb Hb
    | db sha0 ts taken b0 results Hdb Hb Hlen Hw
    | db sha0 ts taken b0 results e0 deleted Hdb Hb Hlen Hw
    | db sha0 ts taken b0 results pr Hdb Hb Hlen Hw
    | db sha0 ts taken b0 results e0 deleted Hdb Hb Hlen Hw ]; subst;
    try (exists e0; split; reflexivity);
    unfold opening in H; cbn in H; discriminate.
Qed.

(** The runs in which [create_pull_request] was called. *)
Lemma transaction_pull_request d out title body b base answer :
  Transaction config repo changes d out ->
  In (Called_create_pull_request repo title body b base answer) d ->
  exists sha ts taken results tail,
    List.length results = List.length changes
    /\ written true changes results <> []
    /\ title = pull_request_title
    /\ body = PRBodyGenerator.generate (org config) (source_repo config)
                (written true changes results) (written false changes results)
    /\ d = (opening repo base sha ts taken b (Returned tt)
            ++ writes repo b changes results
            ++ Called_create_pull_request repo title body b base answer
               :: tail)%list
    /\ match answer with
       | Returned pr =>
         tail = []
         /\ out = Returned {| repo_name := Repository.name repo;
                              status := SUCCESS;
                              pr_url := Some pr;
                              message :=
                                str_of_len (written true changes results)
                                ++ " archivo(s) actualizados";
                              files_updated := written true changes results;
                              files_failed := written false changes results;
                              branch_created := Some b;
                              duration_seconds := 0%Q |}
       | Raised e =>
         exists deleted,
           tail = [Called_delete_branch repo b deleted]
           /\ out = cleanup repo b deleted e (written true changes results)
                      (written false changes results)
       end.
Proof.
  intros T Hin.
  assert (Not : forall db sha0 ts taken b0 created results,
             ~ In (Called_create_pull_request repo title body b base answer)
                 (opening repo db sha0 ts taken b0 created
                  ++ writes repo b0 changes results)).
  { intros db sha0 ts taken b0 created results H.
    apply in_opening_writes in H.
    destruct H as [H | [H | [H | H]]]; discriminate. }
  inversion T as
    [ e0 Hdb
    | db e0 Hdb
    | db sha0 ts e0 Hdb
    | db sha0 ts taken b0 e0 deleted Hdb Hb
    | db sha0 ts taken b0 results Hdb Hb Hlen Hw
    | db sha0 ts taken b0 results e0 deleted Hdb Hb Hlen Hw
    | db sha0 ts taken b0 results pr Hdb Hb Hlen Hw
    | db sha0 ts taken b0 results e0 deleted Hdb Hb Hlen Hw ]; subst.
  - contradiction.
  - destruct Hin as [H | []]. discriminate.
  - destruct Hin as [H | [H | []]]; discriminate.
  - unfold opening in Hin. cbn [app In] in Hin.
    destruct Hin as [H | [H | [H | [H | []]]]]; discriminate.
  - exfalso. rewrite app_assoc in Hin. apply in_app_or in Hin.
    destruct Hin as [H | [H | []]]; [now apply Not in H | discriminate].
  - exfalso. rewrite app_assoc in Hin. apply in_app_or in Hin.
    destruct Hin as [H | [H | [H | []]]];
      [now apply Not in H | discriminate | discriminate].
  - rewrite app_assoc in Hin. apply in_app_or in Hin.
    destruct Hin as [H | [H | []]]; [now apply Not in H |].
    injection H as <- <- <- <- <-.
    exists sha0, ts, taken, results, []. repeat split; assumption.
  - rewrite app_assoc in Hin. apply in_app_or in Hin.
    destruct Hin as [H | [H | [H | []]]];
      [now apply Not in H | | discriminate].
    injection H as <- <- <- <- <-.
    exists sha0, ts, taken, results, [Called_delete_branch repo b0 deleted].
    repeat split; try assumption. now exists deleted.
Qed.

End TransactionShapes.

(** When [create_branch] raises, [_create_sync_pr] still asks for the
    deletion of the branch it could not create, as its last call, and the
    [ERROR] outcome it then returns reports that branch as created.  When
    the run stops before [create_branch] (the default branch, its SHA or
    the existence check fails), no branch is deleted: the outcome is
    [ERROR] without a branch and no call changed the repository. *)
Theorem failed_branch_creation_is_cleaned_up :
  forall (W : Type) (client : IGitHubClient.t W) (rt : Runtime W)
         (config : SyncConfig) (repo : Repository.t)
         (changes : list FileChange) (s s' : Service (W * list Event))
         (out : outcome SyncResult),
    _create_sync_pr (spy client) (spy_runtime rt) config repo changes s
      = (out, s') ->
    (forall b sha e,
        In (Called_create_branch repo b sha (Raised e)) (new_calls s s') ->
        exists before deleted,
          new_calls s s'
          = (before ++ [Called_create_branch repo b sha (Raised e);
                        Called_delete_branch repo b deleted])%list
          /\ List.filter mutates before = []
          /\ out = match deleted with
                   | Returned _ =>
                     Returned (error_outcome repo e (Some b) [] [])
                   | Raised e' => Raised e'
                   end)
    /\ (List.filter is_create_branch (new_calls s s') = [] ->
        List.filter mutates (new_calls s s') = []
        /\ exists e, out = Returned (error_outcome repo e None [] [])).
Proof.
  intros W client rt config repo changes s s' out Hrun.
  destruct (create_sync_pr_runs client rt config repo changes s)
    as [out' [d [w' [Hrun' T]]]].
  rewrite Hrun in Hrun'. injection Hrun' as -> ->.
  rewrite (new_calls_app s (at_world s w' d) d eq_refl). split.
  - intros b sha e Hin.
    destruct (transaction_branch_refused config repo changes d out' b sha e
                T Hin) as [db [ts [taken [deleted [-> ->]]]]].
    exists [Called_get_base_sha repo db (Returned sha);
            Called_branch_exists repo (candidate ts) (Returned taken)], deleted.
    repeat split.
  - intros H.
    destruct (transaction_no_branch config repo changes d out' T H)
      as [e [-> M]].
    split; [exact M | now exists e].
Qed.

Lemma failed_branch_creation_is_cleaned_up_witness :
  let s := fresh (Demo.start crowded) Demo.desired in
  let branch := "sync/workflows-update-1700000000000-1000" in
  let refused := Demo.http 422 "Reference already exists" in
  let ran := _create_sync_pr (spy Demo.client) (spy_runtime Demo.runtime)
               Demo.config Demo.repo_a Demo.two_changes s in
  In ("Automya/service-a", (branch, "x2")) (Demo.heads crowded)
  /\ ~ In ("Automya/service-a", (branch, "x2"))
         (Demo.heads (GitHubClient.github (fst (world (snd ran)))))
  /\ exists before deleted,
      new_calls s (snd ran)
      = (before ++ [Called_create_branch Demo.repo_a branch "a0" (Raised refused);
                    Called_delete_branch Demo.repo_a branch deleted])%list
      /\ List.filter mutates before = []
      /\ fst ran = match deleted with
                   | Returned _ =>
                     Returned (error_outcome Demo.repo_a refused (Some branch)
                                 [] [])
                   | Raised e' => Raised e'
                   end.
Proof.
  intros s branch refused ran.
  split; [vm_compute; tauto |].
  split; [vm_compute; intuition discriminate |].
  apply (proj1 (failed_branch_creation_is_cleaned_up _ Demo.client Demo.runtime
                  Demo.config Demo.repo_a Demo.two_changes s (snd ran) (fst ran)
                  (surjective_pairing ran))
           branch "a0" refused).
  vm_compute. right; right; left. reflexivity.
Defined.

(** [create_pull_request] is called at most once, after one write for
    every change, of which at least one returned, and on the branch
    created.  When it returns, the outcome is [SUCCESS] and nothing
    follows; when it raises, the branch is deleted with the commits on it,
    and the [ERROR] outcome still lists the files as updated and the
    branch as created. *)
Theorem pull_request_follows_the_writes :
  forall (W : Type) (client : IGitHubClient.t W) (rt : Runtime W)
         (config : SyncConfig) (repo : Repository.t)
         (changes : list FileChange) (s s' : Service (W * list Event))
         (out : outcome SyncResult) title body b base answer,
    _create_sync_pr (spy client) (spy_runtime rt) config repo changes s
      = (out, s') ->
    In (Called_create_pull_request repo title body b base answer)
       (new_calls s s') ->
    exists before results tail,
      new_calls s s'
      = (before ++ writes repo b changes results
         ++ Called_create_pull_request repo title body b base answer :: tail)%list
      /\ List.filter is_file_write before = []
      /\ List.filter is_create_pull_request before = []
      /\ List.length results = List.length changes
      /\ written true changes results <> []
      /\ match answer with
         | Returned pr =>
           tail = []
           /\ exists r,
               out = Returned r
               /\ status r = SUCCESS
               /\ pr_url r = Some pr
               /\ branch_created r = Some b
         | Raised e =>
           exists deleted,
             tail = [Called_delete_branch repo b deleted]
             /\ (returned deleted = true ->
                 out = Returned (error_outcome repo e (Some b)
                                   (written true changes results)
                                   (written false changes results)))
         end.
Proof.
  intros W client rt config repo changes s s' out title body b base answer
         Hrun Hin.
  destruct (create_sync_pr_runs client rt config repo changes s)
    as [out' [d [w' [Hrun' T]]]].
  rewrite Hrun in Hrun'. injection Hrun' as -> ->.
  rewrite (new_calls_app s (at_world s w' d) d eq_refl) in *.
  destruct (transaction_pull_request config repo changes d out' title body b
              base answer T Hin)
    as [sha [ts [taken [results [tail [L [Wr [_ [_ [-> A]]]]]]]]]].
  exists (opening repo base sha ts taken b (Returned tt)), results, tail.
  repeat split; try assumption.
  destruct answer as [pr | e].
  - destruct A as [-> ->]. split; [reflexivity |].
    eexists. repeat split.
  - destruct A as [deleted [-> ->]]. exists deleted.
    split; [reflexivity |]. now destruct deleted.
Qed.

Lemma pull_request_follows_the_writes_witness :
  let s := fresh (Demo.start locked) Demo.desired in
  let branch := "sync/workflows-update-1700000000000" in
  let ran := _create_sync_pr (spy Demo.client) (spy_runtime Demo.runtime)
               Demo.config Demo.repo_a Demo.two_changes s in
  fst ran
  = Returned (error_outcome Demo.repo_a (Demo.http 422 "Validation Failed")
                (Some branch) ["build.yml"; "deploy.yml"] [])
  /\ exists before results tail,
      new_calls s (snd ran)
      = (before ++ writes Demo.repo_a branch Demo.two_changes results
         ++ Called_create_pull_request Demo.repo_a pull_request_title
              (PRBodyGenerator.generate "Automya" "ci-templates"
                 ["build.yml"; "deploy.yml"] [])
              branch "main" (Raised (Demo.http 422 "Validation Failed"))
            :: tail)%list
      /\ tail = [Called_delete_branch Demo.repo_a branch (Returned tt)].
Proof.
  intros s branch ran. split; [vm_compute; reflexivity |].
  destruct (pull_request_follows_the_writes _ Demo.client Demo.runtime
              Demo.config Demo.repo_a Demo.two_changes s (snd ran) (fst ran)
              pull_request_title
              (PRBodyGenerator.generate "Automya" "ci-templates"
                 ["build.yml"; "deploy.yml"] [])
              branch "main" (Raised (Demo.http 422 "Validation Failed"))
              (surjective_pairing ran))
    as [before [results [tail [E [_ [_ [_ [_ [deleted [Tl _]]]]]]]]]].
  { vm_compute. do 5 right. left. reflexivity. }
  exists before, results, tail. split; [exact E |].
  rewrite Tl in *. f_equal. f_equal.
  assert (D : In (Called_delete_branch Demo.repo_a branch deleted)
                (new_calls s (snd ran))).
  { rewrite E. apply in_or_app. right. apply in_or_app. right.
    right. left. reflexivity. }
  vm_compute in D.
  repeat (destruct D as [D | D]; [try discriminate D | ]); try contradiction.
  now injection D.
Defined.

(* ================================================================== *)
(** * A fetch that fails *)
(* ================================================================== *)

Section FetchFailure.

Context {W : Type}.
Variable client : IGitHubClient.t W.
Variable rt : Runtime W.
Variable config : SyncConfig.

Let St := Service (W * list Event).
Let quiet (ev : Event) : Prop := fetched ev = true /\ discovery_call ev = true.
Let clean (ev : Event) : Prop := fetched ev = true.

Lemma quiet_clean d : Forall quiet d -> Forall clean d.
Proof. apply Forall_impl. now intros ev [H _]. Qed.

Lemma fetch_loop_decides source infos : forall repos (s : St),
  exists d,
    calls (snd (repos_to_sync_from (spy client) source infos repos s))
    = (calls s ++ d)%list
    /\ match fst (repos_to_sync_from (spy client) source infos repos s) with
       | Returned _ => Forall quiet d
       | Raised e =>
         exists before name,
           d = (before ++ [Called_get_repository name (Raised e)])%list
           /\ Forall quiet before
       end.
Proof.
  induction infos as [| info rest IH]; intros repos s; simpl.
  - exists []. split; [now rewrite app_nil_r | constructor].
  - destruct (String.eqb (RepositoryInfo.full_name info) source); [apply IH |].
    unfold bind. cbn [IGitHubClient.get_repository spy].
    rewrite call_recorded.
    destruct (IGitHubClient.get_repository client
                (RepositoryInfo.full_name info) (fst (world s)))
      as [[t0 | e] w1]; cbn [fst snd].
    + destruct (IH (repos ++ [t0])%list
                  (at_world s w1
                     [Called_get_repository (RepositoryInfo.full_name info)
                        (Returned t0)])) as [d [Hc Hm]].
      exists (Called_get_repository (RepositoryInfo.full_name info)
                (Returned t0) :: d).
      split; [rewrite Hc, at_world_calls, <- app_assoc; reflexivity |].
      destruct (fst (repos_to_sync_from _ _ _ _ _)) as [out | e].
      * constructor; [split; reflexivity | exact Hm].
      * destruct Hm as [before [name [E F]]].
        exists (Called_get_repository (RepositoryInfo.full_name info)
                  (Returned t0) :: before), name.
        split; [now rewrite E |].
        constructor; [split; reflexivity | exact F].
    + eexists. split; [apply at_world_calls |].
      exists [], (RepositoryInfo.full_name info). split; [reflexivity | constructor].
Qed.

Lemma strategies_fetch_nothing (parallel : bool) (completion : list nat)
  (repos : list Repository.t) :
  keeps (grows clean)
    (results <-
       (if parallel
        then ParallelSyncStrategy_sync (spy client) (spy_runtime rt) config
               (max_workers config) completion repos
        else SequentialSyncStrategy_sync (spy client) (spy_runtime rt) config
               repos) ;;
     finished <- time (spy_runtime rt) ;;
     ret results)%py.
Proof.
  assert (T : forall ev, target_call ev = true -> clean ev).
  { intros ev H. destruct ev; try reflexivity; discriminate. }
  apply keeps_bind; [apply grows_trans | | intros results].
  - destruct parallel.
    + now apply keeps_parallel_sync.
    + unfold SequentialSyncStrategy_sync. now apply keeps_sequential.
  - apply keeps_bind; [apply grows_trans | apply keeps_time | intros t].
    apply keeps_ret. apply grows_refl.
Qed.

Lemma after_load_decides (parallel : bool) (completion : list nat) (s : St)
  out s' :
  run_after_load (spy client) (spy_runtime rt) config parallel completion s
  = (out, s') ->
  exists d, calls s' = (calls s ++ d)%list /\ fetch_decides out d.
Proof.
  intros H. unfold run_after_load in H. unfold bind at 1 in H.
  cbn [IGitHubClient.check_rate_limit IGitHubClient.search_repositories_by_topic
       spy] in H.
  rewrite call_recorded in H.
  destruct (IGitHubClient.check_rate_limit client true (fst (world s)))
    as [[[] | e1] w1]; cbn [fst snd] in H.
  2:{ injection H as <- <-. eexists. split; [apply at_world_calls |].
      left. repeat constructor. }
  unfold bind at 1 in H. rewrite call_recorded in H.
  destruct (IGitHubClient.search_repositories_by_topic client (org config)
              (topic config) _) as [[infos | e2] w2];
    cbn [fst snd] in H; rewrite at_world_again in H.
  2:{ injection H as <- <-. eexists. split; [apply at_world_calls |].
      left. repeat constructor. }
  destruct (truthy_list infos); cbn [negb] in H.
  2:{ injection H as <- <-. eexists. split; [apply at_world_calls |].
      left. repeat constructor. }
  unfold bind at 1 in H.
  match type of H with
  | context [repos_to_sync_from ?c ?src ?i ?acc ?t] =>
    destruct (fetch_loop_decides src i acc t) as [d [Hc Hm]];
    destruct (repos_to_sync_from c src i acc t) as [[repos | e3] s3]
  end; cbn [fst snd] in *.
  - pose proof (strategies_fetch_nothing parallel completion repos s3)
      as [[d' [Hc' Hf']] _].
    rewrite H in Hc'. cbn [snd] in Hc'.
    eexists (_ :: _ :: d ++ d')%list. split.
    + rewrite Hc', Hc, at_world_calls, <- !app_assoc. reflexivity.
    + left. repeat constructor.
      apply Forall_app. split; [now apply quiet_clean | exact Hf'].
  - injection H as <- <-.
    destruct Hm as [before [name [E F]]]. eexists (_ :: _ :: d)%list. split.
    + rewrite Hc, at_world_calls, <- !app_assoc. reflexivity.
    + right. eexists (_ :: _ :: before), name, e3.
      split; [reflexivity |]. split; [rewrite E; reflexivity |].
      repeat constructor. exact F.
Qed.

Lemma run_decides (parallel : bool) (completion : list nat) (s : St) out s' :
  run (spy client) (spy_runtime rt) config parallel completion s = (out, s') ->
  fetch_decides out (new_calls s s').
Proof.
  intros H. rewrite run_stages in H.
  assert (Pre : keeps (grows quiet) (run_prelude (spy client) (spy_runtime rt))).
  { apply (keeps_bind _ (grows_trans _)); [apply keeps_time | intros t].
    apply (keeps_bind _ (grows_trans _)); [apply keeps_set_start_time | intros _].
    apply keeps_call. intros w. split; reflexivity. }
  destruct (Pre s) as [[d1 [E1 F1]] _].
  destruct (run_prelude (spy client) (spy_runtime rt) s) as [[[] | e] s1];
    cbn [fst snd] in *.
  2:{ injection H as <- <-. rewrite (new_calls_app _ _ _ E1).
      left. now apply quiet_clean. }
  rewrite load_source_workflows_cases in H.
  cbn [IGitHubClient.get_repository IGitHubClient.get_workflow_files spy] in H.
  rewrite call_recorded in H.
  destruct (IGitHubClient.get_repository client _ (fst (world s1)))
    as [[src | e1] w1]; cbn [fst snd] in H.
  2:{ injection H as <- <-.
      erewrite new_calls_app
        by (rewrite at_world_calls, E1, <- app_assoc; reflexivity).
      right. exists d1. eexists _, e1. repeat split. exact F1. }
  rewrite call_recorded in H.
  destruct (IGitHubClient.get_workflow_files client src WORKFLOWS_PATH _)
    as [[workflows | e2] w2]; cbn [fst snd] in H; rewrite at_world_again in H.
  2:{ injection H as <- <-.
      erewrite new_calls_app
        by (rewrite at_world_calls, E1, <- app_assoc; reflexivity).
      left. apply Forall_app. split; [now apply quiet_clean |].
      repeat constructor. }
  destruct (if truthy_list (files_filter config) then _ else _) as [| kv kept];
    cbn [fst snd set_source_workflows] in H.
  { injection H as <- <-.
    erewrite new_calls_app
      by (rewrite at_world_calls, E1, <- app_assoc; reflexivity).
    left. apply Forall_app. split; [now apply quiet_clean |].
    repeat constructor. }
  destruct (after_load_decides parallel completion _ _ _ H) as [d [Hc Hd]].
  assert (Hs : calls s' = (calls s ++ d1 ++ [Called_get_repository
                  (org config ++ "/" ++ source_repo config) (Returned src);
                Called_get_workflow_files src WORKFLOWS_PATH
                  (Returned workflows)] ++ d)%list).
  { rewrite Hc. unfold calls at 1. cbn [world snd at_world].
    rewrite E1, <- !app_assoc. reflexivity. }
  rewrite (new_calls_app _ _ _ Hs).
  destruct Hd as [Hd | [before [name [e [Ho [Ed Fd]]]]]].
  - left. apply Forall_app. split; [now apply quiet_clean |].
    repeat constructor. exact Hd.
  - right. exists (d1 ++ [Called_get_repository
                  (org config ++ "/" ++ source_repo config) (Returned src);
                Called_get_workflow_files src WORKFLOWS_PATH
                  (Returned workflows)] ++ before)%list, name, e.
    split; [exact Ho |]. split.
    + rewrite Ed, <- !app_assoc. reflexivity.
    + apply Forall_app. split; [exact F1 |]. repeat constructor. exact Fd.
Qed.

End FetchFailure.

(** One repository that cannot be fetched stops the whole run.  If any
    [get_repository] call of a [run] raised [e], then [run] raised [e], that
    call is the last gateway call of the run, and all calls before it are
    discovery calls: rate-limit checks, fetches, the listing of the source
    and the search.  No repository has been read for differences or
    written to. *)
Theorem failed_fetch_aborts_run {W : Type} (client : IGitHubClient.t W)
  (rt : Runtime W) (config : SyncConfig) (parallel : bool)
  (completion : list nat) (s : Service (W * list Event))
  (name : string) (e : Exc) :
  let r := run (spy client) (spy_runtime rt) config parallel completion s in
  In (Called_get_repository name (Raised e)) (new_calls s (snd r)) ->
  fst r = Raised e
  /\ exists before,
       new_calls s (snd r)
       = (before ++ [Called_get_repository name (Raised e)])%list
       /\ List.forallb discovery_call before = true.
Proof.
  intros r H. subst r.
  pose proof (run_decides client rt config parallel completion s _ _
                (surjective_pairing _)) as D.
  assert (Bad : fetched (Called_get_repository name (Raised e)) = false)
    by reflexivity.
  destruct D as [D | [before [name' [e' [Ho [Ed Fd]]]]]].
  - rewrite Forall_forall in D. apply D in H. congruence.
  - rewrite Ed in H. apply in_app_or in H. destruct H as [H | [H | []]].
    + rewrite Forall_forall in Fd. apply Fd in H. destruct H. congruence.
    + injection H as -> ->. split; [exact Ho |].
      exists before. split; [exact Ed |].
      apply forallb_forall. intros ev Hev.
      rewrite Forall_forall in Fd. now apply Fd.
Qed.

Lemma failed_fetch_aborts_run_witness :
  let s := fresh (Demo.start vanished) [] in
  let r := run (spy Demo.client) (spy_runtime Demo.runtime) Demo.config false []
             s in
  let gone := SourceRepoError "Repository not found: Automya/service-c" in
  In (Called_get_repository "Automya/service-c" (Raised gone))
    (new_calls s (snd r))
  /\ fst r = Raised gone
  /\ List.length (new_calls s (snd r)) = 8
  /\ List.forallb discovery_call (new_calls s (snd r)) = true.
Proof.
  assert (H : In (Called_get_repository "Automya/service-c"
                    (Raised (SourceRepoError
                       "Repository not found: Automya/service-c")))
                (new_calls (fresh (Demo.start vanished) [])
                   (snd (run (spy Demo.client) (spy_runtime Demo.runtime)
                           Demo.config false []
                           (fresh (Demo.start vanished) []))))).
  { vm_compute. do 7 right. left. reflexivity. }
  split; [exact H |].
  split.
  - exact (proj1 (failed_fetch_aborts_run Demo.client Demo.runtime Demo.config
                    false [] (fresh (Demo.start vanished) []) _ _ H)).
  - split; vm_compute; reflexivity.
Defined.

(* ================================================================== *)
(** * A lookup that fails *)
(* ================================================================== *)

Section LookupFailure.

Context {W : Type}.
Variable client : IGitHubClient.t W.
Variable rt : Runtime W.
Variable config : SyncConfig.
Variable repo : Repository.t.

Let St := Service (W * list Event).
Let quiet (ev : Event) : Prop := looked_up ev = true /\ reading ev = true.
Let clean (ev : Event) : Prop := looked_up ev = true.

Local Opaque String.append.

Lemma reading_looked_up d : Forall quiet d -> Forall clean d.
Proof. apply Forall_impl. now intros ev [H _]. Qed.

Lemma lookups_decide items : forall changes (s : St) out s',
  _get_required_changes_from (spy client) repo items changes s = (out, s') ->
  exists d,
    calls s' = (calls s ++ d)%list
    /\ match out with
       | Returned _ => Forall quiet d
       | Raised e =>
         exists before path,
           d = (before ++ [Called_get_file_content repo path (Raised e)])%list
           /\ Forall quiet before
       end.
Proof.
  induction items as [| [filename new_content] rest IH];
    intros changes s out s' H; cbn [_get_required_changes_from] in H.
  - unfold ret in H. injection H as <- <-. exists [].
    split; [now rewrite app_nil_r | constructor].
  - unfold bind in H. cbn [IGitHubClient.get_file_content spy] in H.
    rewrite call_recorded in H.
    destruct (IGitHubClient.get_file_content client repo
                (WORKFLOWS_PATH ++ "/" ++ filename) (fst (world s)))
      as [[found | e] w1]; cbn [fst snd] in H.
    + assert (Next : exists changes',
                 _get_required_changes_from (spy client) repo rest changes'
                   (at_world s w1
                      [Called_get_file_content repo
                         (WORKFLOWS_PATH ++ "/" ++ filename) (Returned found)])
                 = (out, s')).
      { destruct found as [[existing sha] |]; [| eexists; exact H].
        destruct (negb _); eexists; exact H. }
      destruct Next as [changes' H'].
      destruct (IH _ _ _ _ H') as [d [Hc Hm]].
      exists (Called_get_file_content repo (WORKFLOWS_PATH ++ "/" ++ filename)
                (Returned found) :: d).
      split; [rewrite Hc, at_world_calls, <- app_assoc; reflexivity |].
      destruct out as [changes'' | e].
      * constructor; [split; reflexivity | exact Hm].
      * destruct Hm as [before [path [E F]]].
        exists (Called_get_file_content repo
                  (WORKFLOWS_PATH ++ "/" ++ filename) (Returned found)
                :: before), path.
        split; [now rewrite E |].
        constructor; [split; reflexivity | exact F].
    + injection H as <- <-. eexists. split; [apply at_world_calls |].
      exists [], (WORKFLOWS_PATH ++ "/" ++ filename).
      split; [reflexivity | constructor].
Qed.

Lemma sync_single_repo_decides (s : St) out s' :
  sync_single_repo (spy client) (spy_runtime rt) config repo s = (out, s') ->
  Forall clean (new_calls s s')
  \/ exists before path e,
       out = Returned (error_outcome repo e None [] [])
       /\ new_calls s s'
          = (before ++ [Called_get_file_content repo path (Raised e)])%list
       /\ Forall quiet before.
Proof.
  intros H. unfold sync_single_repo, try_except, try_except_on in H.
  unfold bind at 1 in H.
  pose proof (keeps_check_skip_conditions client quiet repo) as Skip.
  specialize (Skip (fun r => conj eq_refl eq_refl) s).
  destruct Skip as [[d1 [E1 F1]] _].
  destruct (_check_skip_conditions (spy client) repo s) as [[skip | e] s1];
    cbn [fst snd] in *.
  2:{ unfold bind, ret in H. cbn in H. injection H as <- <-.
      rewrite (new_calls_app _ _ _ E1). left. now apply reading_looked_up. }
  destruct skip as [skipped |].
  { unfold ret in H. injection H as <- <-.
    rewrite (new_calls_app _ _ _ E1). left. now apply reading_looked_up. }
  unfold _get_required_changes in H. unfold bind at 1 in H.
  unfold bind at 1 in H. unfold get_source_workflows at 1 in H.
  cbn [fst snd] in H.
  destruct (_get_required_changes_from (spy client) repo
              (_source_workflows s1) [] s1) as [[changes | e] s2] eqn:D;
    destruct (lookups_decide _ _ _ _ _ D) as [d2 [E2 F2]].
  - assert (Rest : grows clean s2 s').
    { destruct (negb (truthy_list changes)).
      { unfold ret in H. injection H as <- <-. apply grows_refl. }
      destruct (dry_run config).
      { unfold ret in H. injection H as <- <-. apply grows_refl. }
      pose proof (keeps_create_sync_pr client rt config clean repo changes)
        as K.
      assert (K' : keeps (grows clean)
                     (_create_sync_pr (spy client) (spy_runtime rt) config repo
                        changes))
        by (apply K; intros; reflexivity).
      specialize (K' s2).
      destruct (_create_sync_pr (spy client) (spy_runtime rt) config repo
                  changes s2) as [[result | e] s3]; cbn [snd] in K'.
      - injection H as <- <-. exact K'.
      - unfold bind, ret in H. cbn in H. injection H as <- <-. exact K'. }
    destruct Rest as [[d3 [E3 F3]] _].
    rewrite (new_calls_app _ _ (d1 ++ d2 ++ d3)%list).
    2:{ rewrite E3, E2, E1, <- !app_assoc. reflexivity. }
    left. apply Forall_app. split; [now apply reading_looked_up |].
    apply Forall_app. split; [now apply reading_looked_up | exact F3].
  - unfold bind, ret in H. cbn in H. injection H as <- <-.
    destruct F2 as [before [path [E F]]].
    right. exists (d1 ++ before)%list, path, e.
    split; [reflexivity |]. split.
    + apply new_calls_app. rewrite E2, E1, E, <- !app_assoc. reflexivity.
    + apply Forall_app. now split.
Qed.

End LookupFailure.

(** A file of a target that cannot be read costs that target only, and
    nothing is written to it.  If any [get_file_content] call of
    [sync_single_repo] raised [e], then the method returns the [ERROR]
    outcome with the message [Error: e], that call is its last gateway call,
    and all calls before it only read the target: the listing of its open
    pull requests and lookups of its files. *)
Theorem failed_lookup_writes_nothing {W : Type} (client : IGitHubClient.t W)
  (rt : Runtime W) (config : SyncConfig) (repo : Repository.t)
  (s : Service (W * list Event)) (asked : Repository.t) (path : string)
  (e : Exc) :
  let r := sync_single_repo (spy client) (spy_runtime rt) config repo s in
  In (Called_get_file_content asked path (Raised e)) (new_calls s (snd r)) ->
  fst r = Returned (error_outcome repo e None [] [])
  /\ asked = repo
  /\ exists before,
       new_calls s (snd r)
       = (before ++ [Called_get_file_content repo path (Raised e)])%list
       /\ List.forallb reading before = true.
Proof.
  intros r H. subst r.
  pose proof (sync_single_repo_decides client rt config repo s _ _
                (surjective_pairing _)) as D.
  assert (Bad : looked_up (Called_get_file_content asked path (Raised e))
                = false) by reflexivity.
  destruct D as [D | [before [path' [e' [Ho [Ed Fd]]]]]].
  - rewrite Forall_forall in D. apply D in H. congruence.
  - rewrite Ed in H. apply in_app_or in H. destruct H as [H | [H | []]].
    + rewrite Forall_forall in Fd. apply Fd in H. destruct H. congruence.
    + injection H as -> -> ->. split; [exact Ho |]. split; [reflexivity |].
      exists before. split; [exact Ed |].
      apply forallb_forall. intros ev Hev.
      rewrite Forall_forall in Fd. now apply Fd.
Qed.

Lemma failed_lookup_writes_nothing_witness :
  let s := fresh (Demo.start garbled) Demo.desired in
  let r := sync_single_repo (spy Demo.client) (spy_runtime Demo.runtime)
             Demo.config Demo.repo_a s in
  In (Called_get_file_content Demo.repo_a ".github/workflows/build.yml"
        (Raised undecodable)) (new_calls s (snd r))
  /\ fst r = Returned (error_outcome Demo.repo_a undecodable None [] [])
  /\ List.length (new_calls s (snd r)) = 2
  /\ List.forallb reading (new_calls s (snd r)) = true.
Proof.
  assert (H : In (Called_get_file_content Demo.repo_a
                    ".github/workflows/build.yml" (Raised undecodable))
                (new_calls (fresh (Demo.start garbled) Demo.desired)
                   (snd (sync_single_repo (spy Demo.client)
                           (spy_runtime Demo.runtime) Demo.config Demo.repo_a
                           (fresh (Demo.start garbled) Demo.desired))))).
  { vm_compute. right. left. reflexivity. }
  split; [exact H |].
  split.
  - exact (proj1 (failed_lookup_writes_nothing Demo.client Demo.runtime
                    Demo.config Demo.repo_a
                    (fresh (Demo.start garbled) Demo.desired) _ _ _ H)).
  - split; vm_compute; reflexivity.
Defined.

(* ================================================================== *)
(** * The text of the pull request *)
(* ================================================================== *)

Section BodyFacts.

Lemma prefix_append x s1 s2 :
  String.prefix x s1 = true -> String.prefix x (s1 ++ s2) = true.
Proof.
  revert s1. induction x as [| a x IH]; intros s1 H;
    [now destruct (s1 ++ s2) |].
  destruct s1 as [| b s1]; [discriminate |].
  simpl in *. destruct (ascii_dec a b); [now apply IH | discriminate].
Qed.

Lemma prefix_same x : String.prefix x x = true.
Proof.
  induction x as [| a x IH]; [reflexivity |].
  simpl. destruct (ascii_dec a a); [exact IH | contradiction].
Qed.

Lemma contains_append_l x s1 s2 :
  str_contains x s1 = true -> str_contains x (s1 ++ s2) = true.
Proof.
  induction s1 as [| a s1 IH]; intros H.
  - cbn [str_contains] in H. rewrite orb_false_r in H.
    destruct x; [| discriminate]. now destruct s2.
  - cbn [str_contains] in H. apply orb_true_iff in H. destruct H as [H | H].
    + apply contains_here. now apply prefix_append.
    + change (String a s1 ++ s2) with (String a (s1 ++ s2)).
      apply contains_later. now apply IH.
Qed.

Lemma contains_join x sep (wrap : string -> string) f l :
  In f l -> str_contains x (wrap f) = true ->
  str_contains x (join sep (List.map wrap l)) = true.
Proof.
  intros I H. unfold join. induction l as [| g rest IH]; [destruct I |].
  cbn [List.map String.concat].
  destruct I as [-> | I].
  - destruct (List.map wrap rest); [exact H | now apply contains_append_l].
  - specialize (IH I). destruct (List.map wrap rest) as [| h t] eqn:E.
    + destruct rest; [destruct I | discriminate].
    + apply contains_append. now apply contains_append.
Qed.

End BodyFacts.

(** The text of a pull request names, between backquotes, every file that
    was written and every file that could not be. *)
Theorem pull_request_text_names_every_file (org source_repo : string)
  (files_updated files_failed : list string) (f : string) :
  In f (files_updated ++ files_failed)%list ->
  str_contains ("`" ++ f ++ "`")
    (PRBodyGenerator.generate org source_repo files_updated files_failed)
  = true.
Proof.
  intros H. apply in_app_or in H. unfold PRBodyGenerator.generate.
  destruct H as [H | H].
  - do 8 apply contains_append. apply contains_append_l.
    apply (contains_join _ _ (fun f => "- `" ++ f ++ "`") f); [exact H |].
    change ("- `" ++ f ++ "`") with ("- " ++ ("`" ++ f ++ "`")).
    apply contains_append. apply contains_here. apply prefix_same.
  - do 10 apply contains_append. apply contains_append_l.
    destruct files_failed as [| g rest]; [destruct H |].
    cbn [truthy_list].
    do 4 apply contains_append. apply contains_append_l.
    apply (contains_join _ _ (fun f => "`" ++ f ++ "`") f); [exact H |].
    apply contains_here. apply prefix_same.
Qed.

Lemma pull_request_text_names_every_file_witness :
  In "deploy.yml" (["build.yml"] ++ ["deploy.yml"])%list
  /\ str_contains "`deploy.yml`"
       (PRBodyGenerator.generate "Automya" "ci-templates" ["build.yml"]
          ["deploy.yml"]) = true.
Proof.
  split.
  - right. left. reflexivity.
  - apply (pull_request_text_names_every_file "Automya" "ci-templates"
             ["build.yml"] ["deploy.yml"] "deploy.yml").
    right. left. reflexivity.
Defined.
